(** * catkin_tools_python: the build-type plugin for plain Python packages

    A shallow embedding of [catkin_tools_python/job.py]: the stage planner
    [create_python_build_job], the clean planner [create_python_clean_job]
    and the helpers that run as function stages ([fix_shebangs],
    [fix_python3_install_space]), together with the Python string, regular
    expression and path primitives they are written with.

    Python [str] and [bytes] values are modelled as [string] (sequences of
    8-bit characters, read as code points 0..255 for [str]); dictionaries
    with string keys as [gmap string _]; module-level globals as an
    explicit state; exceptions as an error result. *)

From Stdlib Require Import ZArith Ascii String List Bool Lia.
From stdpp Require Import base option list gmap strings pretty.

Local Open Scope stdpp_scope.

(** ** Python string primitives *)

Module Py.

(** The line feed character, written [\n] in the source. *)
Definition LF : string := String "010"%char "".

(** [str.isspace] on the code points below 256, as used by [str.split()]. *)
Definition str_isspace (c : ascii) : bool :=
  let n := N_of_ascii c in
  ((9 <=? n) && (n <=? 13) || (28 <=? n) && (n <=? 32)
   || (n =? 133) || (n =? 160))%N.

(** ASCII whitespace [ \t\n\r\f\v]: the class [\s] of a bytes pattern. *)
Definition bytes_isspace (c : ascii) : bool :=
  let n := N_of_ascii c in
  ((9 <=? n) && (n <=? 13) || (n =? 32))%N.

(** [s.startswith(p)] *)
Fixpoint startswith (p s : string) : bool :=
  match p, s with
  | "", _ => true
  | String a p', String b s' => Ascii.eqb a b && startswith p' s'
  | String _ _, "" => false
  end.

(** [sub in s] *)
Fixpoint contains (sub s : string) : bool :=
  startswith sub s ||
  match s with
  | "" => false
  | String _ s' => contains sub s'
  end.

(** [s.endswith(suf)] *)
Fixpoint endswith (suf s : string) : bool :=
  String.eqb s suf ||
  match s with
  | "" => false
  | String _ s' => endswith suf s'
  end.

(** [s[n:]] *)
Fixpoint drop (n : nat) (s : string) : string :=
  match n, s with
  | O, _ => s
  | S n', String _ s' => drop n' s'
  | S _, "" => ""
  end.

(** [s.replace(old, new)]: every non-overlapping occurrence, scanning from
    the left.  [skip] counts the characters of an occurrence that was just
    replaced and are still to be consumed.  With an empty [old], Python
    inserts [new] before every character and at the end. *)
Fixpoint replace_from (old new : string) (skip : nat) (s : string) : string :=
  match s with
  | "" => match skip, old with
          | O, "" => new
          | _, _ => ""
          end
  | String c s' =>
      match skip with
      | S k => replace_from old new k s'
      | O =>
          match old with
          | "" => new +:+ String c (replace_from old new 0 s')
          | String _ _ =>
              if startswith old s
              then new +:+ replace_from old new (String.length old - 1) s'
              else String c (replace_from old new 0 s')
          end
      end
  end.

Definition replace (old new s : string) : string := replace_from old new 0 s.

(** [s.replace(old, new, 1)]: the first occurrence only. *)
Fixpoint replace_first (old new s : string) : string :=
  if startswith old s then new +:+ drop (String.length old) s
  else match s with
       | "" => ""
       | String c s' => String c (replace_first old new s')
       end.

(** [s.split()]: the maximal runs of non-whitespace characters. [cur] is
    the token being read. *)
Fixpoint split_go (isspace : ascii -> bool) (cur : string) (s : string)
  : list string :=
  match s with
  | "" => match cur with "" => [] | _ => [cur] end
  | String c s' =>
      if isspace c
      then match cur with
           | "" => split_go isspace "" s'
           | _ => cur :: split_go isspace "" s'
           end
      else split_go isspace (cur +:+ String c "") s'
  end.

Definition split (s : string) : list string := split_go str_isspace "" s.
Definition bytes_split (s : string) : list string := split_go bytes_isspace "" s.

(** [sep.join(parts)] *)
Fixpoint join (sep : string) (parts : list string) : string :=
  match parts with
  | [] => ""
  | [p] => p
  | p :: ps => p +:+ sep +:+ join sep ps
  end.

(** [posixpath.join(a, *p)] *)
Definition join2 (path b : string) : string :=
  if startswith "/" b then b
  else if String.eqb path "" || endswith "/" path then path +:+ b
  else path +:+ "/" +:+ b.

Definition os_path_join (a : string) (p : list string) : string :=
  fold_left join2 p a.

(** [int(tok)] on a token without surrounding whitespace: an optional sign
    and decimal digits, single underscores allowed between digits.
    [ValueError] is [None]. *)
Definition digit_val (c : ascii) : option Z :=
  let n := N_of_ascii c in
  if ((48 <=? n) && (n <=? 57))%N then Some (Z.of_N (n - 48)) else None.

Fixpoint digits_val (acc : Z) (after_digit : bool) (s : string) : option Z :=
  match s with
  | "" => if after_digit then Some acc else None
  | String c s' =>
      match digit_val c with
      | Some d => digits_val (10 * acc + d) true s'
      | None =>
          if Ascii.eqb c "_" && after_digit then digits_val acc false s'
          else None
      end
  end.

Definition int (tok : string) : option Z :=
  match tok with
  | String "-" s => Z.opp <$> digits_val 0 false s
  | String "+" s => digits_val 0 false s
  | _ => digits_val 0 false tok
  end.

(** ['%s' % n] for an integer [n] *)
Definition str_of_int (n : Z) : string := pretty n.

(** [s.encode()]: the UTF-8 bytes of a text of code points below 256; a
    code point from 128 on takes two bytes. *)
Definition encode_char (c : ascii) : string :=
  let n := N_of_ascii c in
  if (n <? 128)%N then String c ""
  else String (ascii_of_N (192 + n / 64))
         (String (ascii_of_N (128 + n mod 64)) "").

Fixpoint encode (s : string) : string :=
  match s with
  | "" => ""
  | String c s' => encode_char c +:+ encode s'
  end.

End Py.

(** ** The fragment of [re] used by the module *)

Module Re.

(** Patterns: only literals, concatenation, alternation, the class [\s]
    and the anchor [$] occur in the source. *)
Inductive regex : Type :=
| Lit (s : string)
| Space
| Eol
| Cat (r1 r2 : regex)
| Alt (r1 r2 : regex).

(** [$] without MULTILINE: at the end, or just before a final newline. *)
Definition at_eol (s : string) : bool :=
  String.eqb s "" || String.eqb s Py.LF.

(** [accepts r s k]: some match of [r] at the start of [s] leaves a rest
    accepted by [k]. *)
Fixpoint accepts (r : regex) (s : string) (k : string -> bool) : bool :=
  match r with
  | Lit l => Py.startswith l s && k (Py.drop (String.length l) s)
  | Space =>
      match s with
      | String c s' => Py.bytes_isspace c && k s'
      | "" => false
      end
  | Eol => at_eol s && k s
  | Cat r1 r2 => accepts r1 s (fun s' => accepts r2 s' k)
  | Alt r1 r2 => accepts r1 s k || accepts r2 s k
  end.

(** [re.match(r, s)] as a truth value *)
Definition re_match (r : regex) (s : string) : bool :=
  accepts r s (fun _ => true).

(** [re.search(r, s)] as a truth value *)
Fixpoint re_search (r : regex) (s : string) : bool :=
  re_match r s ||
  match s with
  | "" => false
  | String _ s' => re_search r s'
  end.

End Re.

(** ** Exceptions and state *)

Inductive exn : Type :=
| IOError            (* [open] or [read] failed *)
| SubprocessError    (* [subprocess.check_output] raised *)
| IndexError
| ValueError.

(** A computation over a mutable state [S] that returns or raises. The
    state reached when an exception is raised is kept. *)
Definition M (S A : Type) : Type := S -> (exn + A) * S.

Definition ret {S A} (a : A) : M S A := fun s => (inr a, s).
Definition raise {S A} (e : exn) : M S A := fun s => (inl e, s).
Definition bind {S A B} (c : M S A) (k : A -> M S B) : M S B :=
  fun s => match c s with
           | (inr a, s') => k a s'
           | (inl e, s') => (inl e, s')
           end.
Definition get {S} : M S S := fun s => (inr s, s).
Definition put {S} (s : S) : M S unit := fun _ => (inr tt, s).
Definition or_raise {S A} (e : exn) (o : option A) : M S A :=
  match o with
  | Some a => ret a
  | None => raise e
  end.

Notation "x <- c ;; k" := (bind c (fun x => k))
  (at level 90, c at level 80, right associativity, only parsing).
Notation "c ;;; k" := (bind c (fun _ => k))
  (at level 90, right associativity, only parsing).

(** ** Host data: packages, context, stages and jobs *)

Record Package : Type := { name : string }.

(** The build context of the host; the planner only reads it. *)
Record Context : Type := {
  source_space_abs : string;
  package_build_space : Package -> string;
  package_metadata_path : Package -> string;
  package_dest_path : Package -> string;
  package_final_path : Package -> string;
  cmake_args : list string;
  isolate_install : bool
}.

(** Values bound to stage parameters. *)
Inductive pyval : Type :=
| VNone
| VStr (s : string)
| VInt (n : Z)
| VStrList (l : list string)
| VDict (d : gmap string string)
| VPackage (p : Package)
| VContext (c : Context).

(** The callables handed to function stages. *)
Module Fn.
Inductive t : Type :=
| loadenv | makedirs | copyfiles | renamepath | fix_shebangs
| generate_setup_file | generate_env_file | fix_python3_install_space.
End Fn.

(** Stage descriptors of the host; [locked_resource] defaults to [None]. *)
Inductive Stage : Type :=
| FunctionStage (label : string) (function : Fn.t)
    (locked_resource : option string) (kwargs : list (string * pyval))
| CommandStage (label : string) (cmd : list pyval) (cwd : string)
    (locked_resource : option string).

Definition label (st : Stage) : string :=
  match st with
  | FunctionStage l _ _ _ => l
  | CommandStage l _ _ _ => l
  end.

Definition locked_resource (st : Stage) : option string :=
  match st with
  | FunctionStage _ _ r _ => r
  | CommandStage _ _ _ r => r
  end.

(** The value bound to the parameter [k] of a function stage. *)
Definition kwarg (k : string) (st : Stage) : option pyval :=
  match st with
  | FunctionStage _ _ _ kw => snd <$> find (fun p => String.eqb (fst p) k) kw
  | CommandStage _ _ _ _ => None
  end.

Definition cmd_of (st : Stage) : option (list pyval) :=
  match st with
  | CommandStage _ c _ _ => Some c
  | FunctionStage _ _ _ _ => None
  end.

Definition is_str (v : pyval) : bool :=
  match v with
  | VStr _ => true
  | _ => false
  end.

(** The constructor of the host's [CommandStage], which is not part of
    this repository: it raises [ValueError] unless the command is a list
    of strings. *)
Definition command_stage {S} (label : string) (cmd : list pyval)
    (cwd : string) (locked_resource : option string) : M S Stage :=
  if forallb is_str cmd
  then ret (CommandStage label cmd cwd locked_resource)
  else raise ValueError.

Record Job : Type := {
  jid : string;
  deps : list string;
  env : gmap string string;
  stages : list Stage
}.

(** What planning reads from outside the program. *)
Record Host : Type := {
  os_environ : gmap string string;
  (** [open(path).read()]; [None] when the file is missing or unreadable *)
  open_read : string -> option string;
  (** [subprocess.check_output(argv)]; [None] when the process cannot be
      spawned or exits with a nonzero status *)
  check_output : list string -> option string;
  (** the result of the host's [get_python_install_dir()] *)
  get_python_install_dir : string
}.

(** The module-level globals. *)
Record Globals : Type := {
  PYTHON_EXEC : string;
  RSYNC_EXEC : option string
}.

(** Their values when the module is imported:
    [os.environ.get('PYTHON', sys.executable)] and [which('rsync')]. *)
Definition module_globals (h : Host) (sys_executable : string)
    (which_rsync : option string) : Globals :=
  {| PYTHON_EXEC := default sys_executable (os_environ h !! "PYTHON");
     RSYNC_EXEC := which_rsync |}.

Definition opt_str (o : option string) : pyval :=
  match o with
  | Some s => VStr s
  | None => VNone
  end.

(** ** The planner *)

Definition determine_python_exec (cmake_args : list string) : M Globals unit :=
  let python_directive :=
    List.filter (fun x => Py.contains "PYTHON_EXECUTABLE" x) cmake_args in
  match python_directive with
  | d :: _ =>
      g <- get ;;
      put {| PYTHON_EXEC := Py.replace "-DPYTHON_EXECUTABLE=" "" d;
             RSYNC_EXEC := RSYNC_EXEC g |}
  | [] => ret tt
  end.

Record PythonVersion : Type := { major : Z; minor : Z }.

Definition DQ : string := String (ascii_of_nat 34) "".

Definition py_version_cmd : string :=
  "import sys; print(" +:+ DQ +:+ "%s %s" +:+ DQ +:+ " % sys.version_info[0:2])".

Definition determine_python_version (h : Host) : M Globals PythonVersion :=
  g <- get ;;
  out <- or_raise SubprocessError
           (check_output h [PYTHON_EXEC g; "-c"; py_version_cmd]) ;;
  let check_version := Py.bytes_split out in
  v0 <- or_raise IndexError (check_version !! 0%nat) ;;
  major <- or_raise ValueError (Py.int v0) ;;
  v1 <- or_raise IndexError (check_version !! 1%nat) ;;
  minor <- or_raise ValueError (Py.int v1) ;;
  ret {| major := major; minor := minor |}.

Definition strip_ccache (cc_str : string) : string :=
  let parts := Py.split cc_str in
  Py.join " " (List.filter (fun part => negb (Py.contains "ccache" part)) parts).

(** [job_env = dict(os.environ)] with the [CC] and [CXX] entries stripped. *)
Definition build_job_env (environ : gmap string string) : gmap string string :=
  let job_env := environ in
  let job_env :=
    match job_env !! "CC" with
    | Some cc => <["CC" := strip_ccache cc]> job_env
    | None => job_env
    end in
  let job_env :=
    match job_env !! "CXX" with
    | Some cxx => <["CXX" := strip_ccache cxx]> job_env
    | None => job_env
    end in
  job_env.

(** The pattern ['(from|import) setuptools']. *)
Definition svem_pattern : Re.regex :=
  Re.Cat (Re.Alt (Re.Lit "from") (Re.Lit "import")) (Re.Lit " setuptools").

Definition svem_flag : string := "--single-version-externally-managed".

Definition create_python_build_job (h : Host) (context : Context)
    (package : Package) (package_path : string) (dependencies : list string)
    (force_cmake pre_clean : bool) : M Globals Job :=
  (* Package source space path *)
  let pkg_dir := Py.os_path_join (source_space_abs context) [package_path] in
  (* Package build space path *)
  let build_space := package_build_space context package in
  (* Package metadata path *)
  let metadata_path := package_metadata_path context package in
  (* Environment dictionary for the job *)
  let job_env := build_job_env (os_environ h) in
  (* Get actual staging path *)
  let dest_path := package_dest_path context package in
  let final_path := package_final_path context package in
  (* determine if python executable has been passed in *)
  determine_python_exec (cmake_args context) ;;;
  (* determine python version being used *)
  python_version <- determine_python_version h ;;
  (* Create job stages *)
  let stages := [] in
  let stages := stages ++ [
    FunctionStage "loadenv" Fn.loadenv (Some "installspace")
      [("job_env", VDict job_env); ("package", VPackage package);
       ("context", VContext context)]] in
  let stages := stages ++ [
    FunctionStage "mkdir" Fn.makedirs None [("path", VStr metadata_path)]] in
  let stages := stages ++ [
    FunctionStage "cache-manifest" Fn.copyfiles None
      [("source_paths",
        VStrList [Py.os_path_join (source_space_abs context)
                    [package_path; "package.xml"]]);
       ("dest_path", VStr (Py.os_path_join metadata_path ["package.xml"]))]] in
  setup_file_contents <-
    or_raise IOError (open_read h (Py.os_path_join pkg_dir ["setup.py"])) ;;
  let svem_supported := Re.re_search svem_pattern setup_file_contents in
  (* Python setup install *)
  g <- get ;;
  python_stage <-
    command_stage "python"
      ([VStr (PYTHON_EXEC g); VStr "setup.py";
        VStr "build"; VStr "--build-base"; VStr build_space;
        VStr "install";
        VStr "--root"; VStr build_space;
        VStr "--prefix"; VStr "install"] ++
       (if svem_supported then [VStr svem_flag] else []))
      pkg_dir None ;;
  let stages := stages ++ [python_stage] in
  (* Special path rename required only on Debian. *)
  let python_install_dir := get_python_install_dir h in
  let stages :=
    if Py.contains "dist-packages" python_install_dir then
      let python_install_dir_site :=
        Py.replace "dist-packages" "site-packages" python_install_dir in
      let python_install_dir :=
        if Z.eqb (major python_version) 3 then
          Py.replace
            ("python" +:+ Py.str_of_int (major python_version) +:+ "." +:+
             Py.str_of_int (minor python_version))
            ("python" +:+ Py.str_of_int (major python_version))
            python_install_dir
        else python_install_dir in
      stages ++ [
        FunctionStage "debian-fix" Fn.renamepath None
          [("source_path",
            VStr (Py.os_path_join build_space
                    ["install"; python_install_dir_site]));
           ("dest_path",
            VStr (Py.os_path_join build_space
                    ["install"; python_install_dir]))]]
    else stages in
  (* Create package install space. *)
  let stages := stages ++ [
    FunctionStage "mkdir-install" Fn.makedirs None [("path", VStr dest_path)]] in
  (* Copy files from staging area into final install path, using rsync. *)
  g <- get ;;
  install_stage <-
    command_stage "install"
      [opt_str (RSYNC_EXEC g); VStr "-a";
       VStr (Py.os_path_join build_space ["install"; ""]);
       VStr dest_path]
      pkg_dir (Some "installspace") ;;
  let stages := stages ++ [install_stage] in
  (* fix shebangs that point to the global space to use the python exec *)
  g <- get ;;
  let stages := stages ++ [
    FunctionStage "fix-shebang" Fn.fix_shebangs
      (if isolate_install context then None else Some "installspace")
      [("pkg_dir", VStr dest_path); ("python_exec", VStr (PYTHON_EXEC g))]] in
  (* Determine the location where the setup.sh file should be created *)
  let stages := stages ++ [
    FunctionStage "setupgen" Fn.generate_setup_file None
      [("context", VContext context); ("install_target", VStr dest_path)]] in
  let stages := stages ++ [
    FunctionStage "envgen" Fn.generate_env_file None
      [("context", VContext context); ("install_target", VStr dest_path)]] in
  (* fix the setup.sh which exports PYTHONPATH incorrectly *)
  let stages :=
    if Z.eqb (major python_version) 3 then
      stages ++ [
        FunctionStage "fix_python3_install_space" Fn.fix_python3_install_space
          (Some "installspace")
          [("install_space", VStr dest_path);
           ("old_python",
            VStr (Py.str_of_int (major python_version) +:+ "." +:+
                  Py.str_of_int (minor python_version)));
           ("new_python", VInt (major python_version))]]
    else stages in
  ret {| jid := name package;
         deps := dependencies;
         env := job_env;
         stages := stages |}.

Definition create_python_clean_job (context : Context) (package : Package)
    (package_path : string) (dependencies : list string)
    (dry_run clean_build clean_devel clean_install : bool) : Job :=
  let stages : list Stage := [] in
  (* Package build space path *)
  let build_space := package_build_space context package in
  (* Package metadata path *)
  let metadata_path := package_metadata_path context package in
  (* Environment dictionary for the job, empty for a clean job *)
  let job_env : gmap string string := ∅ in
  let stages : list Stage := [] in
  {| jid := name package;
     deps := dependencies;
     env := job_env;
     stages := stages |}.

(** ** The helpers that run as function stages *)

(** The file system the helpers work on: the content of every regular
    file, by path (such a file can be opened for reading and for writing);
    the other paths that exist, which [open] cannot open (directories,
    files without permission); the listing [os.walk] yields for a
    directory (the helpers rewrite contents only, so it does not change);
    and the paths written so far, oldest first.  The logger and the event
    queue of the host are not modelled. *)
Record FS : Type := {
  files : gmap string string;
  unreadable : gset string;
  os_walk : string -> list (string * list string * list string);
  writes : list string
}.

(** [open(filepath, 'rb').read()] *)
Definition read_bytes (filepath : string) : M FS string :=
  fs <- get ;;
  or_raise IOError (files fs !! filepath).

(** [open(filepath, 'wb').write(contents)] *)
Definition write_bytes (filepath contents : string) : M FS unit :=
  fs <- get ;;
  put {| files := <[filepath := contents]> (files fs);
         unreadable := unreadable fs;
         os_walk := os_walk fs;
         writes := writes fs ++ [filepath] |}.

(** [os.path.exists(filepath)] *)
Definition path_exists (filepath : string) : M FS bool :=
  fs <- get ;;
  ret (bool_decide (is_Some (files fs !! filepath)
                    \/ filepath ∈ unreadable fs)).

Fixpoint for_each {S A} (l : list A) (body : A -> M S unit) : M S unit :=
  match l with
  | [] => ret tt
  | x :: l' => body x ;;; for_each l' body
  end.

(** The patterns [#!/usr/bin/python(\s|$)] and [#!/usr/bin/env python(\s|$)]. *)
Definition shebang_direct : Re.regex :=
  Re.Cat (Re.Lit "#!/usr/bin/python") (Re.Alt Re.Space Re.Eol).
Definition shebang_env : Re.regex :=
  Re.Cat (Re.Lit "#!/usr/bin/env python") (Re.Alt Re.Space Re.Eol).

(** What the loop body of [fix_shebangs] makes of the content of a [.py]
    file, and whether it sets [modified]. *)
Definition fix_shebang_contents (python_exec contents : string) : string * bool :=
  let modified := false in
  let new_shebang := Py.encode ("#!" +:+ python_exec) in
  if Re.re_match shebang_direct contents then
    (Py.replace_first "#!/usr/bin/python" new_shebang contents, true)
  else if Re.re_match shebang_env contents then
    (Py.replace_first "#!/usr/bin/env python" new_shebang contents, true)
  else (contents, modified).

(** The body of the inner loop of [fix_shebangs]. *)
Definition fix_shebang_file (python_exec root filename : string) : M FS unit :=
  if Py.endswith ".py" filename then
    let filepath := Py.os_path_join root [filename] in
    contents <- read_bytes filepath ;;
    let '(contents, modified) := fix_shebang_contents python_exec contents in
    if modified then write_bytes filepath contents else ret tt
  else ret tt.

Definition fix_shebangs (pkg_dir python_exec : string) : M FS Z :=
  fs <- get ;;
  for_each (os_walk fs pkg_dir) (fun '(root, dirnames, file_list) =>
    for_each file_list (fix_shebang_file python_exec root)) ;;;
  ret 0%Z.

Definition fix_python3_install_space (install_space old_python : string)
    (new_python : Z) : M FS Z :=
  let old_python_path := Py.encode ("/lib/python" +:+ old_python) in
  let new_python_path :=
    Py.encode ("/lib/python" +:+ Py.str_of_int new_python) in
  let filepath := Py.os_path_join install_space ["setup.sh"] in
  present <- path_exists filepath ;;
  (if present then
     contents <- read_bytes filepath ;;
     let contents := Py.replace old_python_path new_python_path contents in
     if negb (String.eqb contents "")
     then write_bytes filepath contents
     else ret tt
   else ret tt) ;;;
  ret 0%Z.

(** The first line of a text, without its line end. *)
Fixpoint first_line (s : string) : string :=
  match s with
  | "" => ""
  | String c s' => if Ascii.eqb c "010" then "" else String c (first_line s')
  end.

(** The [.py] files [fix_shebangs] visits under [pkg_dir], in order. *)
Definition walked_py_files (fs : FS) (pkg_dir : string) : list string :=
  flat_map
    (fun '(root, _, file_list) =>
       List.map (fun filename => Py.os_path_join root [filename])
         (List.filter (Py.endswith ".py") file_list))
    (os_walk fs pkg_dir).

(** [s] consists of characters satisfying [f] only. *)
Fixpoint all_chars (f : ascii -> bool) (s : string) : bool :=
  match s with
  | "" => true
  | String c s' => f c && all_chars f s'
  end.

(** A token as [split] produces them: not empty and free of whitespace. *)
Definition is_token (isspace : ascii -> bool) (t : string) : Prop :=
  t <> "" /\ all_chars (fun c => negb (isspace c)) t = true.

(** ** Vocabulary of the statements *)

(** The globals once [determine_python_exec] has run. *)
Definition resolved (context : Context) (g : Globals) : Globals :=
  snd (determine_python_exec (cmake_args context) g).

(** The outcome of the version probe. *)
Definition probe (h : Host) (g : Globals) : exn + PythonVersion :=
  fst (determine_python_version h g).

(** The path of the package's [setup.py] as the planner opens it. *)
Definition setup_py_path (context : Context) (package_path : string) : string :=
  Py.os_path_join (Py.os_path_join (source_space_abs context) [package_path])
    ["setup.py"].

(** The stages of a job with a given name. *)
Definition has_label (l : string) (st : Stage) : bool := String.eqb (label st) l.
Definition stages_named (l : string) (j : Job) : list Stage :=
  List.filter (has_label l) (stages j).

(** The probe output has two leading tokens that [int] accepts. *)
Definition parsable_version (out : string) : Prop :=
  exists t0 t1 rest M N,
    Py.bytes_split out = t0 :: t1 :: rest /\ Py.int t0 = Some M /\ Py.int t1 = Some N.

(** The lock the specification gives the stage named [l]: [installspace]
    for loadenv, install and fix_python3_install_space, for fix-shebang
    unless installs are isolated, and none for every other stage. *)
Definition spec_lock (isolate : bool) (l : string) : option string :=
  if bool_decide (l = "loadenv" \/ l = "install"
                  \/ l = "fix_python3_install_space")
  then Some "installspace"
  else if bool_decide (l = "fix-shebang")
  then (if isolate then None else Some "installspace")
  else None.

(** What may follow a matched interpreter directive: nothing, or a
    whitespace character. *)
Definition directive_end (rest : string) : bool :=
  match rest with
  | "" => true
  | String c _ => Py.bytes_isspace c
  end.

(** [fix_shebang_file] on a path known to name a [.py] file. *)
Definition fix_shebang_path (python_exec filepath : string) : M FS unit :=
  contents <- read_bytes filepath ;;
  let '(contents, modified) := fix_shebang_contents python_exec contents in
  if modified then write_bytes filepath contents else ret tt.

(** ** A worked build: a workspace under [/ws] *)

Definition demo_package : Package := {| name := "tool_pkg" |}.

Definition demo_context : Context := {|
  source_space_abs := "/ws/src";
  package_build_space := fun p => "/ws/build/" +:+ name p;
  package_metadata_path := fun p => "/ws/.catkin_tools/packages/" +:+ name p;
  package_dest_path := fun _ => "/ws/install";
  package_final_path := fun _ => "/ws/install";
  cmake_args := ["-DCMAKE_BUILD_TYPE=Release";
                 "-DPYTHON_EXECUTABLE=/usr/bin/python3"];
  isolate_install := false
|}.

Definition demo_host : Host := {|
  os_environ := <["CC" := "ccache gcc -O2"]> (<["HOME" := "/root"]> ∅);
  open_read := fun path =>
    if String.eqb path "/ws/src/tool_pkg/setup.py"
    then Some ("from setuptools import setup" +:+ Py.LF +:+ "setup()" +:+ Py.LF)
    else None;
  check_output := fun argv =>
    match argv with
    | exe :: _ =>
        if String.eqb exe "/usr/bin/python3" then Some ("3 8" +:+ Py.LF)
        else if String.eqb exe "/usr/bin/python" then Some ("2 7" +:+ Py.LF)
        else None
    | [] => None
    end;
  get_python_install_dir := "lib/python3/dist-packages"
|}.

Definition demo_globals : Globals :=
  module_globals demo_host "/usr/bin/python" (Some "/usr/bin/rsync").

Definition demo_setup_py : string :=
  "from setuptools import setup" +:+ Py.LF +:+ "setup()" +:+ Py.LF.

(** Variations of the worked build. *)
Definition with_cmake_args (args : list string) (isolate : bool) : Context := {|
  source_space_abs := source_space_abs demo_context;
  package_build_space := package_build_space demo_context;
  package_metadata_path := package_metadata_path demo_context;
  package_dest_path := package_dest_path demo_context;
  package_final_path := package_final_path demo_context;
  cmake_args := args;
  isolate_install := isolate
|}.

Definition with_probe_output (out : option string) : Host := {|
  os_environ := os_environ demo_host;
  open_read := open_read demo_host;
  check_output := fun _ => out;
  get_python_install_dir := get_python_install_dir demo_host
|}.

Definition with_install_dir (dir : string) : Host := {|
  os_environ := os_environ demo_host;
  open_read := open_read demo_host;
  check_output := check_output demo_host;
  get_python_install_dir := dir
|}.

(** ** A worked install tree *)

Definition demo_tree : string -> list (string * list string * list string) :=
  fun dir =>
    if String.eqb dir "/ws/install" then
      [("/ws/install", ["bin"; "lib"], ["setup.sh"]);
       ("/ws/install/bin", [], ["tool.py"; "env_tool.py"]);
       ("/ws/install/lib", [], ["versioned.py"; "env3.py"; "notes.txt"])]
    else [].

Definition demo_fs : FS := {|
  files :=
    <["/ws/install/bin/tool.py" :=
        "#!/usr/bin/python" +:+ Py.LF +:+ "import sys" +:+ Py.LF]> (
    <["/ws/install/bin/env_tool.py" := "#!/usr/bin/env python -u" +:+ Py.LF]> (
    <["/ws/install/lib/versioned.py" :=
        "#!/usr/bin/python3.9" +:+ Py.LF +:+ "import os" +:+ Py.LF]> (
    <["/ws/install/lib/env3.py" := "#!/usr/bin/env python3" +:+ Py.LF]> (
    <["/ws/install/lib/notes.txt" := "#!/usr/bin/python" +:+ Py.LF]> (
    <["/ws/install/setup.sh" :=
        "export PYTHONPATH=/ws/install/lib/python3.8/dist-packages:"
        +:+ "/opt/ros/lib/python3.8/dist-packages" +:+ Py.LF]> ∅)))));
  unreadable := ∅;
  os_walk := demo_tree;
  writes := []
|}.

(** The same tree where [setup.sh] names no versioned library path. *)
Definition demo_fs_plain : FS := {|
  files := <["/ws/install/setup.sh" := "export PATH=/ws/install/bin"]> ∅;
  unreadable := ∅;
  os_walk := demo_tree;
  writes := []
|}.

(** The worked tree with a dangling entry [gone.py] listed between the
    two scripts of [bin]. *)
Definition demo_fs_dangling : FS := {|
  files := files demo_fs;
  unreadable := ∅;
  os_walk := fun dir =>
    if String.eqb dir "/ws/install" then
      [("/ws/install/bin", [], ["tool.py"; "gone.py"; "env_tool.py"])]
    else [];
  writes := []
|}.

(** A tree with one script that names the global interpreter and three
    [.py] files that do not begin with either directive: plain code, a
    directive on the second line, and another interpreter path. *)
Definition demo_fs_mixed : FS := {|
  files :=
    <["/ws/install/bin/tool.py" :=
        "#!/usr/bin/python" +:+ Py.LF +:+ "import sys" +:+ Py.LF]> (
    <["/ws/install/bin/plain.py" := "import os" +:+ Py.LF]> (
    <["/ws/install/bin/late.py" :=
        "# tool" +:+ Py.LF +:+ "#!/usr/bin/python" +:+ Py.LF]> (
    <["/ws/install/bin/other.py" := "#!/opt/py2/bin/python" +:+ Py.LF]> ∅)));
  unreadable := ∅;
  os_walk := fun dir =>
    if String.eqb dir "/ws/install" then
      [("/ws/install", ["bin"], []);
       ("/ws/install/bin", [],
        ["tool.py"; "plain.py"; "late.py"; "other.py"])]
    else [];
  writes := []
|}.

(** The worked tree where [setup.sh] is a directory. *)
Definition demo_fs_setup_dir : FS := {|
  files := delete "/ws/install/setup.sh" (files demo_fs);
  unreadable := {["/ws/install/setup.sh"]};
  os_walk := demo_tree;
  writes := []
|}.

(** The content begins with one of the two directives [fix_shebangs]
    looks for. *)
Definition has_global_shebang (contents : string) : bool :=
  Re.re_match shebang_direct contents || Re.re_match shebang_env contents.

(** The file at [path] exists and begins with such a directive. *)
Definition needs_shebang_fix (fs : FS) (path : string) : bool :=
  match files fs !! path with
  | Some contents => has_global_shebang contents
  | None => false
  end.

(** * Properties *)

#[local] Arguments String.append !_ _ / : simpl nomatch.

(** ** The primitives on small inputs *)

Example split_demo :
  Py.split ("  ccache  gcc" +:+ Py.LF +:+ "-O2 ") = ["ccache"; "gcc"; "-O2"].
Proof. reflexivity. Qed.

Example replace_demo :
  Py.replace "ab" "X" "abcabab" = "XcXX" /\ Py.replace "" "X" "abc" = "XaXbXcX"
  /\ Py.replace "aa" "b" "aaa" = "ba" /\ Py.replace_first "ab" "X" "cabab" = "cXab".
Proof. repeat split; reflexivity. Qed.

Example join_demo :
  Py.os_path_join "/ws/build/pkg" ["install"; ""] = "/ws/build/pkg/install/"
  /\ Py.os_path_join "/ws/src" ["/abs"; "package.xml"] = "/abs/package.xml".
Proof. split; reflexivity. Qed.

Example int_demo :
  Py.int "3" = Some 3%Z /\ Py.int "-12" = Some (-12)%Z /\ Py.int "1_0" = Some 10%Z
  /\ Py.int "3.8" = None /\ Py.int "" = None /\ Py.int "_1" = None
  /\ Py.str_of_int 38 = "38".
Proof. repeat split; reflexivity. Qed.

Example regex_demo :
  Re.re_match shebang_direct ("#!/usr/bin/python" +:+ Py.LF) = true
  /\ Re.re_match shebang_direct "#!/usr/bin/python" = true
  /\ Re.re_match shebang_direct "#!/usr/bin/python -u" = true
  /\ Re.re_match shebang_direct "#!/usr/bin/python3.9 " = false
  /\ Re.re_match shebang_direct " #!/usr/bin/python" = false
  /\ Re.re_match shebang_env "#!/usr/bin/env python3" = false
  /\ Re.re_match shebang_env "#!/usr/bin/env python" = true.
Proof. repeat split; reflexivity. Qed.

(** ** Facts about the string primitives *)

Section StringFacts.

Lemma app_empty_r (s : string) : s +:+ "" = s.
Proof. induction s as [|a s IH]; simpl; [done | by rewrite IH]. Qed.

Lemma app_assoc_str (s t u : string) : (s +:+ t) +:+ u = s +:+ (t +:+ u).
Proof. induction s as [|a s IH]; simpl; [done | by rewrite IH]. Qed.

Lemma startswith_app (p s : string) : Py.startswith p (p +:+ s) = true.
Proof.
  induction p as [|a p IH]; simpl; [done |].
  by rewrite Ascii.eqb_refl, IH.
Qed.

Lemma drop_app (p s : string) : Py.drop (String.length p) (p +:+ s) = s.
Proof. induction p as [|a p IH]; simpl; [by destruct s | done]. Qed.

Lemma startswith_split (p s : string) :
  Py.startswith p s = true -> s = p +:+ Py.drop (String.length p) s.
Proof.
  revert s. induction p as [|a p IH]; intros s H; simpl in *.
  - by destruct s.
  - destruct s as [|b s]; [done |].
    apply andb_true_iff in H as [Hab Hp].
    apply Ascii.eqb_eq in Hab as ->. simpl. f_equal. by apply IH.
Qed.

Lemma startswith_iff (p s : string) :
  Py.startswith p s = true <-> exists r, s = p +:+ r.
Proof.
  split.
  - intros H. eexists. by apply startswith_split.
  - intros [r ->]. apply startswith_app.
Qed.

Lemma contains_cons (sub : string) (c : ascii) (s : string) :
  Py.contains sub (String c s)
  = Py.startswith sub (String c s) || Py.contains sub s.
Proof. done. Qed.

Lemma contains_false_startswith (sub s : string) :
  Py.contains sub s = false -> Py.startswith sub s = false.
Proof.
  destruct s; simpl; intros H; apply orb_false_iff in H; tauto.
Qed.

(** [sub in s] holds exactly when [s] is [a + sub + b] for some [a], [b]. *)
Lemma contains_iff (sub s : string) :
  Py.contains sub s = true <-> exists a b, s = a +:+ sub +:+ b.
Proof.
  split.
  - induction s as [|c s IH]; simpl; intros H.
    + rewrite orb_false_r in H. apply startswith_iff in H as [r ->].
      by exists "", r.
    + apply orb_true_iff in H as [H|H].
      * apply startswith_iff in H as [r ->]. by exists "", r.
      * destruct (IH H) as (a & b & ->). by exists (String c a), b.
  - intros (a & b & ->). induction a as [|c a IH]; simpl.
    + pose proof (startswith_app sub b) as H.
      destruct (sub +:+ b); simpl in *; by rewrite H.
    + rewrite IH. apply orb_true_r.
Qed.

Lemma replace_from_skip (old new t s : string) :
  Py.replace_from old new (String.length t) (t +:+ s)
  = Py.replace_from old new 0 s.
Proof. induction t as [|a t IH]; simpl; [by destruct s | done]. Qed.

(** An occurrence at the front is replaced and scanning resumes behind it. *)
Lemma replace_at_occurrence (old new rest : string) :
  old <> "" ->
  Py.replace old new (old +:+ rest) = new +:+ Py.replace old new rest.
Proof.
  destruct old as [|a old]; [done | intros _].
  unfold Py.replace. simpl.
  rewrite Ascii.eqb_refl, startswith_app. simpl.
  by rewrite Nat.sub_0_r, replace_from_skip.
Qed.

(** Where no occurrence starts, the character is kept. *)
Lemma replace_no_occurrence_here (old new : string) (c : ascii) (s : string) :
  old <> "" -> Py.startswith old (String c s) = false ->
  Py.replace old new (String c s) = String c (Py.replace old new s).
Proof.
  destruct old as [|a old]; [done | intros _ H].
  unfold Py.replace. cbn [Py.replace_from]. by rewrite H.
Qed.

(** Without any occurrence the text is returned as it is. *)
Lemma replace_absent (old new s : string) :
  old <> "" -> Py.contains old s = false -> Py.replace old new s = s.
Proof.
  intros Hold. induction s as [|c s IH]; intros H.
  - by destruct old.
  - rewrite contains_cons in H. apply orb_false_iff in H as [H1 H2].
    rewrite replace_no_occurrence_here by done. by rewrite IH.
Qed.

Lemma replace_first_at_front (old new s : string) :
  Py.startswith old s = true ->
  Py.replace_first old new s = new +:+ Py.drop (String.length old) s.
Proof. intros H. destruct s; simpl; by rewrite H. Qed.

End StringFacts.

(** ** Running the planner *)

Section Planner.

Variables (h : Host) (context : Context) (package : Package)
          (package_path : string) (dependencies : list string)
          (force_cmake pre_clean : bool) (g : Globals).

Lemma determine_python_exec_returns :
  determine_python_exec (cmake_args context) g = (inr tt, resolved context g).
Proof.
  unfold resolved, determine_python_exec.
  by destruct (List.filter _ _).
Qed.

Lemma resolved_exec :
  PYTHON_EXEC (resolved context g)
  = match List.filter (fun x => Py.contains "PYTHON_EXECUTABLE" x)
            (cmake_args context) with
    | d :: _ => Py.replace "-DPYTHON_EXECUTABLE=" "" d
    | [] => PYTHON_EXEC g
    end.
Proof.
  unfold resolved, determine_python_exec.
  by destruct (List.filter _ _).
Qed.

Lemma resolved_rsync : RSYNC_EXEC (resolved context g) = RSYNC_EXEC g.
Proof.
  unfold resolved, determine_python_exec.
  by destruct (List.filter _ _).
Qed.

(** The probe reads the globals and leaves them as they are. *)
Lemma determine_python_version_state (g0 : Globals) :
  determine_python_version h g0 = (probe h g0, g0).
Proof.
  unfold probe, determine_python_version, bind, get, or_raise, ret, raise.
  repeat (match goal with
          | |- context [match ?o with Some _ => _ | None => _ end] =>
              destruct o
          end; simpl; try done).
Qed.

(** The probe succeeds exactly on a parsable output of the interpreter. *)
Lemma probe_ok_iff (g0 : Globals) :
  (exists v, probe h g0 = inr v) <->
  exists out, check_output h [PYTHON_EXEC g0; "-c"; py_version_cmd] = Some out
              /\ parsable_version out.
Proof.
  unfold probe, determine_python_version, bind, get, or_raise, ret, raise,
    parsable_version.
  simpl. destruct (check_output h _) as [out|]; simpl.
  2: { split; [intros [v Hv]; done | intros (out & Hout & _); done]. }
  destruct (Py.bytes_split out) as [|t0 [|t1 rest]] eqn:Hs; simpl.
  - split; [intros [v Hv]; done |].
    intros (o & [= <-] & t0 & t1 & r & M0 & N0 & Hr & _). congruence.
  - destruct (Py.int t0); simpl.
    + split; [intros [v Hv]; done |].
      intros (o & [= <-] & ? & ? & ? & ? & ? & Hr & _). congruence.
    + split; [intros [v Hv]; done |].
      intros (o & [= <-] & ? & ? & ? & ? & ? & Hr & _). congruence.
  - destruct (Py.int t0) as [M0|] eqn:H0; simpl.
    + destruct (Py.int t1) as [N0|] eqn:H1; simpl.
      * split; [intros _ | by eauto].
        exists out. split; [done |]. by exists t0, t1, rest, M0, N0.
      * split; [intros [v Hv]; done |].
        intros (o & [= <-] & ? & ? & ? & ? & ? & Hr & ? & ?).
        rewrite Hs in Hr. simplify_eq.
    + split; [intros [v Hv]; done |].
      intros (o & [= <-] & ? & ? & ? & ? & ? & Hr & ? & ?).
      rewrite Hs in Hr. simplify_eq.
Qed.

(** The planner's result when the probe and the read of [setup.py]
    succeed: every stage with its parameters. *)
Lemma build_job_run (v : PythonVersion) (contents : string) :
  probe h (resolved context g) = inr v ->
  open_read h (setup_py_path context package_path) = Some contents ->
  RSYNC_EXEC g <> None ->
  let exec := PYTHON_EXEC (resolved context g) in
  let pkg_dir := Py.os_path_join (source_space_abs context) [package_path] in
  let build_space := package_build_space context package in
  let metadata_path := package_metadata_path context package in
  let dest_path := package_dest_path context package in
  let job_env := build_job_env (os_environ h) in
  let install_dir := get_python_install_dir h in
  create_python_build_job h context package package_path dependencies
    force_cmake pre_clean g
  = (inr {|
       jid := name package;
       deps := dependencies;
       env := job_env;
       stages :=
         ([FunctionStage "loadenv" Fn.loadenv (Some "installspace")
             [("job_env", VDict job_env); ("package", VPackage package);
              ("context", VContext context)];
           FunctionStage "mkdir" Fn.makedirs None
             [("path", VStr metadata_path)];
           FunctionStage "cache-manifest" Fn.copyfiles None
             [("source_paths",
               VStrList [Py.os_path_join (source_space_abs context)
                           [package_path; "package.xml"]]);
              ("dest_path",
               VStr (Py.os_path_join metadata_path ["package.xml"]))];
           CommandStage "python"
             ([VStr exec; VStr "setup.py"; VStr "build";
               VStr "--build-base"; VStr build_space; VStr "install";
               VStr "--root"; VStr build_space; VStr "--prefix";
               VStr "install"] ++
              (if Re.re_search svem_pattern contents
               then [VStr svem_flag] else []))
             pkg_dir None] ++
          (if Py.contains "dist-packages" install_dir then
             [FunctionStage "debian-fix" Fn.renamepath None
                [("source_path",
                  VStr (Py.os_path_join build_space
                          ["install";
                           Py.replace "dist-packages" "site-packages"
                             install_dir]));
                 ("dest_path",
                  VStr (Py.os_path_join build_space
                          ["install";
                           if Z.eqb (major v) 3 then
                             Py.replace
                               ("python" +:+ Py.str_of_int (major v) +:+ "."
                                +:+ Py.str_of_int (minor v))
                               ("python" +:+ Py.str_of_int (major v))
                               install_dir
                           else install_dir]))]]
           else []) ++
          [FunctionStage "mkdir-install" Fn.makedirs None
             [("path", VStr dest_path)];
           CommandStage "install"
             [opt_str (RSYNC_EXEC g); VStr "-a";
              VStr (Py.os_path_join build_space ["install"; ""]);
              VStr dest_path]
             pkg_dir (Some "installspace");
           FunctionStage "fix-shebang" Fn.fix_shebangs
             (if isolate_install context then None else Some "installspace")
             [("pkg_dir", VStr dest_path); ("python_exec", VStr exec)];
           FunctionStage "setupgen" Fn.generate_setup_file None
             [("context", VContext context);
              ("install_target", VStr dest_path)];
           FunctionStage "envgen" Fn.generate_env_file None
             [("context", VContext context);
              ("install_target", VStr dest_path)]] ++
          (if Z.eqb (major v) 3 then
             [FunctionStage "fix_python3_install_space"
                Fn.fix_python3_install_space (Some "installspace")
                [("install_space", VStr dest_path);
                 ("old_python",
                  VStr (Py.str_of_int (major v) +:+ "." +:+
                        Py.str_of_int (minor v)));
                 ("new_python", VInt (major v))]]
           else []))%list |},
     resolved context g).
Proof.
  intros Hprobe Hread Hrsync. unfold setup_py_path in Hread.
  unfold create_python_build_job, bind.
  rewrite determine_python_exec_returns, determine_python_version_state, Hprobe.
  rewrite Hread. unfold or_raise, ret, get, command_stage.
  pose proof resolved_rsync as Hresolved.
  destruct (Re.re_search svem_pattern contents);
    cbn [forallb is_str app andb opt_str]; cbv beta iota delta [ret];
    rewrite Hresolved;
    (destruct (RSYNC_EXEC g) as [rsync|]; [| done]);
    destruct (Py.contains "dist-packages" _), (Z.eqb (major v) 3);
    reflexivity.
Qed.

(** Without an rsync executable the construction of the install command
    stage raises, after the probe and the read of [setup.py]. *)
Lemma build_job_rsync_raises (v : PythonVersion) (contents : string) :
  probe h (resolved context g) = inr v ->
  open_read h (setup_py_path context package_path) = Some contents ->
  RSYNC_EXEC g = None ->
  create_python_build_job h context package package_path dependencies
    force_cmake pre_clean g = (inl ValueError, resolved context g).
Proof.
  intros Hprobe Hread Hrsync. unfold setup_py_path in Hread.
  unfold create_python_build_job, bind.
  rewrite determine_python_exec_returns, determine_python_version_state, Hprobe.
  rewrite Hread. unfold or_raise, ret, get, command_stage.
  pose proof resolved_rsync as Hresolved.
  destruct (Re.re_search svem_pattern contents);
    cbn [forallb is_str app andb opt_str]; cbv beta iota delta [ret];
    by rewrite Hresolved, Hrsync.
Qed.

(** A failing probe aborts planning with the probe's exception. *)
Lemma build_job_probe_raises (e : exn) :
  probe h (resolved context g) = inl e ->
  create_python_build_job h context package package_path dependencies
    force_cmake pre_clean g = (inl e, resolved context g).
Proof.
  intros Hprobe. unfold create_python_build_job, bind.
  by rewrite determine_python_exec_returns, determine_python_version_state,
    Hprobe.
Qed.

(** An unreadable [setup.py] aborts planning. *)
Lemma build_job_read_raises (v : PythonVersion) :
  probe h (resolved context g) = inr v ->
  open_read h (setup_py_path context package_path) = None ->
  create_python_build_job h context package package_path dependencies
    force_cmake pre_clean g = (inl IOError, resolved context g).
Proof.
  intros Hprobe Hread. unfold setup_py_path in Hread.
  unfold create_python_build_job, bind.
  rewrite determine_python_exec_returns, determine_python_version_state, Hprobe.
  by rewrite Hread.
Qed.

End Planner.

(** ** Tokens: [split] and [join] *)

Section Tokens.

Variable isspace : ascii -> bool.
Hypothesis blank_is_space : isspace " " = true.

Let solid (c : ascii) : bool := negb (isspace c).

Lemma all_chars_app (f : ascii -> bool) (s t : string) :
  all_chars f (s +:+ t) = all_chars f s && all_chars f t.
Proof.
  induction s as [|a s IH]; simpl; [done |].
  by rewrite IH, andb_assoc.
Qed.

Lemma app_not_empty_r (s : string) (c : ascii) : s +:+ String c "" <> "".
Proof. by destruct s. Qed.

(** Reading a whitespace-free text extends the current token. *)
Lemma split_go_solid (cur t s : string) :
  all_chars solid t = true ->
  Py.split_go isspace cur (t +:+ s) = Py.split_go isspace (cur +:+ t) s.
Proof.
  revert cur. induction t as [|c t IH]; intros cur Ht; simpl in *.
  - by rewrite app_empty_r.
  - apply andb_true_iff in Ht as [Hc Ht]. unfold solid in Hc.
    apply negb_true_iff in Hc. rewrite Hc, IH by done.
    by rewrite app_assoc_str.
Qed.

(** Every token that [split] returns is not empty and has no whitespace. *)
Lemma split_go_tokens (cur s : string) :
  all_chars solid cur = true ->
  Forall (is_token isspace) (Py.split_go isspace cur s).
Proof.
  revert cur. induction s as [|c s IH]; intros cur Hcur; simpl.
  - destruct cur as [|a cur]; [constructor |].
    repeat constructor; done.
  - destruct (isspace c) eqn:Hc.
    + destruct cur as [|a cur]; [by apply IH |].
      constructor; [by split | by apply IH].
    + apply IH. rewrite all_chars_app, Hcur. simpl.
      unfold solid at 1. by rewrite Hc.
Qed.

(** Splitting a text joined from tokens gives the tokens back. *)
Lemma split_go_join (toks : list string) :
  Forall (is_token isspace) toks ->
  Py.split_go isspace "" (Py.join " " toks) = toks.
Proof.
  induction toks as [|t toks IH]; intros Htoks; [done |].
  apply Forall_cons in Htoks as [[Hne Ht] Htoks].
  destruct toks as [|t' toks].
  - simpl. rewrite <- (app_empty_r t) at 1.
    rewrite split_go_solid by done. simpl. by destruct t.
  - change (Py.join " " (t :: t' :: toks))
      with (t +:+ " " +:+ Py.join " " (t' :: toks)).
    rewrite split_go_solid by done.
    change (" " +:+ Py.join " " (t' :: toks))
      with (String " " (Py.join " " (t' :: toks))).
    cbn [Py.split_go String.append]. rewrite blank_is_space.
    destruct t as [|a t]; [done |]. f_equal. by apply IH.
Qed.

End Tokens.

Lemma filter_twice {A} (f : A -> bool) (l : list A) :
  List.filter f (List.filter f l) = List.filter f l.
Proof.
  induction l as [|x l IH]; simpl; [done |].
  destruct (f x) eqn:E; simpl; [by rewrite E, IH | done].
Qed.

Lemma Forall_list_filter {A} (P : A -> Prop) (f : A -> bool) (l : list A) :
  Forall P l -> Forall P (List.filter f l).
Proof.
  induction 1 as [|x l Hx Hl IH]; simpl; [constructor |].
  destruct (f x); [by constructor | done].
Qed.

(** The tokens of a stripped compiler string are the tokens of the
    original that do not contain [ccache], in their order. *)
Lemma split_strip_ccache (s : string) :
  Py.split (strip_ccache s)
  = List.filter (fun part => negb (Py.contains "ccache" part)) (Py.split s).
Proof.
  unfold strip_ccache, Py.split. apply split_go_join; [done |].
  apply Forall_list_filter. by apply split_go_tokens.
Qed.

Lemma strip_ccache_idempotent (s : string) :
  strip_ccache (strip_ccache s) = strip_ccache s.
Proof.
  unfold strip_ccache at 1. rewrite split_strip_ccache.
  by rewrite filter_twice.
Qed.

Lemma build_job_env_lookup (environ : gmap string string) (k : string) :
  build_job_env environ !! k
  = if bool_decide (k = "CC" \/ k = "CXX")
    then strip_ccache <$> environ !! k
    else environ !! k.
Proof.
  unfold build_job_env.
  destruct (environ !! "CC") as [cc|] eqn:Hcc.
  - rewrite lookup_insert_ne by done.
    destruct (environ !! "CXX") as [cxx|] eqn:Hcxx.
    + destruct (decide (k = "CXX")) as [->|Hk1].
      { rewrite lookup_insert_eq, Hcxx. by rewrite bool_decide_eq_true_2 by auto. }
      rewrite lookup_insert_ne by done.
      destruct (decide (k = "CC")) as [->|Hk2].
      { rewrite lookup_insert_eq, Hcc. by rewrite bool_decide_eq_true_2 by auto. }
      rewrite lookup_insert_ne by done.
      by rewrite bool_decide_eq_false_2 by tauto.
    + destruct (decide (k = "CC")) as [->|Hk2].
      { rewrite lookup_insert_eq, Hcc. by rewrite bool_decide_eq_true_2 by auto. }
      rewrite lookup_insert_ne by done.
      case_bool_decide as Hk; [|done].
      destruct Hk as [->| ->]; [done | by rewrite Hcxx].
  - destruct (environ !! "CXX") as [cxx|] eqn:Hcxx.
    + destruct (decide (k = "CXX")) as [->|Hk1].
      { rewrite lookup_insert_eq, Hcxx. by rewrite bool_decide_eq_true_2 by auto. }
      rewrite lookup_insert_ne by done.
      case_bool_decide as Hk; [|done].
      destruct Hk as [->| ->]; [by rewrite Hcc | done].
    + case_bool_decide as Hk; [|done].
      destruct Hk as [->| ->]; [by rewrite Hcc | by rewrite Hcxx].
Qed.

(** ** The stage sequence *)

(** C1: when the version probe and the read of [setup.py] succeed and an
    rsync executable was found, [create_python_build_job] returns a Job
    whose stages are, in order, loadenv, mkdir, cache-manifest, python,
    then debian-fix exactly when the install-directory name contains
    [dist-packages], then mkdir-install, install, fix-shebang, setupgen,
    envgen, and last fix_python3_install_space exactly when the probed
    major version is 3; the Job has the package name as id, the given
    dependencies and the built environment: the ambient environment with
    the [CC] and [CXX] entries, where present, replaced by their tokens
    without [ccache] joined by blanks. *)
Theorem build_job_stage_sequence
    (h : Host) (context : Context) (package : Package) (package_path : string)
    (dependencies : list string) (force_cmake pre_clean : bool) (g : Globals)
    (v : PythonVersion) (contents : string) :
  probe h (resolved context g) = inr v ->
  open_read h (setup_py_path context package_path) = Some contents ->
  RSYNC_EXEC g <> None ->
  exists job g',
    create_python_build_job h context package package_path dependencies
      force_cmake pre_clean g = (inr job, g')
    /\ label <$> stages job
       = ["loadenv"; "mkdir"; "cache-manifest"; "python"]
         ++ (if Py.contains "dist-packages" (get_python_install_dir h)
             then ["debian-fix"] else [])
         ++ ["mkdir-install"; "install"; "fix-shebang"; "setupgen"; "envgen"]
         ++ (if Z.eqb (major v) 3 then ["fix_python3_install_space"] else [])
    /\ jid job = name package
    /\ deps job = dependencies
    /\ env job = build_job_env (os_environ h)
    /\ (forall k,
          env job !! k
          = if bool_decide (k = "CC" \/ k = "CXX")
            then (fun value =>
                    Py.join " "
                      (List.filter
                         (fun part => negb (Py.contains "ccache" part))
                         (Py.split value)))
                 <$> os_environ h !! k
            else os_environ h !! k).
Proof.
  intros Hprobe Hread Hrsync. eexists _, _. split.
  - by apply build_job_run.
  - cbn [stages jid deps env]. repeat split.
    + by destruct (Py.contains _ _), (Z.eqb _ _).
    + intros k. apply build_job_env_lookup.
Qed.

Lemma build_job_stage_sequence_demo :
  exists job g',
    create_python_build_job demo_host demo_context demo_package "tool_pkg"
      ["dep_a"] false false demo_globals = (inr job, g')
    /\ label <$> stages job
       = ["loadenv"; "mkdir"; "cache-manifest"; "python"; "debian-fix";
          "mkdir-install"; "install"; "fix-shebang"; "setupgen"; "envgen";
          "fix_python3_install_space"]
    /\ jid job = "tool_pkg"
    /\ deps job = ["dep_a"]
    /\ env job = build_job_env (os_environ demo_host)
    /\ (forall k,
          env job !! k
          = if bool_decide (k = "CC" \/ k = "CXX")
            then (fun value =>
                    Py.join " "
                      (List.filter
                         (fun part => negb (Py.contains "ccache" part))
                         (Py.split value)))
                 <$> os_environ demo_host !! k
            else os_environ demo_host !! k).
Proof.
  apply (build_job_stage_sequence demo_host demo_context demo_package
           "tool_pkg" ["dep_a"] false false demo_globals
           {| major := 3; minor := 8 |} demo_setup_py).
  - vm_compute. reflexivity.
  - vm_compute. reflexivity.
  - vm_compute. discriminate.
Defined.

(** The environment of the worked build: [CC] loses its [ccache] token,
    the other entries are those of the ambient environment. *)
Example build_job_stage_sequence_env_demo :
  exists job g',
    create_python_build_job demo_host demo_context demo_package "tool_pkg"
      ["dep_a"] false false demo_globals = (inr job, g')
    /\ os_environ demo_host !! "CC" = Some "ccache gcc -O2"
    /\ env job !! "CC" = Some "gcc -O2"
    /\ env job !! "HOME" = Some "/root"
    /\ env job !! "CXX" = None.
Proof.
  eexists _, _. split; [vm_compute; reflexivity |].
  repeat split; vm_compute; reflexivity.
Qed.

(** ** The job environment *)

(** C6: [strip_ccache] joins with single spaces the whitespace-separated
    tokens that do not contain [ccache]; it maps "ccache gcc -O2" and
    "gcc -O2" to "gcc -O2", is idempotent and keeps the remaining tokens in
    order; the environment of the returned Job is the ambient environment
    with [strip_ccache] applied to the [CC] and [CXX] entries that are
    present and every other entry unchanged. *)
Theorem strip_ccache_job_env :
  strip_ccache "ccache gcc -O2" = "gcc -O2"
  /\ strip_ccache "gcc -O2" = "gcc -O2"
  /\ (forall s, strip_ccache (strip_ccache s) = strip_ccache s)
  /\ (forall s,
        Py.split (strip_ccache s)
        = List.filter (fun part => negb (Py.contains "ccache" part)) (Py.split s)
        /\ strip_ccache s = Py.join " " (Py.split (strip_ccache s)))
  /\ (forall (h : Host) (context : Context) (package : Package)
             (package_path : string) (dependencies : list string)
             (force_cmake pre_clean : bool) (g : Globals)
             (v : PythonVersion) (contents : string),
        probe h (resolved context g) = inr v ->
        open_read h (setup_py_path context package_path) = Some contents ->
        RSYNC_EXEC g <> None ->
        exists job g',
          create_python_build_job h context package package_path dependencies
            force_cmake pre_clean g = (inr job, g')
          /\ forall k,
               env job !! k
               = if bool_decide (k = "CC" \/ k = "CXX")
                 then strip_ccache <$> os_environ h !! k
                 else os_environ h !! k).
Proof.
  split; [done |]. split; [done |].
  split; [apply strip_ccache_idempotent |].
  split.
  - intros s. split; [apply split_strip_ccache |].
    by rewrite split_strip_ccache.
  - intros h context package package_path dependencies force_cmake pre_clean
      g v contents Hprobe Hread Hrsync.
    eexists _, _. split; [by apply build_job_run |].
    intros k. cbn [env]. apply build_job_env_lookup.
Qed.

Lemma strip_ccache_job_env_demo :
  exists job g',
    create_python_build_job demo_host demo_context demo_package "tool_pkg"
      ["dep_a"] false false demo_globals = (inr job, g')
    /\ forall k,
         env job !! k
         = if bool_decide (k = "CC" \/ k = "CXX")
           then strip_ccache <$> os_environ demo_host !! k
           else os_environ demo_host !! k.
Proof.
  destruct strip_ccache_job_env as (_ & _ & _ & _ & Hjob).
  apply (Hjob demo_host demo_context demo_package "tool_pkg" ["dep_a"] false
           false demo_globals {| major := 3; minor := 8 |} demo_setup_py).
  - vm_compute. reflexivity.
  - vm_compute. reflexivity.
  - vm_compute. discriminate.
Defined.

Example build_job_env_demo :
  build_job_env (os_environ demo_host) !! "CC" = Some "gcc -O2"
  /\ build_job_env (os_environ demo_host) !! "HOME" = Some "/root"
  /\ build_job_env (os_environ demo_host) !! "CXX" = None.
Proof. repeat split; vm_compute; reflexivity. Qed.

(** ** Locks *)

(** Finds a stage with the stated properties in a list built by [++]. *)
Ltac find_stage :=
  lazymatch goal with
  | |- Exists _ (_ ++ _) =>
      apply Exists_app; first [left; find_stage | right; find_stage]
  | |- Exists _ (_ :: _) =>
      first [apply Exists_cons_hd; repeat split; reflexivity
            | apply Exists_cons_tl; find_stage]
  end.

(** C7: in the returned stage list loadenv, install and
    fix_python3_install_space (when present) declare the [installspace]
    lock, fix-shebang declares it exactly when the isolate-install flag is
    not set, and no other stage declares a lock. *)
Theorem build_job_locks
    (h : Host) (context : Context) (package : Package) (package_path : string)
    (dependencies : list string) (force_cmake pre_clean : bool) (g : Globals)
    (v : PythonVersion) (contents : string) :
  probe h (resolved context g) = inr v ->
  open_read h (setup_py_path context package_path) = Some contents ->
  RSYNC_EXEC g <> None ->
  exists job g',
    create_python_build_job h context package package_path dependencies
      force_cmake pre_clean g = (inr job, g')
    /\ Forall (fun st =>
                 locked_resource st
                 = spec_lock (isolate_install context) (label st))
         (stages job)
    /\ Exists (fun st => label st = "loadenv"
                          /\ locked_resource st = Some "installspace")
         (stages job)
    /\ Exists (fun st => label st = "install"
                          /\ locked_resource st = Some "installspace")
         (stages job)
    /\ Exists (fun st => label st = "fix-shebang"
                          /\ locked_resource st
                             = if isolate_install context then None
                               else Some "installspace")
         (stages job)
    /\ (major v = 3%Z ->
        Exists (fun st => label st = "fix_python3_install_space"
                          /\ locked_resource st = Some "installspace")
          (stages job)).
Proof.
  intros Hprobe Hread Hrsync. eexists _, _. split; [by apply build_job_run |].
  cbn [stages]. split.
  { destruct (Py.contains _ _), (Z.eqb _ _); repeat constructor. }
  repeat split; try (intros Hv; rewrite Hv; cbn [Z.eqb Pos.eqb]);
    find_stage.
Qed.

Lemma build_job_locks_demo :
  exists job g',
    create_python_build_job demo_host demo_context demo_package "tool_pkg"
      ["dep_a"] false false demo_globals = (inr job, g')
    /\ Forall (fun st => locked_resource st = spec_lock false (label st))
         (stages job)
    /\ Exists (fun st => label st = "loadenv"
                          /\ locked_resource st = Some "installspace")
         (stages job)
    /\ Exists (fun st => label st = "install"
                          /\ locked_resource st = Some "installspace")
         (stages job)
    /\ Exists (fun st => label st = "fix-shebang"
                          /\ locked_resource st = Some "installspace")
         (stages job)
    /\ (3%Z = 3%Z ->
        Exists (fun st => label st = "fix_python3_install_space"
                          /\ locked_resource st = Some "installspace")
          (stages job)).
Proof.
  apply (build_job_locks demo_host demo_context demo_package
           "tool_pkg" ["dep_a"] false false demo_globals
           {| major := 3; minor := 8 |} demo_setup_py).
  - vm_compute. reflexivity.
  - vm_compute. reflexivity.
  - vm_compute. discriminate.
Defined.

(** ** The interpreter *)

Lemma filter_none_matching {A} (f : A -> bool) (l : list A) :
  Forall (fun x => f x = false) l -> List.filter f l = [].
Proof.
  induction 1 as [|x l Hx Hl IH]; simpl; [done | by rewrite Hx].
Qed.

Lemma filter_first_matching {A} (f : A -> bool) (pre : list A) (d : A)
    (rest : list A) :
  Forall (fun x => f x = false) pre -> f d = true ->
  List.filter f (pre ++ d :: rest) = d :: List.filter f rest.
Proof.
  intros Hpre Hd. rewrite List.filter_app, filter_none_matching by done.
  simpl. by rewrite Hd.
Qed.

(** Without an argument naming [PYTHON_EXECUTABLE] the interpreter stays
    the one in the module global. *)
Lemma resolved_exec_default (context : Context) (g : Globals) :
  Forall (fun x => Py.contains "PYTHON_EXECUTABLE" x = false)
    (cmake_args context) ->
  PYTHON_EXEC (resolved context g) = PYTHON_EXEC g.
Proof.
  intros H. rewrite resolved_exec. by rewrite filter_none_matching.
Qed.

(** The first argument naming [PYTHON_EXECUTABLE], when it is
    [-DPYTHON_EXECUTABLE=<path>], selects [<path>]. *)
Lemma resolved_exec_directive (context : Context) (g : Globals)
    (pre rest : list string) (path : string) :
  cmake_args context = pre ++ ("-DPYTHON_EXECUTABLE=" +:+ path) :: rest ->
  Forall (fun x => Py.contains "PYTHON_EXECUTABLE" x = false) pre ->
  Py.contains "-DPYTHON_EXECUTABLE=" path = false ->
  PYTHON_EXEC (resolved context g) = path.
Proof.
  intros Hargs Hpre Hpath. rewrite resolved_exec, Hargs.
  rewrite filter_first_matching; [| done |].
  - rewrite replace_at_occurrence by done.
    by rewrite replace_absent.
  - apply contains_iff. by exists "-D", ("=" +:+ path).
Qed.




(** At import the module's interpreter is the [PYTHON] entry of the
    environment, or else the interpreter running the host. *)
Lemma module_globals_exec (h : Host) (sys_executable : string)
    (which_rsync : option string) :
  PYTHON_EXEC (module_globals h sys_executable which_rsync)
  = match os_environ h !! "PYTHON" with
    | Some p => p
    | None => sys_executable
    end.
Proof. reflexivity. Qed.

(** ** The compatibility flag *)

Lemma startswith_app_l (p q s : string) :
  Py.startswith (p +:+ q) s
  = Py.startswith p s && Py.startswith q (Py.drop (String.length p) s).
Proof.
  revert s. induction p as [|a p IH]; intros s; simpl.
  - by destruct s.
  - destruct s as [|b s]; [done |].
    by rewrite IH, andb_assoc.
Qed.

(** A match of ['(from|import) setuptools'] at the front of a text. *)
Lemma re_match_svem (s : string) :
  Re.re_match svem_pattern s
  = Py.startswith "from setuptools" s || Py.startswith "import setuptools" s.
Proof.
  change "from setuptools" with ("from" +:+ " setuptools").
  change "import setuptools" with ("import" +:+ " setuptools").
  rewrite !startswith_app_l.
  unfold Re.re_match, svem_pattern. cbn [Re.accepts].
  by rewrite !andb_true_r.
Qed.

(** [re.search] with that pattern finds one of the two texts. *)
Lemma re_search_svem (s : string) :
  Re.re_search svem_pattern s
  = Py.contains "from setuptools" s || Py.contains "import setuptools" s.
Proof.
  induction s as [|c s IH].
  - reflexivity.
  - cbn [Re.re_search]. rewrite IH, re_match_svem, !contains_cons.
    destruct (Py.startswith "from setuptools" _),
      (Py.startswith "import setuptools" _),
      (Py.contains "from setuptools" s); reflexivity.
Qed.

(** C2: in every returned Job the argument list of the python command
    stage is the ten fixed arguments followed by [--single-version-externally-managed] exactly
    when the text of [setup.py] contains a match of
    ['(from|import) setuptools'], and by nothing otherwise; for an
    interpreter path and a build space that are not themselves the flag,
    the list contains the flag if and only if the text matches. *)
Theorem build_job_svem_flag
    (h : Host) (context : Context) (package : Package) (package_path : string)
    (dependencies : list string) (force_cmake pre_clean : bool) (g : Globals)
    (v : PythonVersion) (contents : string) :
  probe h (resolved context g) = inr v ->
  open_read h (setup_py_path context package_path) = Some contents ->
  RSYNC_EXEC g <> None ->
  exists job g' argv cwd lock,
    create_python_build_job h context package package_path dependencies
      force_cmake pre_clean g = (inr job, g')
    /\ stages_named "python" job = [CommandStage "python" argv cwd lock]
    /\ argv
       = [VStr (PYTHON_EXEC (resolved context g)); VStr "setup.py";
          VStr "build"; VStr "--build-base";
          VStr (package_build_space context package); VStr "install";
          VStr "--root"; VStr (package_build_space context package);
          VStr "--prefix"; VStr "install"]
         ++ (if Re.re_search svem_pattern contents
             then [VStr svem_flag] else [])
    /\ (In (VStr svem_flag) (List.skipn 10 argv)
        <-> Re.re_search svem_pattern contents = true)
    /\ (PYTHON_EXEC (resolved context g) <> svem_flag ->
        package_build_space context package <> svem_flag ->
        (In (VStr svem_flag) argv
         <-> Re.re_search svem_pattern contents = true))
    /\ (Re.re_search svem_pattern contents = true <->
        exists a b, contents = a +:+ "from setuptools" +:+ b
                    \/ contents = a +:+ "import setuptools" +:+ b).
Proof.
  intros Hprobe Hread Hrsync. eexists _, _, _, _, _.
  split; [by apply build_job_run |].
  unfold stages_named. cbn [stages]. split.
  { destruct (Py.contains _ _), (Z.eqb _ _); reflexivity. }
  split; [reflexivity |]. split; [| split].
  - cbn [List.skipn app]. destruct (Re.re_search _ _); simpl.
    + split; [done | by left].
    + split; [intros [] | done].
  - intros Hexec Hbuild. rewrite in_app_iff. split.
    + intros [Hin|Hin].
      * simpl in Hin.
        repeat (destruct Hin as [Hin|Hin]; [by simplify_eq |]). done.
      * destruct (Re.re_search _ _); [done | by destruct Hin].
    + intros ->. right. by left.
  - rewrite re_search_svem, orb_true_iff, !contains_iff. split.
    + intros [(a & b & ->)|(a & b & ->)]; exists a, b; auto.
    + intros (a & b & [->| ->]); eauto.
Qed.

Lemma build_job_svem_flag_demo :
  exists job g' argv cwd lock,
    create_python_build_job demo_host demo_context demo_package "tool_pkg"
      ["dep_a"] false false demo_globals = (inr job, g')
    /\ stages_named "python" job = [CommandStage "python" argv cwd lock]
    /\ argv
       = [VStr "/usr/bin/python3"; VStr "setup.py";
          VStr "build"; VStr "--build-base";
          VStr "/ws/build/tool_pkg"; VStr "install";
          VStr "--root"; VStr "/ws/build/tool_pkg";
          VStr "--prefix"; VStr "install";
          VStr "--single-version-externally-managed"]
    /\ (In (VStr svem_flag) (List.skipn 10 argv)
        <-> Re.re_search svem_pattern demo_setup_py = true)
    /\ ("/usr/bin/python3" <> svem_flag ->
        "/ws/build/tool_pkg" <> svem_flag ->
        (In (VStr svem_flag) argv
         <-> Re.re_search svem_pattern demo_setup_py = true))
    /\ (Re.re_search svem_pattern demo_setup_py = true <->
        exists a b, demo_setup_py = a +:+ "from setuptools" +:+ b
                    \/ demo_setup_py = a +:+ "import setuptools" +:+ b).
Proof.
  apply (build_job_svem_flag demo_host demo_context demo_package
           "tool_pkg" ["dep_a"] false false demo_globals
           {| major := 3; minor := 8 |} demo_setup_py).
  - vm_compute. reflexivity.
  - vm_compute. reflexivity.
  - vm_compute. discriminate.
Defined.

Example svem_search_demo :
  Re.re_search svem_pattern demo_setup_py = true
  /\ Re.re_search svem_pattern "from distutils.core import setup" = false
  /\ Re.re_search svem_pattern "import  setuptools" = false
  /\ Re.re_search svem_pattern "  import setuptools as st" = true.
Proof. repeat split; reflexivity. Qed.

(** ** Python 3 fix-ups *)

Lemma str_of_int_3 : Py.str_of_int 3 = "3".
Proof. reflexivity. Qed.

(** Characters that cannot start an occurrence are copied. *)
Lemma replace_skip_prefix (a : ascii) (old new pre s : string) :
  all_chars (fun c => negb (Ascii.eqb a c)) pre = true ->
  Py.replace (String a old) new (pre +:+ s)
  = pre +:+ Py.replace (String a old) new s.
Proof.
  induction pre as [|c pre IH]; intros Hpre; simpl in *; [done |].
  apply andb_true_iff in Hpre as [Hc Hpre]. apply negb_true_iff in Hc.
  rewrite replace_no_occurrence_here; [by rewrite IH | done |].
  simpl. by rewrite Hc.
Qed.

(** On the layout [lib/pythonM.N/dist-packages] with [M = 3] the collapse
    yields [lib/python3/dist-packages], whatever the minor version. *)
Lemma collapse_debian_layout (minor_str : string) :
  Py.replace ("python3." +:+ minor_str) "python3"
    ("lib/python3." +:+ minor_str +:+ "/dist-packages")
  = "lib/python3/dist-packages".
Proof.
  change ("lib/python3." +:+ minor_str +:+ "/dist-packages")
    with ("lib/" +:+ ("python3." +:+ minor_str) +:+ "/dist-packages").
  change ("python3." +:+ minor_str)
    with (String "p" ("ython3." +:+ minor_str)) at 1.
  rewrite replace_skip_prefix by reflexivity.
  change (String "p" ("ython3." +:+ minor_str))
    with ("python3." +:+ minor_str).
  rewrite replace_at_occurrence by done.
  rewrite replace_absent; [reflexivity | done | reflexivity].
Qed.

(** C3: with a probed major version 3 the stage list of the returned Job
    has exactly one fix_python3_install_space stage and the destination of a debian-fix
    rename has every [python3.MINOR] of the install-directory name
    replaced by [python3]; with major version 2 there is no
    fix_python3_install_space stage and the destination keeps the
    install-directory name as it is. *)
Theorem build_job_python3_fixups
    (h : Host) (context : Context) (package : Package) (package_path : string)
    (dependencies : list string) (force_cmake pre_clean : bool) (g : Globals)
    (v : PythonVersion) (contents : string) :
  probe h (resolved context g) = inr v ->
  open_read h (setup_py_path context package_path) = Some contents ->
  RSYNC_EXEC g <> None ->
  exists job g',
    create_python_build_job h context package package_path dependencies
      force_cmake pre_clean g = (inr job, g')
    /\ length (stages_named "debian-fix" job)
       = (if Py.contains "dist-packages" (get_python_install_dir h)
          then 1 else 0)%nat
    /\ (major v = 3%Z ->
        length (stages_named "fix_python3_install_space" job) = 1%nat
        /\ forall st, In st (stages_named "debian-fix" job) ->
             kwarg "dest_path" st
             = Some (VStr (Py.os_path_join (package_build_space context package)
                             ["install";
                              Py.replace
                                ("python3." +:+ Py.str_of_int (minor v))
                                "python3" (get_python_install_dir h)])))
    /\ (major v = 2%Z ->
        stages_named "fix_python3_install_space" job = []
        /\ forall st, In st (stages_named "debian-fix" job) ->
             kwarg "dest_path" st
             = Some (VStr (Py.os_path_join (package_build_space context package)
                             ["install"; get_python_install_dir h]))).
Proof.
  intros Hprobe Hread Hrsync. eexists _, _. split; [by apply build_job_run |].
  unfold stages_named. cbn [stages].
  split; [by destruct (Py.contains _ _), (Z.eqb _ _) |].
  split; intros Hv; rewrite Hv; cbn [Z.eqb Pos.eqb];
    destruct (Py.contains _ _); (split; [reflexivity |]);
    intros st Hin; simpl in Hin;
    repeat (destruct Hin as [Hin|Hin]; [subst st; reflexivity |]);
    destruct Hin.
Qed.

Lemma build_job_python3_fixups_demo :
  exists job g',
    create_python_build_job demo_host demo_context demo_package "tool_pkg"
      ["dep_a"] false false demo_globals = (inr job, g')
    /\ length (stages_named "debian-fix" job) = 1%nat
    /\ (3%Z = 3%Z ->
        length (stages_named "fix_python3_install_space" job) = 1%nat
        /\ forall st, In st (stages_named "debian-fix" job) ->
             kwarg "dest_path" st
             = Some (VStr (Py.os_path_join "/ws/build/tool_pkg"
                             ["install";
                              Py.replace ("python3." +:+ Py.str_of_int 8)
                                "python3" "lib/python3/dist-packages"])))
    /\ (3%Z = 2%Z ->
        stages_named "fix_python3_install_space" job = []
        /\ forall st, In st (stages_named "debian-fix" job) ->
             kwarg "dest_path" st
             = Some (VStr (Py.os_path_join "/ws/build/tool_pkg"
                             ["install"; "lib/python3/dist-packages"]))).
Proof.
  apply (build_job_python3_fixups demo_host demo_context demo_package
           "tool_pkg" ["dep_a"] false false demo_globals
           {| major := 3; minor := 8 |} demo_setup_py).
  - vm_compute. reflexivity.
  - vm_compute. reflexivity.
  - vm_compute. discriminate.
Defined.

(** The rename of the worked build under Python 3.8 and under Python 2.7,
    for a host whose install directory is [lib/python3.8/dist-packages]. *)
Example debian_fix_demo :
  let h := with_install_dir "lib/python3.8/dist-packages" in
  let dest j := kwarg "dest_path" <$> stages_named "debian-fix" j in
  let src j := kwarg "source_path" <$> stages_named "debian-fix" j in
  (exists j g',
      create_python_build_job h demo_context demo_package "tool_pkg" []
        false false demo_globals = (inr j, g')
      /\ dest j
         = [Some (VStr "/ws/build/tool_pkg/install/lib/python3/dist-packages")]
      /\ src j
         = [Some (VStr "/ws/build/tool_pkg/install/lib/python3.8/site-packages")])
  /\ (exists j g',
      create_python_build_job h (with_cmake_args [] true)
        demo_package "tool_pkg" [] false false demo_globals = (inr j, g')
      /\ dest j
         = [Some (VStr "/ws/build/tool_pkg/install/lib/python3.8/dist-packages")]
      /\ stages_named "fix_python3_install_space" j = []).
Proof.
  split; eexists _, _; (split; [vm_compute; reflexivity |]);
    split; vm_compute; reflexivity.
Qed.

(** ** Failures of planning *)

(** C8, as the code has it: [create_python_build_job] raises, and
    returns no Job, when [setup.py] cannot be read, when the version
    probe cannot be run or its output does not parse, and also when no
    rsync executable was found at import (the construction of the install
    command stage then raises [ValueError]); in every other case it
    returns a Job. *)
Theorem build_job_planning_fatal
    (h : Host) (context : Context) (package : Package) (package_path : string)
    (dependencies : list string) (force_cmake pre_clean : bool) (g : Globals) :
  let run :=
    create_python_build_job h context package package_path dependencies
      force_cmake pre_clean g in
  let probe_out :=
    check_output h [PYTHON_EXEC (resolved context g); "-c"; py_version_cmd] in
  let fatal :=
    open_read h (setup_py_path context package_path) = None
    \/ probe_out = None
    \/ exists out, probe_out = Some out /\ ~ parsable_version out in
  ((exists e g', run = (inl e, g')) <-> fatal \/ RSYNC_EXEC g = None)
  /\ ((exists job g', run = (inr job, g'))
      <-> ~ fatal /\ RSYNC_EXEC g <> None)
  /\ (~ fatal -> RSYNC_EXEC g = None ->
      run = (inl ValueError, resolved context g)).
Proof.
  intros run probe_out fatal. subst run probe_out fatal.
  pose proof (probe_ok_iff h (resolved context g)) as Hiff.
  destruct (probe h (resolved context g)) as [e|v] eqn:Hprobe.
  - (* the probe raises *)
    rewrite (build_job_probe_raises _ _ _ _ _ _ _ _ _ Hprobe).
    assert (Hbad : check_output h
                     [PYTHON_EXEC (resolved context g); "-c"; py_version_cmd]
                   = None
                   \/ exists out,
                        check_output h
                          [PYTHON_EXEC (resolved context g); "-c";
                           py_version_cmd] = Some out
                        /\ ~ parsable_version out).
    { destruct (check_output h _) as [out|] eqn:Hout; [right | by left].
      exists out. split; [done |]. intros Hp.
      destruct (proj2 Hiff) as [v' Hv']; [by exists out | done]. }
    split; [| split].
    + split; [intros _; left; by right | intros _; by eexists _, _].
    + split; [intros (job & g' & Hrun); done |].
      intros [Hnf _]. destruct Hnf. by right.
    + intros Hnf. destruct Hnf. by right.
  - (* the probe returns a version *)
    destruct (proj1 Hiff) as (out & Hout & Hp); [by exists v |].
    destruct (open_read h (setup_py_path context package_path))
      as [contents|] eqn:Hread.
    + assert (Hnf : ~ (Some contents = None
                       \/ check_output h
                            [PYTHON_EXEC (resolved context g); "-c";
                             py_version_cmd] = None
                       \/ exists out',
                            check_output h
                              [PYTHON_EXEC (resolved context g); "-c";
                               py_version_cmd] = Some out'
                            /\ ~ parsable_version out')).
      { intros [Hf|[Hf|(out' & Hout' & Hnp)]]; [done | congruence |].
        rewrite Hout in Hout'. by simplify_eq. }
      destruct (RSYNC_EXEC g) as [rsync|] eqn:Hrsync.
      * rewrite (build_job_run _ _ _ _ _ _ _ _ _ _ Hprobe Hread)
          by (rewrite Hrsync; done).
        split; [| split].
        -- split; [intros (e & g' & Hrun); done |].
           intros [Hf|Hf]; [by destruct Hnf | done].
        -- split; [intros _; by split | intros _; by eexists _, _].
        -- done.
      * rewrite (build_job_rsync_raises _ _ _ _ _ _ _ _ _ _ Hprobe Hread Hrsync).
        split; [| split].
        -- split; [intros _; by right | intros _; by eexists _, _].
        -- split; [intros (job & g' & Hrun); done | by intros [_ ?]].
        -- done.
    + rewrite (build_job_read_raises _ _ _ _ _ _ _ _ _ Hprobe Hread).
      split; [| split].
      * split; [intros _; left; by left | intros _; by eexists _, _].
      * split; [intros (job & g' & Hrun); done |].
        intros [Hnf _]. destruct Hnf. by left.
      * intros Hnf. destruct Hnf. by left.
Qed.

(** C8 as stated fails: [setup.py] is read, the interpreter runs and
    prints a version that parses, and yet planning raises, because no
    rsync executable was found. *)
Lemma build_job_raises_without_rsync :
  let g := module_globals demo_host "/usr/bin/python" None in
  let context := with_cmake_args [] false in
  open_read demo_host (setup_py_path context "tool_pkg") = Some demo_setup_py
  /\ check_output demo_host
       [PYTHON_EXEC (resolved context g); "-c"; py_version_cmd]
     = Some ("2 7" +:+ Py.LF)
  /\ parsable_version ("2 7" +:+ Py.LF)
  /\ RSYNC_EXEC g = None
  /\ create_python_build_job demo_host context demo_package "tool_pkg" []
       false false g
     = (inl ValueError, g).
Proof.
  cbv zeta. split; [vm_compute; reflexivity |].
  split; [vm_compute; reflexivity |].
  split; [by exists "2", "7", [], 2%Z, 7%Z |].
  split; [reflexivity |]. vm_compute. reflexivity.
Qed.

Example planning_fatal_demo :
  (* no setup.py in the package *)
  fst (create_python_build_job demo_host demo_context demo_package "other_pkg"
         [] false false demo_globals) = inl IOError
  (* the selected interpreter cannot be run *)
  /\ fst (create_python_build_job demo_host
            (with_cmake_args ["-DPYTHON_EXECUTABLE=/opt/none/python"] false)
            demo_package "tool_pkg" [] false false demo_globals)
     = inl SubprocessError
  (* the probe prints something else *)
  /\ fst (create_python_build_job (with_probe_output (Some "Python 3.8"))
            demo_context demo_package "tool_pkg" [] false false demo_globals)
     = inl ValueError
  /\ fst (create_python_build_job (with_probe_output (Some "3"))
            demo_context demo_package "tool_pkg" [] false false demo_globals)
     = inl IndexError
  (* the override is in force after a failed call as well *)
  /\ PYTHON_EXEC
       (snd (create_python_build_job demo_host demo_context demo_package
               "other_pkg" [] false false demo_globals))
     = "/usr/bin/python3".
Proof. repeat split; vm_compute; reflexivity. Qed.

(** ** Cleaning *)

(** C10: [create_python_clean_job] returns a Job with the package name as
    id, the given dependencies, an empty environment and no stage,
    whatever the dry_run, clean_build, clean_devel and clean_install
    flags. *)
Theorem clean_job_is_empty
    (context : Context) (package : Package) (package_path : string)
    (dependencies : list string)
    (dry_run clean_build clean_devel clean_install : bool) :
  let job :=
    create_python_clean_job context package package_path dependencies dry_run
      clean_build clean_devel clean_install in
  jid job = name package
  /\ deps job = dependencies
  /\ env job = ∅
  /\ (forall k, env job !! k = None)
  /\ stages job = []
  /\ (forall dry_run' clean_build' clean_devel' clean_install',
        create_python_clean_job context package package_path dependencies
          dry_run' clean_build' clean_devel' clean_install' = job).
Proof.
  intros job. subst job. unfold create_python_clean_job.
  cbn [jid deps env stages]. by repeat split.
Qed.

(** ** Encoding *)

Lemma encode_app (s t : string) :
  Py.encode (s +:+ t) = Py.encode s +:+ Py.encode t.
Proof.
  induction s as [|c s IH]; [done |].
  cbn [String.append Py.encode]. by rewrite IH, app_assoc_str.
Qed.

(** A code point below 128 is its own encoding; the encoding of another
    one starts with a byte from 128 on. *)
Lemma encode_char_cases (c : ascii) :
  ((N_of_ascii c <? 128)%N = true /\ Py.encode_char c = String c "")
  \/ exists b1 b2,
       Py.encode_char c = String b1 (String b2 "")
       /\ (N_of_ascii b1 <? 128)%N = false
       /\ (N_of_ascii b2 <? 128)%N = false.
Proof.
  destruct c as [[] [] [] [] [] [] [] []];
    first [left; split; reflexivity
          | right; eexists _, _; repeat split; reflexivity].
Qed.

Lemma high_byte_solid (b : ascii) :
  (N_of_ascii b <? 128)%N = false -> negb (Py.bytes_isspace b) = true.
Proof.
  destruct b as [[] [] [] [] [] [] [] []]; intros H;
    first [reflexivity | discriminate H].
Qed.

(** Encoding introduces no ASCII whitespace. *)
Lemma encode_solid (s : string) :
  all_chars (fun c => negb (Py.bytes_isspace c)) s = true ->
  all_chars (fun c => negb (Py.bytes_isspace c)) (Py.encode s) = true.
Proof.
  induction s as [|c s IH]; [done |].
  cbn [all_chars Py.encode]. intros [Hc Hs]%andb_true_iff.
  rewrite all_chars_app, IH by done. rewrite andb_true_r.
  destruct (encode_char_cases c) as [[_ ->]|(b1 & b2 & -> & H1 & H2)].
  - cbn [all_chars]. by rewrite Hc.
  - cbn [all_chars]. by rewrite !high_byte_solid.
Qed.

(** A text whose encoding has bytes below 128 only is that encoding. *)
Lemma encode_ascii_inv (s t : string) :
  all_chars (fun c => (N_of_ascii c <? 128)%N) t = true ->
  Py.encode s = t -> s = t.
Proof.
  revert t. induction s as [|c s IH]; intros t Ht Heq; [done |].
  cbn [Py.encode] in Heq.
  destruct (encode_char_cases c) as [[_ Hc]|(b1 & b2 & Hc & H1 & _)];
    rewrite Hc in Heq; cbn [String.append] in Heq; subst t;
    cbn [all_chars] in Ht; apply andb_true_iff in Ht as [Hb Ht].
  - f_equal. by apply IH.
  - by rewrite H1 in Hb.
Qed.

(** An interpreter path with the code point 233 is written with the two
    bytes 195 and 169 in its place. *)
Example encode_demo :
  let python_exec := "/opt/caf" +:+ String (ascii_of_N 233) "/python" in
  let written :=
    "/opt/caf" +:+ String (ascii_of_N 195) (String (ascii_of_N 169) "/python") in
  Py.encode python_exec = written
  /\ fix_shebang_contents python_exec ("#!/usr/bin/python" +:+ Py.LF)
     = ("#!" +:+ written +:+ Py.LF, true)
  /\ Py.encode "/usr/bin/python3" = "/usr/bin/python3".
Proof. repeat split; vm_compute; reflexivity. Qed.

(** ** Interpreter directives *)

(** A pattern [p(\s|$)] matches where [p] is followed by whitespace or by
    the end of the text. *)
Lemma re_match_directive (p s : string) :
  Re.re_match (Re.Cat (Re.Lit p) (Re.Alt Re.Space Re.Eol)) s
  = Py.startswith p s && directive_end (Py.drop (String.length p) s).
Proof.
  unfold Re.re_match. cbn [Re.accepts]. f_equal.
  destruct (Py.drop _ s) as [|c r]; [reflexivity |].
  unfold Re.at_eol, directive_end. rewrite !andb_true_r.
  destruct (Py.bytes_isspace c) eqn:Hc; [reflexivity |].
  destruct (String.eqb_spec (String c r) Py.LF) as [[= -> ->]|Hne].
  - by vm_compute in Hc.
  - by destruct (String.eqb_spec (String c r) "").
Qed.

Lemma re_match_directive_app (p rest : string) :
  Re.re_match (Re.Cat (Re.Lit p) (Re.Alt Re.Space Re.Eol)) (p +:+ rest)
  = directive_end rest.
Proof. by rewrite re_match_directive, startswith_app, drop_app. Qed.

(** A direct-path directive is rewritten to the target interpreter. *)
Lemma fix_shebang_contents_direct (python_exec rest : string) :
  directive_end rest = true ->
  fix_shebang_contents python_exec ("#!/usr/bin/python" +:+ rest)
  = (Py.encode ("#!" +:+ python_exec) +:+ rest, true).
Proof.
  intros Hrest. unfold fix_shebang_contents, shebang_direct.
  rewrite re_match_directive_app, Hrest.
  rewrite replace_first_at_front by apply startswith_app.
  by rewrite drop_app.
Qed.

(** So is an env-form directive for the unversioned name. *)
Lemma fix_shebang_contents_env (python_exec rest : string) :
  directive_end rest = true ->
  fix_shebang_contents python_exec ("#!/usr/bin/env python" +:+ rest)
  = (Py.encode ("#!" +:+ python_exec) +:+ rest, true).
Proof.
  intros Hrest. unfold fix_shebang_contents, shebang_direct, shebang_env.
  rewrite (re_match_directive "#!/usr/bin/python").
  change (Py.startswith "#!/usr/bin/python" ("#!/usr/bin/env python" +:+ rest))
    with false.
  cbn [andb]. rewrite re_match_directive_app, Hrest.
  rewrite replace_first_at_front by apply startswith_app.
  by rewrite drop_app.
Qed.

(** A name continued by a character that is not whitespace is no match:
    versioned interpreters are left alone. *)
Lemma fix_shebang_contents_versioned (python_exec : string) (c : ascii)
    (rest : string) :
  Py.bytes_isspace c = false ->
  fix_shebang_contents python_exec ("#!/usr/bin/python" +:+ String c rest)
  = ("#!/usr/bin/python" +:+ String c rest, false)
  /\ fix_shebang_contents python_exec ("#!/usr/bin/env python" +:+ String c rest)
     = ("#!/usr/bin/env python" +:+ String c rest, false).
Proof.
  intros Hc. unfold fix_shebang_contents, shebang_direct, shebang_env.
  split.
  - rewrite re_match_directive_app. cbn [directive_end]. rewrite Hc.
    by rewrite re_match_directive.
  - rewrite (re_match_directive "#!/usr/bin/python").
    change (Py.startswith "#!/usr/bin/python"
              ("#!/usr/bin/env python" +:+ String c rest)) with false.
    cbn [andb]. rewrite re_match_directive_app. cbn [directive_end].
    by rewrite Hc.
Qed.

(** Whatever the content, the loop body either leaves it alone or puts
    the target directive in front of what followed the old one. *)
Lemma fix_shebang_contents_shape (python_exec contents : string) :
  fix_shebang_contents python_exec contents = (contents, false)
  \/ exists rest,
       directive_end rest = true
       /\ fix_shebang_contents python_exec contents
          = (Py.encode ("#!" +:+ python_exec) +:+ rest, true).
Proof.
  destruct (Re.re_match shebang_direct contents) eqn:Hd.
  - right. unfold shebang_direct in Hd. rewrite re_match_directive in Hd.
    apply andb_true_iff in Hd as [Hp Hrest].
    exists (Py.drop (String.length "#!/usr/bin/python") contents).
    split; [done |]. rewrite (startswith_split _ _ Hp) at 1.
    by apply fix_shebang_contents_direct.
  - destruct (Re.re_match shebang_env contents) eqn:He.
    + right. unfold shebang_env in He. rewrite re_match_directive in He.
      apply andb_true_iff in He as [Hp Hrest].
      exists (Py.drop (String.length "#!/usr/bin/env python") contents).
      split; [done |]. rewrite (startswith_split _ _ Hp) at 1.
      by apply fix_shebang_contents_env.
    + left. unfold fix_shebang_contents. by rewrite Hd, He.
Qed.

Section DirectiveTokens.

Let solid (c : ascii) : bool := negb (Py.bytes_isspace c).

(** A whitespace-free [exec] followed by a directive end, when it starts
    with the whitespace-free [p] followed by a directive end, is [p]. *)
Lemma token_whole (p exec rest : string) :
  all_chars solid p = true -> all_chars solid exec = true ->
  directive_end rest = true ->
  Py.startswith p (exec +:+ rest) = true ->
  directive_end (Py.drop (String.length p) (exec +:+ rest)) = true ->
  exec = p.
Proof.
  revert exec. induction p as [|a p IH]; intros exec Hp Hexec Hrest Hsw Hend.
  - destruct exec as [|c exec]; [done |]. simpl in *.
    apply andb_true_iff in Hexec as [Hc _]. unfold solid in Hc.
    by rewrite Hend in Hc.
  - simpl in Hp. apply andb_true_iff in Hp as [Ha Hp].
    destruct exec as [|c exec]; simpl in *.
    + destruct rest as [|b rest]; [done |]. simpl in *.
      apply andb_true_iff in Hsw as [Hab _]. apply Ascii.eqb_eq in Hab as ->.
      unfold solid in Ha. by rewrite Hrest in Ha.
    + apply andb_true_iff in Hsw as [Hac Hsw]. apply Ascii.eqb_eq in Hac as ->.
      apply andb_true_iff in Hexec as [_ Hexec]. f_equal. by apply IH.
Qed.

(** When it starts with [p1], a whitespace and more, it is [p1]. *)
Lemma token_before_space (p1 : string) (w : ascii) (p2 exec rest : string) :
  all_chars solid p1 = true -> Py.bytes_isspace w = true ->
  all_chars solid exec = true -> directive_end rest = true ->
  Py.startswith (p1 +:+ String w p2) (exec +:+ rest) = true ->
  exec = p1.
Proof.
  intros Hp Hw. revert exec.
  induction p1 as [|a p1 IH]; intros exec Hexec Hrest Hsw.
  - destruct exec as [|c exec]; [done |]. simpl in *.
    apply andb_true_iff in Hsw as [Hwc _]. apply Ascii.eqb_eq in Hwc as <-.
    apply andb_true_iff in Hexec as [Hc _]. unfold solid in Hc.
    by rewrite Hw in Hc.
  - simpl in Hp. apply andb_true_iff in Hp as [Ha Hp].
    destruct exec as [|c exec]; simpl in *.
    + destruct rest as [|b rest]; [done |]. simpl in *.
      apply andb_true_iff in Hsw as [Hab _]. apply Ascii.eqb_eq in Hab as ->.
      unfold solid in Ha. by rewrite Hrest in Ha.
    + apply andb_true_iff in Hsw as [Hac Hsw]. apply Ascii.eqb_eq in Hac as ->.
      apply andb_true_iff in Hexec as [_ Hexec]. f_equal. by apply IH.
Qed.

(** A rewritten content is not rewritten again to something else. *)
Lemma fix_shebang_contents_rewritten (python_exec rest : string) :
  all_chars solid python_exec = true -> python_exec <> "/usr/bin/env" ->
  directive_end rest = true ->
  fst (fix_shebang_contents python_exec
         (Py.encode ("#!" +:+ python_exec) +:+ rest))
  = Py.encode ("#!" +:+ python_exec) +:+ rest.
Proof.
  intros Hexec Hne Hrest. unfold fix_shebang_contents.
  change (Py.encode ("#!" +:+ python_exec))
    with ("#!" +:+ Py.encode python_exec).
  assert (Hsolid : all_chars solid (Py.encode python_exec) = true)
    by (by apply encode_solid).
  assert (Hne' : Py.encode python_exec <> "/usr/bin/env").
  { intros Heq. apply Hne. by apply encode_ascii_inv. }
  remember (Py.encode python_exec) as e eqn:He. clear He Hexec Hne.
  destruct (Re.re_match shebang_direct _) eqn:Hd.
  - unfold shebang_direct in Hd. rewrite re_match_directive in Hd.
    apply andb_true_iff in Hd as [Hp Hend].
    assert (e = "/usr/bin/python") as ->.
    { by apply (token_whole "/usr/bin/python" e rest). }
    cbn [fst].
    change (("#!" +:+ "/usr/bin/python") +:+ rest)
      with ("#!/usr/bin/python" +:+ rest).
    rewrite replace_first_at_front by apply startswith_app.
    by rewrite drop_app.
  - destruct (Re.re_match shebang_env _) eqn:Henv; [| done].
    unfold shebang_env in Henv. rewrite re_match_directive in Henv.
    apply andb_true_iff in Henv as [Hp _]. destruct Hne'.
    by apply (token_before_space "/usr/bin/env" " " "python" e rest).
Qed.

Lemma fix_shebang_contents_idempotent (python_exec contents : string) :
  all_chars solid python_exec = true -> python_exec <> "/usr/bin/env" ->
  fst (fix_shebang_contents python_exec
         (fst (fix_shebang_contents python_exec contents)))
  = fst (fix_shebang_contents python_exec contents).
Proof.
  intros Hexec Hne.
  destruct (fix_shebang_contents_shape python_exec contents)
    as [Hsame|(rest & Hrest & Hfix)].
  - rewrite Hsame. cbn [fst]. by rewrite Hsame.
  - rewrite Hfix. cbn [fst]. by apply fix_shebang_contents_rewritten.
Qed.

End DirectiveTokens.

(** With an interpreter path that has whitespace in it, or that is
    [/usr/bin/env], a second pass can rewrite again. *)
Example fix_shebang_contents_not_idempotent :
  let twice exec c :=
    fst (fix_shebang_contents exec (fst (fix_shebang_contents exec c))) in
  twice "/usr/bin/python -u" "#!/usr/bin/python" = "#!/usr/bin/python -u -u"
  /\ twice "/usr/bin/env" "#!/usr/bin/python python" = "#!/usr/bin/env".
Proof. split; reflexivity. Qed.

(** ** [fix_shebangs] on a file system *)

Lemma for_each_app {S A} (l1 l2 : list A) (body : A -> M S unit) (s : S) :
  for_each (l1 ++ l2) body s = (for_each l1 body ;;; for_each l2 body) s.
Proof.
  revert s. induction l1 as [|x l1 IH]; intros s; cbn [for_each app].
  - reflexivity.
  - unfold bind. destruct (body x s) as [[e|[]] s1]; [done |].
    by rewrite IH.
Qed.

(** The inner loop visits the [.py] files of one directory. *)
Lemma for_each_file_list (python_exec root : string) (file_list : list string)
    (fs : FS) :
  for_each file_list (fix_shebang_file python_exec root) fs
  = for_each
      (List.map (fun filename => Py.os_path_join root [filename])
         (List.filter (Py.endswith ".py") file_list))
      (fix_shebang_path python_exec) fs.
Proof.
  revert fs. induction file_list as [|f file_list IH]; intros fs; [done |].
  cbn [for_each List.filter]. destruct (Py.endswith ".py" f) eqn:Hpy.
  - cbn [List.map for_each]. unfold bind.
    assert (fix_shebang_file python_exec root f fs
            = fix_shebang_path python_exec (Py.os_path_join root [f]) fs)
      as -> by (unfold fix_shebang_file; by rewrite Hpy).
    destruct (fix_shebang_path _ _ fs) as [[e|[]] fs1]; [done | apply IH].
  - unfold bind.
    assert (fix_shebang_file python_exec root f fs = (inr tt, fs))
      as -> by (unfold fix_shebang_file; by rewrite Hpy).
    apply IH.
Qed.

(** The two loops together visit [walked_py_files], in order. *)
Lemma for_each_walk (python_exec : string)
    (walk : list (string * list string * list string)) (fs : FS) :
  for_each walk (fun '(root, dirnames, file_list) =>
    for_each file_list (fix_shebang_file python_exec root)) fs
  = for_each
      (flat_map
         (fun '(root, _, file_list) =>
            List.map (fun filename => Py.os_path_join root [filename])
              (List.filter (Py.endswith ".py") file_list))
         walk)
      (fix_shebang_path python_exec) fs.
Proof.
  revert fs. induction walk as [|[[root dirnames] file_list] walk IH];
    intros fs; [done |].
  cbn [for_each flat_map]. rewrite for_each_app. unfold bind.
  rewrite for_each_file_list.
  destruct (for_each _ (fix_shebang_path python_exec) fs) as [[e|[]] fs1];
    [done | apply IH].
Qed.

Lemma fix_shebangs_as_paths (pkg_dir python_exec : string) (fs : FS) :
  fix_shebangs pkg_dir python_exec fs
  = (for_each (walked_py_files fs pkg_dir) (fix_shebang_path python_exec) ;;;
     ret 0%Z) fs.
Proof.
  unfold fix_shebangs, walked_py_files, bind, get.
  by rewrite for_each_walk.
Qed.

(** One file: its content becomes what the loop body makes of it; it is
    written when [modified] is set. *)
Lemma fix_shebang_path_run (python_exec filepath : string) (fs : FS)
    (contents : string) :
  files fs !! filepath = Some contents ->
  exists fs1,
    fix_shebang_path python_exec filepath fs = (inr tt, fs1)
    /\ os_walk fs1 = os_walk fs
    /\ files fs1
       = <[filepath := fst (fix_shebang_contents python_exec contents)]>
           (files fs)
    /\ writes fs1
       = writes fs ++
         (if snd (fix_shebang_contents python_exec contents)
          then [filepath] else []).
Proof.
  intros Hfile.
  unfold fix_shebang_path, read_bytes, bind, get, or_raise. rewrite Hfile.
  unfold ret at 1.
  destruct (fix_shebang_contents_shape python_exec contents)
    as [Hsame|(rest & Hrest & Hfix)].
  - rewrite Hsame. cbn [fst snd]. exists fs.
    repeat split; [by rewrite insert_id | by rewrite app_nil_r].
  - rewrite Hfix. cbn [fst snd]. eexists. by repeat split.
Qed.

Lemma fix_paths_run (python_exec : string) (paths : list string) (fs : FS) :
  Forall (fun p => is_Some (files fs !! p)) paths ->
  exists fs',
    for_each paths (fix_shebang_path python_exec) fs = (inr tt, fs')
    /\ os_walk fs' = os_walk fs
    /\ (forall p, is_Some (files fs' !! p) <-> is_Some (files fs !! p))
    /\ (forall p, p ∉ paths -> files fs' !! p = files fs !! p)
    /\ (NoDup paths ->
        forall p c, p ∈ paths -> files fs !! p = Some c ->
          files fs' !! p = Some (fst (fix_shebang_contents python_exec c))).
Proof.
  revert fs. induction paths as [|p0 paths IH]; intros fs Hall.
  - exists fs. repeat split; try done.
    intros _ p c Hin. by apply elem_of_nil in Hin.
  - apply Forall_cons in Hall as [[c0 Hc0] Hall].
    destruct (fix_shebang_path_run python_exec p0 fs c0 Hc0)
      as (fs1 & Hrun1 & Hwalk1 & Hfiles1 & _).
    assert (Hsome : forall p,
               is_Some (files fs1 !! p) <-> is_Some (files fs !! p)).
    { intros p. rewrite Hfiles1. destruct (decide (p0 = p)) as [<-|Hne].
      - rewrite lookup_insert_eq, Hc0. split; eauto.
      - by rewrite lookup_insert_ne. }
    destruct (IH fs1) as (fs' & Hrun & Hwalk & Hdom & Hframe & Hfix).
    { eapply Forall_impl; [exact Hall |]. intros p Hp. by apply Hsome. }
    exists fs'. split.
    { cbn [for_each]. unfold bind. by rewrite Hrun1. }
    split; [congruence |].
    split; [intros p; by rewrite Hdom |].
    split.
    + intros p Hp. apply not_elem_of_cons in Hp as [Hne Hp].
      rewrite Hframe by done. rewrite Hfiles1. by rewrite lookup_insert_ne.
    + intros Hnd p c Hin Hc. apply NoDup_cons in Hnd as [Hp0 Hnd].
      apply elem_of_cons in Hin as [->|Hin].
      * rewrite Hframe by done. rewrite Hfiles1, lookup_insert_eq.
        congruence.
      * apply Hfix; [done | done |].
        rewrite Hfiles1, lookup_insert_ne; [done |]. by intros ->.
Qed.

(** A pass over files that the loop body maps to themselves changes no
    content. *)
Lemma fix_paths_stable (python_exec : string) (paths : list string) (fs : FS) :
  Forall (fun p => exists c, files fs !! p = Some c
                             /\ fst (fix_shebang_contents python_exec c) = c)
    paths ->
  exists fs',
    for_each paths (fix_shebang_path python_exec) fs = (inr tt, fs')
    /\ os_walk fs' = os_walk fs
    /\ files fs' = files fs.
Proof.
  revert fs. induction paths as [|p0 paths IH]; intros fs Hall.
  - by exists fs.
  - apply Forall_cons in Hall as [(c0 & Hc0 & Hfix0) Hall].
    destruct (fix_shebang_path_run python_exec p0 fs c0 Hc0)
      as (fs1 & Hrun1 & Hwalk1 & Hfiles1 & _).
    rewrite Hfix0, insert_id in Hfiles1 by done.
    destruct (IH fs1) as (fs' & Hrun & Hwalk & Hfiles).
    { by rewrite Hfiles1. }
    exists fs'. split; [| split; congruence].
    cbn [for_each]. unfold bind. by rewrite Hrun1.
Qed.

(** C4, as the code has it: for the [.py] files under the walked tree, a
    content that begins with [#!/usr/bin/python] or
    [#!/usr/bin/env python] followed by whitespace or by the end of the
    file becomes the UTF-8 encoding of [#!<target interpreter path>]
    followed by what followed the directive; a content that begins with
    [#!/usr/bin/python3.9] or with [#!/usr/bin/env python3] is left as it
    is; files outside the walk are left as they are; and for a target path
    without whitespace other than [/usr/bin/env], a second run changes no
    file content. *)
Theorem fix_shebangs_rewrites (fs : FS) (pkg_dir python_exec : string) :
  NoDup (walked_py_files fs pkg_dir) ->
  Forall (fun p => is_Some (files fs !! p)) (walked_py_files fs pkg_dir) ->
  exists fs',
    fix_shebangs pkg_dir python_exec fs = (inr 0%Z, fs')
    /\ (forall path rest,
          In path (walked_py_files fs pkg_dir) -> directive_end rest = true ->
          files fs !! path = Some ("#!/usr/bin/python" +:+ rest)
          \/ files fs !! path = Some ("#!/usr/bin/env python" +:+ rest) ->
          files fs' !! path = Some (Py.encode ("#!" +:+ python_exec) +:+ rest))
    /\ (forall path rest,
          In path (walked_py_files fs pkg_dir) ->
          files fs !! path = Some ("#!/usr/bin/python3.9" +:+ rest)
          \/ files fs !! path = Some ("#!/usr/bin/env python3" +:+ rest) ->
          files fs' !! path = files fs !! path)
    /\ (forall path,
          ~ In path (walked_py_files fs pkg_dir) ->
          files fs' !! path = files fs !! path)
    /\ (all_chars (fun c => negb (Py.bytes_isspace c)) python_exec = true ->
        python_exec <> "/usr/bin/env" ->
        exists fs'',
          fix_shebangs pkg_dir python_exec fs' = (inr 0%Z, fs'')
          /\ files fs'' = files fs').
Proof.
  intros Hnd Hall.
  destruct (fix_paths_run python_exec _ fs Hall)
    as (fs' & Hrun & Hwalk & Hdom & Hframe & Hfix).
  specialize (Hfix Hnd).
  exists fs'. split.
  { rewrite fix_shebangs_as_paths. unfold bind. by rewrite Hrun. }
  split.
  { intros path rest Hin Hrest [Hc|Hc]; apply list_elem_of_In in Hin;
      rewrite (Hfix _ _ Hin Hc).
    - by rewrite fix_shebang_contents_direct.
    - by rewrite fix_shebang_contents_env. }
  split.
  { intros path rest Hin [Hc|Hc]; apply list_elem_of_In in Hin;
      rewrite (Hfix _ _ Hin Hc), Hc; apply (f_equal Some).
    - change ("#!/usr/bin/python3.9" +:+ rest)
        with ("#!/usr/bin/python" +:+ String "3" (".9" +:+ rest)).
      by rewrite (proj1 (fix_shebang_contents_versioned python_exec "3"
                           (".9" +:+ rest) eq_refl)).
    - change ("#!/usr/bin/env python3" +:+ rest)
        with ("#!/usr/bin/env python" +:+ String "3" rest).
      by rewrite (proj2 (fix_shebang_contents_versioned python_exec "3"
                           rest eq_refl)). }
  split.
  { intros path Hin. apply Hframe. by rewrite list_elem_of_In. }
  intros Hexec Hne.
  destruct (fix_paths_stable python_exec (walked_py_files fs pkg_dir) fs')
    as (fs'' & Hrun2 & _ & Hfiles2).
  { apply Forall_forall. intros p Hp.
    pose proof (proj1 (Forall_forall _ _) Hall p Hp) as [c Hc].
    exists (fst (fix_shebang_contents python_exec c)).
    split; [by apply Hfix |].
    by apply fix_shebang_contents_idempotent. }
  exists fs''. split; [| done].
  rewrite fix_shebangs_as_paths. unfold walked_py_files. rewrite Hwalk.
  fold (walked_py_files fs pkg_dir). unfold bind. by rewrite Hrun2.
Qed.

Lemma fix_shebangs_rewrites_demo :
  exists fs',
    fix_shebangs "/ws/install" "/opt/py3/bin/python3" demo_fs = (inr 0%Z, fs')
    /\ (forall path rest,
          In path (walked_py_files demo_fs "/ws/install") ->
          directive_end rest = true ->
          files demo_fs !! path = Some ("#!/usr/bin/python" +:+ rest)
          \/ files demo_fs !! path = Some ("#!/usr/bin/env python" +:+ rest) ->
          files fs' !! path
          = Some (Py.encode ("#!" +:+ "/opt/py3/bin/python3") +:+ rest))
    /\ (forall path rest,
          In path (walked_py_files demo_fs "/ws/install") ->
          files demo_fs !! path = Some ("#!/usr/bin/python3.9" +:+ rest)
          \/ files demo_fs !! path = Some ("#!/usr/bin/env python3" +:+ rest) ->
          files fs' !! path = files demo_fs !! path)
    /\ (forall path,
          ~ In path (walked_py_files demo_fs "/ws/install") ->
          files fs' !! path = files demo_fs !! path)
    /\ (all_chars (fun c => negb (Py.bytes_isspace c)) "/opt/py3/bin/python3"
        = true ->
        "/opt/py3/bin/python3" <> "/usr/bin/env" ->
        exists fs'',
          fix_shebangs "/ws/install" "/opt/py3/bin/python3" fs' = (inr 0%Z, fs'')
          /\ files fs'' = files fs').
Proof.
  apply (fix_shebangs_rewrites demo_fs "/ws/install" "/opt/py3/bin/python3").
  - apply (bool_decide_unpack _). vm_compute. exact I.
  - apply (bool_decide_unpack _). vm_compute. exact I.
Defined.

(** The worked tree after [fix_shebangs]: two files are rewritten and
    written, the versioned ones and the text file are not. *)
Example fix_shebangs_demo :
  exists fs',
    fix_shebangs "/ws/install" "/opt/py3/bin/python3" demo_fs = (inr 0%Z, fs')
    /\ files fs' !! "/ws/install/bin/tool.py"
       = Some ("#!/opt/py3/bin/python3" +:+ Py.LF +:+ "import sys" +:+ Py.LF)
    /\ files fs' !! "/ws/install/bin/env_tool.py"
       = Some ("#!/opt/py3/bin/python3 -u" +:+ Py.LF)
    /\ files fs' !! "/ws/install/lib/env3.py"
       = Some ("#!/usr/bin/env python3" +:+ Py.LF)
    /\ files fs' !! "/ws/install/lib/notes.txt"
       = Some ("#!/usr/bin/python" +:+ Py.LF)
    /\ writes fs' = ["/ws/install/bin/tool.py"; "/ws/install/bin/env_tool.py"].
Proof.
  eexists. split; [vm_compute; reflexivity |].
  repeat split; vm_compute; reflexivity.
Qed.

(** C4 as stated fails: a [.py] file that begins with
    [#!/usr/bin/python3.9] followed by a line feed is under the walked
    tree, and after [fix_shebangs] its first line is not
    [#!<target interpreter path>]; the file is as it was. *)
Lemma fix_shebangs_keeps_versioned_direct_path :
  let path := "/ws/install/lib/versioned.py" in
  let contents := "#!/usr/bin/python3.9" +:+ Py.LF +:+ "import os" +:+ Py.LF in
  In path (walked_py_files demo_fs "/ws/install")
  /\ files demo_fs !! path = Some contents
  /\ Py.startswith "#!/usr/bin/python3.9" contents = true
  /\ directive_end (Py.drop (String.length "#!/usr/bin/python3.9") contents)
     = true
  /\ exists fs',
       fix_shebangs "/ws/install" "/opt/py3/bin/python3" demo_fs
       = (inr 0%Z, fs')
       /\ files fs' !! path = Some contents
       /\ first_line contents = "#!/usr/bin/python3.9"
       /\ first_line contents <> "#!" +:+ "/opt/py3/bin/python3".
Proof.
  cbv zeta. split.
  { vm_compute. tauto. }
  split; [vm_compute; reflexivity |].
  split; [reflexivity |]. split; [reflexivity |].
  eexists. split; [vm_compute; reflexivity |].
  split; [vm_compute; reflexivity |].
  split; [reflexivity | vm_compute; discriminate].
Qed.

(** ** [fix_python3_install_space] on a file system *)

(** Replacing by a text that is not empty gives an empty result on the
    empty text only. *)
Lemma replace_empty_result (old new s : string) :
  old <> "" -> new <> "" -> Py.replace old new s = "" -> s = "".
Proof.
  intros Hold Hnew. destruct s as [|c s]; [done |].
  destruct old as [|a old]; [done |]. unfold Py.replace.
  cbn [Py.replace_from]. destruct (Py.startswith _ _); [| done].
  by destruct new.
Qed.

Lemma encode_lib_python (version : string) :
  Py.encode ("/lib/python" +:+ version) = "/lib/python" +:+ Py.encode version.
Proof. reflexivity. Qed.

Lemma encode_lib_python_not_empty (version : string) :
  Py.encode ("/lib/python" +:+ version) <> "".
Proof. by rewrite encode_lib_python. Qed.

(** Without a [setup.sh] nothing is read and nothing is written. *)
Lemma fix_python3_install_space_absent (fs : FS)
    (install_space old_python : string) (new_python : Z) :
  files fs !! Py.os_path_join install_space ["setup.sh"] = None ->
  Py.os_path_join install_space ["setup.sh"] ∉ unreadable fs ->
  fix_python3_install_space install_space old_python new_python fs
  = (inr 0%Z, fs).
Proof.
  intros Hnone Hnot.
  unfold fix_python3_install_space, path_exists, bind, get, ret.
  rewrite Hnone. rewrite bool_decide_eq_false_2; [done |].
  by intros [[? ?]|?].
Qed.

(** C5, as the code has it: applied to an install directory with a
    [setup.sh], [fix_python3_install_space] makes the content of that file
    the result of replacing every occurrence of [/lib/python<old>] by
    [/lib/python<new>] and leaves every other file as it is; it writes the
    file whenever the file is not empty, also when the old fragment does
    not occur, and then the content written is the content read. *)
Theorem fix_python3_install_space_patches (fs : FS)
    (install_space old_python : string) (new_python : Z) (contents : string) :
  let filepath := Py.os_path_join install_space ["setup.sh"] in
  let patched :=
    Py.replace (Py.encode ("/lib/python" +:+ old_python))
      (Py.encode ("/lib/python" +:+ Py.str_of_int new_python)) contents in
  files fs !! filepath = Some contents ->
  exists fs',
    fix_python3_install_space install_space old_python new_python fs
    = (inr 0%Z, fs')
    /\ files fs' !! filepath = Some patched
    /\ (forall p, p <> filepath -> files fs' !! p = files fs !! p)
    /\ writes fs'
       = writes fs ++ (if String.eqb contents "" then [] else [filepath])
    /\ (Py.contains (Py.encode ("/lib/python" +:+ old_python)) contents
        = false ->
        patched = contents /\ files fs' = files fs).
Proof.
  intros filepath patched Hfile.
  pose proof (encode_lib_python_not_empty old_python) as Hold.
  pose proof (encode_lib_python_not_empty (Py.str_of_int new_python)) as Hnew.
  assert (Hempty : String.eqb patched "" = String.eqb contents "").
  { destruct (String.eqb_spec contents "") as [->|Hne].
    - subst patched. by destruct (Py.encode ("/lib/python" +:+ old_python)).
    - apply String.eqb_neq. intros Hp. apply Hne.
      by apply replace_empty_result in Hp. }
  assert (Habsent : Py.contains (Py.encode ("/lib/python" +:+ old_python))
                      contents = false
                    -> patched = contents).
  { intros Hno. by apply replace_absent. }
  unfold fix_python3_install_space, path_exists, read_bytes, write_bytes,
    bind, get, put, ret, or_raise.
  fold filepath. rewrite Hfile.
  rewrite bool_decide_eq_true_2 by (left; eauto).
  rewrite Hfile. cbv beta iota delta [ret]. fold patched. rewrite Hempty.
  destruct (String.eqb_spec contents "") as [->|Hne]; cbn [negb].
  - exists fs. split; [done |].
    assert (patched = "") as Hp by (by apply String.eqb_eq).
    split; [by rewrite Hp |]. split; [done |].
    split; [by rewrite app_nil_r | done].
  - eexists. split; [reflexivity |]. cbn [files writes].
    split; [by rewrite lookup_insert_eq |].
    split; [intros p Hp; by rewrite lookup_insert_ne |].
    split; [done |].
    intros Hno. split; [by apply Habsent |].
    rewrite (Habsent Hno). by apply insert_id.
Qed.

Lemma fix_python3_install_space_patches_demo :
  exists fs',
    fix_python3_install_space "/ws/install" "3.8" 3 demo_fs = (inr 0%Z, fs')
    /\ files fs' !! "/ws/install/setup.sh"
       = Some ("export PYTHONPATH=/ws/install/lib/python3/dist-packages:"
               +:+ "/opt/ros/lib/python3/dist-packages" +:+ Py.LF)
    /\ (forall p, p <> "/ws/install/setup.sh" ->
          files fs' !! p = files demo_fs !! p)
    /\ writes fs' = ["/ws/install/setup.sh"]
    /\ (Py.contains (Py.encode ("/lib/python" +:+ "3.8"))
          ("export PYTHONPATH=/ws/install/lib/python3.8/dist-packages:"
           +:+ "/opt/ros/lib/python3.8/dist-packages" +:+ Py.LF) = false ->
        "export PYTHONPATH=/ws/install/lib/python3/dist-packages:"
        +:+ "/opt/ros/lib/python3/dist-packages" +:+ Py.LF
        = "export PYTHONPATH=/ws/install/lib/python3.8/dist-packages:"
          +:+ "/opt/ros/lib/python3.8/dist-packages" +:+ Py.LF
        /\ files fs' = files demo_fs).
Proof.
  apply (fix_python3_install_space_patches demo_fs "/ws/install" "3.8" 3
           ("export PYTHONPATH=/ws/install/lib/python3.8/dist-packages:"
            +:+ "/opt/ros/lib/python3.8/dist-packages" +:+ Py.LF)).
  vm_compute. reflexivity.
Defined.

(** C5 as stated fails: on a [setup.sh] without any occurrence of the old
    fragment the file is written all the same (with the content read). *)
Lemma fix_python3_install_space_writes_without_occurrence :
  let path := "/ws/install/setup.sh" in
  files demo_fs_plain !! path = Some "export PATH=/ws/install/bin"
  /\ Py.contains "/lib/python3.8" "export PATH=/ws/install/bin" = false
  /\ writes demo_fs_plain = []
  /\ exists fs',
       fix_python3_install_space "/ws/install" "3.8" 3 demo_fs_plain
       = (inr 0%Z, fs')
       /\ writes fs' = [path]
       /\ files fs' !! path = Some "export PATH=/ws/install/bin".
Proof.
  cbv zeta. split; [vm_compute; reflexivity |].
  split; [reflexivity |]. split; [reflexivity |].
  eexists. split; [vm_compute; reflexivity |].
  split; vm_compute; reflexivity.
Qed.

(** * Further properties of the code *)

(** ** More on [strip_ccache] and the job environment *)

Section Separator.

Variable w : string.
Hypothesis w_no_blank : all_chars (fun c => negb (Ascii.eqb c " ")) w = true.

(** A text without blanks starts at a blank-separated boundary only if it
    starts in the part before the blank. *)
Lemma startswith_before_blank (a b : string) :
  Py.startswith w (a +:+ String " " b) = Py.startswith w a.
Proof.
  revert a w_no_blank. induction w as [|x w' IH]; intros a Hw.
  - by destruct a.
  - simpl in Hw. apply andb_true_iff in Hw as [Hx Hw].
    destruct a as [|c a]; simpl.
    + apply negb_true_iff in Hx. by rewrite Hx.
    + by rewrite IH.
Qed.

(** It occurs in two texts joined by a blank only if it occurs in one. *)
Lemma contains_across_blank (a b : string) :
  Py.contains w (a +:+ String " " b) = Py.contains w a || Py.contains w b.
Proof.
  induction a as [|c a IH].
  - pose proof (startswith_before_blank "" b) as H.
    cbn [String.append] in *. rewrite contains_cons, H.
    cbn [Py.contains]. by rewrite orb_false_r.
  - pose proof (startswith_before_blank (String c a) b) as H.
    cbn [String.append] in *. rewrite !contains_cons, IH, H.
    by rewrite orb_assoc.
Qed.

Lemma contains_join_blank (toks : list string) :
  w <> "" ->
  Forall (fun t => Py.contains w t = false) toks ->
  Py.contains w (Py.join " " toks) = false.
Proof.
  intros Hne. induction 1 as [|t toks Ht Htoks IH].
  - by destruct w.
  - destruct toks as [|t' toks]; [done |].
    change (Py.join " " (t :: t' :: toks))
      with (t +:+ String " " (Py.join " " (t' :: toks))).
    by rewrite contains_across_blank, Ht, IH.
Qed.

End Separator.

Lemma Forall_filter_holds {A} (f : A -> bool) (l : list A) :
  Forall (fun x => f x = true) (List.filter f l).
Proof.
  induction l as [|x l IH]; simpl; [constructor |].
  destruct (f x) eqn:E; [by constructor | done].
Qed.

Lemma filter_all_hold {A} (f : A -> bool) (l : list A) :
  Forall (fun x => f x = true) l -> List.filter f l = l.
Proof.
  induction 1 as [|x l Hx Hl IH]; simpl; [done |].
  by rewrite Hx, IH.
Qed.

(** X1: whatever the compiler string, the result of [strip_ccache] does
    not contain [ccache] anywhere. *)
Theorem strip_ccache_free_of_ccache (cc_str : string) :
  Py.contains "ccache" (strip_ccache cc_str) = false.
Proof.
  unfold strip_ccache. apply contains_join_blank; [done | done |].
  eapply Forall_impl; [apply Forall_filter_holds |].
  intros t Ht. by apply negb_true_iff in Ht.
Qed.

(** X2: when no token of the compiler string contains [ccache],
    [strip_ccache] keeps every token and only normalises the whitespace
    between them; a string of such tokens joined by single blanks is
    returned as it is. *)
Theorem strip_ccache_keeps_clean_tokens (cc_str : string) :
  Forall (fun t => Py.contains "ccache" t = false) (Py.split cc_str) ->
  Py.split (strip_ccache cc_str) = Py.split cc_str
  /\ strip_ccache cc_str = Py.join " " (Py.split cc_str)
  /\ (forall toks,
        Forall (is_token Py.str_isspace) toks ->
        cc_str = Py.join " " toks -> strip_ccache cc_str = cc_str).
Proof.
  intros Hclean.
  assert (Hfilter :
            List.filter (fun part => negb (Py.contains "ccache" part))
              (Py.split cc_str) = Py.split cc_str).
  { apply filter_all_hold. eapply Forall_impl; [exact Hclean |].
    intros t Ht. by rewrite Ht. }
  split; [by rewrite split_strip_ccache |].
  split; [unfold strip_ccache; by rewrite Hfilter |].
  intros toks Htoks ->. unfold strip_ccache. rewrite Hfilter.
  unfold Py.split. by rewrite split_go_join.
Qed.

Lemma strip_ccache_keeps_clean_tokens_demo :
  Py.split (strip_ccache ("  gcc" +:+ Py.LF +:+ "-O2 ")) = ["gcc"; "-O2"]
  /\ strip_ccache ("  gcc" +:+ Py.LF +:+ "-O2 ") = "gcc -O2"
  /\ (forall toks,
        Forall (is_token Py.str_isspace) toks ->
        "  gcc" +:+ Py.LF +:+ "-O2 " = Py.join " " toks ->
        strip_ccache ("  gcc" +:+ Py.LF +:+ "-O2 ")
        = "  gcc" +:+ Py.LF +:+ "-O2 ").
Proof.
  apply (strip_ccache_keeps_clean_tokens ("  gcc" +:+ Py.LF +:+ "-O2 ")).
  vm_compute. repeat constructor.
Defined.

(** X3: the job environment has exactly the keys of the ambient
    environment: stripping [CC] and [CXX] neither adds nor removes an
    entry, also when nothing is left of the value. *)
Theorem build_job_env_same_keys (environ : gmap string string) :
  dom (build_job_env environ) = dom environ
  /\ forall k, build_job_env environ !! k = None <-> environ !! k = None.
Proof.
  assert (Hnone : forall k,
             build_job_env environ !! k = None <-> environ !! k = None).
  { intros k. rewrite build_job_env_lookup.
    case_bool_decide; [| done]. by rewrite fmap_None. }
  split; [| done].
  apply set_eq. intros k. rewrite !elem_of_dom, <- !not_eq_None_Some.
  by rewrite Hnone.
Qed.

(** X4: in the environment of every returned Job the [CC] and [CXX]
    entries, when present, do not contain [ccache]. *)
Theorem build_job_env_free_of_ccache
    (h : Host) (context : Context) (package : Package) (package_path : string)
    (dependencies : list string) (force_cmake pre_clean : bool) (g : Globals)
    (v : PythonVersion) (contents : string) :
  probe h (resolved context g) = inr v ->
  open_read h (setup_py_path context package_path) = Some contents ->
  RSYNC_EXEC g <> None ->
  exists job g',
    create_python_build_job h context package package_path dependencies
      force_cmake pre_clean g = (inr job, g')
    /\ forall k value,
         k = "CC" \/ k = "CXX" -> env job !! k = Some value ->
         Py.contains "ccache" value = false.
Proof.
  intros Hprobe Hread Hrsync. eexists _, _. split; [by apply build_job_run |].
  intros k value Hk. cbn [env]. rewrite build_job_env_lookup.
  rewrite bool_decide_eq_true_2 by done.
  intros (cc & _ & ->)%fmap_Some.
  unfold strip_ccache. apply contains_join_blank; [done | done |].
  eapply Forall_impl; [apply Forall_filter_holds |].
  intros t Ht. by apply negb_true_iff in Ht.
Qed.

Lemma build_job_env_free_of_ccache_demo :
  exists job g',
    create_python_build_job demo_host demo_context demo_package "tool_pkg"
      ["dep_a"] false false demo_globals = (inr job, g')
    /\ forall k value,
         k = "CC" \/ k = "CXX" -> env job !! k = Some value ->
         Py.contains "ccache" value = false.
Proof.
  apply (build_job_env_free_of_ccache demo_host demo_context demo_package
           "tool_pkg" ["dep_a"] false false demo_globals
           {| major := 3; minor := 8 |} demo_setup_py).
  - vm_compute. reflexivity.
  - vm_compute. reflexivity.
  - vm_compute. discriminate.
Defined.

(** ** More on the interpreter selection *)

Lemma resolved_without_directive (context : Context) (g : Globals) :
  Forall (fun x => Py.contains "PYTHON_EXECUTABLE" x = false)
    (cmake_args context) ->
  resolved context g = g.
Proof.
  intros H. unfold resolved, determine_python_exec.
  by rewrite filter_none_matching.
Qed.

(** The probe raises one of three exceptions, never [IOError]. *)
Lemma probe_exception (h : Host) (g : Globals) (e : exn) :
  probe h g = inl e ->
  (e = SubprocessError
   /\ check_output h [PYTHON_EXEC g; "-c"; py_version_cmd] = None)
  \/ (e = IndexError \/ e = ValueError)
     /\ is_Some (check_output h [PYTHON_EXEC g; "-c"; py_version_cmd]).
Proof.
  unfold probe, determine_python_version, bind, get, or_raise, ret, raise.
  simpl. destruct (check_output h _) as [out|]; simpl.
  2: { intros [= <-]. by left. }
  intros He. right. split; [| by eexists].
  destruct (Py.bytes_split out !! 0%nat); simpl in He; [| by left; simplify_eq].
  destruct (Py.int _); simpl in He; [| by right; simplify_eq].
  destruct (Py.bytes_split out !! 1%nat); simpl in He; [| by left; simplify_eq].
  destruct (Py.int _); simpl in He; [done | by right; simplify_eq].
Qed.

Lemma build_job_globals_after_aux
    (h : Host) (context : Context) (package : Package) (package_path : string)
    (dependencies : list string) (force_cmake pre_clean : bool) (g : Globals) :
  snd (create_python_build_job h context package package_path dependencies
         force_cmake pre_clean g) = resolved context g.
Proof.
  destruct (probe h (resolved context g)) as [e|v] eqn:Hprobe.
  - by rewrite (build_job_probe_raises _ _ _ _ _ _ _ _ _ Hprobe).
  - destruct (open_read h (setup_py_path context package_path))
      as [contents|] eqn:Hread.
    + destruct (RSYNC_EXEC g) as [rsync|] eqn:Hrsync.
      * rewrite (build_job_run h context package package_path dependencies
                   force_cmake pre_clean g v contents Hprobe Hread); [done |].
        by rewrite Hrsync.
      * by rewrite (build_job_rsync_raises h context package package_path
                      dependencies force_cmake pre_clean g v contents
                      Hprobe Hread Hrsync).
    + by rewrite (build_job_read_raises h context package package_path
                    dependencies force_cmake pre_clean g v Hprobe Hread).
Qed.

(** X5: whether planning returns a Job or raises, it leaves the module
    globals as [determine_python_exec] set them: the interpreter named by
    the first argument containing [PYTHON_EXECUTABLE] (else the one it
    found), and [RSYNC_EXEC] unchanged. *)
Theorem build_job_globals_after
    (h : Host) (context : Context) (package : Package) (package_path : string)
    (dependencies : list string) (force_cmake pre_clean : bool) (g : Globals) :
  let g' :=
    snd (create_python_build_job h context package package_path dependencies
           force_cmake pre_clean g) in
  g' = resolved context g
  /\ RSYNC_EXEC g' = RSYNC_EXEC g
  /\ PYTHON_EXEC g'
     = match List.filter (fun x => Py.contains "PYTHON_EXECUTABLE" x)
               (cmake_args context) with
       | d :: _ => Py.replace "-DPYTHON_EXECUTABLE=" "" d
       | [] => PYTHON_EXEC g
       end.
Proof.
  intros g'. assert (Hg : g' = resolved context g).
  { apply build_job_globals_after_aux. }
  rewrite Hg. split; [done |].
  split; [apply resolved_rsync | apply resolved_exec].
Qed.

(** X6: planning raises [IOError] exactly when the probe succeeded and
    [setup.py] cannot be read, and [SubprocessError] exactly when the
    interpreter cannot be run: [setup.py] is opened only after the probe,
    and a failing probe hides an unreadable [setup.py]. *)
Theorem build_job_exception_order
    (h : Host) (context : Context) (package : Package) (package_path : string)
    (dependencies : list string) (force_cmake pre_clean : bool) (g : Globals) :
  let outcome :=
    fst (create_python_build_job h context package package_path dependencies
           force_cmake pre_clean g) in
  (outcome = inl IOError <->
   (exists v, probe h (resolved context g) = inr v)
   /\ open_read h (setup_py_path context package_path) = None)
  /\ (outcome = inl SubprocessError <->
      check_output h [PYTHON_EXEC (resolved context g); "-c"; py_version_cmd]
      = None).
Proof.
  intros outcome. subst outcome.
  destruct (probe h (resolved context g)) as [e|v] eqn:Hprobe.
  - rewrite (build_job_probe_raises _ _ _ _ _ _ _ _ _ Hprobe). cbn [fst].
    destruct (probe_exception _ _ _ Hprobe) as [[-> Hout]|[He [out Hout]]].
    + split; split; try done. by intros [[v' ?] _].
    + split; split.
      * intros [= ->]. by destruct He.
      * by intros [[v' ?] _].
      * intros [= ->]. by destruct He.
      * congruence.
  - destruct (proj1 (probe_ok_iff h (resolved context g)))
      as (out & Hout & _); [by exists v |].
    destruct (open_read h (setup_py_path context package_path))
      as [contents|] eqn:Hread.
    + destruct (RSYNC_EXEC g) as [rsync|] eqn:Hrsync.
      * rewrite (build_job_run h context package package_path dependencies
                   force_cmake pre_clean g v contents Hprobe Hread);
          [| by rewrite Hrsync].
        cbn [fst]. split; split; try done; [by intros [_ ?] | congruence].
      * rewrite (build_job_rsync_raises h context package package_path
                   dependencies force_cmake pre_clean g v contents
                   Hprobe Hread Hrsync).
        cbn [fst]. split; split; try done; [by intros [_ ?] | congruence].
    + rewrite (build_job_read_raises h context package package_path
                 dependencies force_cmake pre_clean g v Hprobe Hread).
      cbn [fst]. split; split; try done; [by eauto | congruence].
Qed.

(** X7: an override outlives the call that made it. After planning one
    package with a context (whatever the outcome), a planning call that
    returns a Job with a context that has no argument containing
    [PYTHON_EXECUTABLE] runs the interpreter the earlier call selected,
    not the module's default. *)
Theorem build_job_override_persists
    (h1 h2 : Host) (context1 context2 : Context) (package1 package2 : Package)
    (package_path1 package_path2 : string) (deps1 deps2 : list string)
    (force_cmake1 pre_clean1 force_cmake2 pre_clean2 : bool) (g : Globals)
    (v : PythonVersion) (contents : string) :
  let g1 :=
    snd (create_python_build_job h1 context1 package1 package_path1 deps1
           force_cmake1 pre_clean1 g) in
  Forall (fun x => Py.contains "PYTHON_EXECUTABLE" x = false)
    (cmake_args context2) ->
  probe h2 g1 = inr v ->
  open_read h2 (setup_py_path context2 package_path2) = Some contents ->
  RSYNC_EXEC g <> None ->
  exists job g2 args cwd lock,
    create_python_build_job h2 context2 package2 package_path2 deps2
      force_cmake2 pre_clean2 g1 = (inr job, g2)
    /\ stages_named "python" job
       = [CommandStage "python"
            (VStr (PYTHON_EXEC (resolved context1 g)) :: args) cwd lock]
    /\ PYTHON_EXEC g2 = PYTHON_EXEC (resolved context1 g).
Proof.
  intros g1 Hnone Hprobe Hread Hrsync.
  assert (Hg1 : g1 = resolved context1 g).
  { apply (build_job_globals_after_aux h1 context1 package1 package_path1
             deps1 force_cmake1 pre_clean1 g). }
  pose proof (resolved_without_directive context2 g1 Hnone) as Hres.
  rewrite <- Hres in Hprobe.
  assert (Hrsync1 : RSYNC_EXEC g1 <> None).
  { by rewrite Hg1, resolved_rsync. }
  eexists _, _, _, _, _. split.
  { by apply build_job_run. }
  rewrite Hres, Hg1. unfold stages_named. cbn [stages]. split; [| done].
  destruct (Py.contains _ _), (Z.eqb _ _); reflexivity.
Qed.

Lemma build_job_override_persists_demo :
  exists job g2 args cwd lock,
    create_python_build_job demo_host (with_cmake_args [] false) demo_package
      "tool_pkg" [] false false
      (snd (create_python_build_job demo_host demo_context demo_package
              "other_pkg" [] false false demo_globals))
    = (inr job, g2)
    /\ stages_named "python" job
       = [CommandStage "python" (VStr "/usr/bin/python3" :: args) cwd lock]
    /\ PYTHON_EXEC g2 = "/usr/bin/python3".
Proof.
  apply (build_job_override_persists demo_host demo_host demo_context
           (with_cmake_args [] false) demo_package demo_package
           "other_pkg" "tool_pkg" [] [] false false false false demo_globals
           {| major := 3; minor := 8 |} demo_setup_py).
  - vm_compute. constructor.
  - vm_compute. reflexivity.
  - vm_compute. reflexivity.
  - vm_compute. discriminate.
Defined.

(** X8: on a planning call made with the globals as they are at import,
    [which('rsync')] having found an executable, the interpreter of the
    python stage and of the fix-shebang stage is taken from the first
    argument containing [PYTHON_EXECUTABLE] if there is one, else from the
    [PYTHON] entry of the environment if it is set, else it is the
    interpreter running the host. *)
Theorem build_job_interpreter_precedence
    (h : Host) (sys_executable : string) (which_rsync : option string)
    (context : Context) (package : Package) (package_path : string)
    (dependencies : list string) (force_cmake pre_clean : bool)
    (v : PythonVersion) (contents : string) :
  let g := module_globals h sys_executable which_rsync in
  let exec :=
    match List.filter (fun x => Py.contains "PYTHON_EXECUTABLE" x)
            (cmake_args context) with
    | d :: _ => Py.replace "-DPYTHON_EXECUTABLE=" "" d
    | [] => match os_environ h !! "PYTHON" with
            | Some p => p
            | None => sys_executable
            end
    end in
  probe h (resolved context g) = inr v ->
  open_read h (setup_py_path context package_path) = Some contents ->
  which_rsync <> None ->
  check_output h [exec; "-c"; py_version_cmd] <> None
  /\ exists job g' args cwd lock st,
       create_python_build_job h context package package_path dependencies
         force_cmake pre_clean g = (inr job, g')
       /\ stages_named "python" job
          = [CommandStage "python" (VStr exec :: args) cwd lock]
       /\ stages_named "fix-shebang" job = [st]
       /\ kwarg "python_exec" st = Some (VStr exec).
Proof.
  intros g exec Hprobe Hread Hrsync.
  assert (Hexec : PYTHON_EXEC (resolved context g) = exec).
  { rewrite resolved_exec. subst exec g. cbn [module_globals PYTHON_EXEC].
    destruct (List.filter _ _); [| done]. by destruct (os_environ h !! "PYTHON"). }
  split.
  { destruct (proj1 (probe_ok_iff h (resolved context g)))
      as (out & Hout & _); [by exists v |].
    rewrite <- Hexec. congruence. }
  eexists _, _, _, _, _, _. split; [by apply build_job_run |].
  rewrite Hexec. unfold stages_named. cbn [stages].
  split; [by destruct (Py.contains _ _), (Z.eqb _ _) |].
  split; [by destruct (Py.contains _ _), (Z.eqb _ _) |].
  reflexivity.
Qed.

Lemma build_job_interpreter_precedence_demo :
  check_output demo_host ["/usr/bin/python"; "-c"; py_version_cmd] <> None
  /\ exists job g' args cwd lock st,
       create_python_build_job demo_host (with_cmake_args [] true) demo_package
         "tool_pkg" [] false false
         (module_globals demo_host "/usr/bin/python" (Some "/usr/bin/rsync"))
       = (inr job, g')
       /\ stages_named "python" job
          = [CommandStage "python" (VStr "/usr/bin/python" :: args) cwd lock]
       /\ stages_named "fix-shebang" job = [st]
       /\ kwarg "python_exec" st = Some (VStr "/usr/bin/python").
Proof.
  apply (build_job_interpreter_precedence demo_host "/usr/bin/python"
           (Some "/usr/bin/rsync") (with_cmake_args [] true) demo_package "tool_pkg" [] false false
           {| major := 2; minor := 7 |} demo_setup_py).
  - vm_compute. reflexivity.
  - vm_compute. reflexivity.
  - vm_compute. discriminate.
Defined.

(** X9: an argument that contains [PYTHON_EXECUTABLE] without the text
    [-DPYTHON_EXECUTABLE=] (a typed form such as
    [-DPYTHON_EXECUTABLE:FILEPATH=...], or another variable whose name
    contains it) is selected too when it is the first such argument, and
    the whole argument becomes the interpreter path. *)
Theorem determine_python_exec_other_form
    (cmake_args : list string) (g : Globals) (pre rest : list string)
    (d : string) :
  cmake_args = pre ++ d :: rest ->
  Forall (fun x => Py.contains "PYTHON_EXECUTABLE" x = false) pre ->
  Py.contains "PYTHON_EXECUTABLE" d = true ->
  Py.contains "-DPYTHON_EXECUTABLE=" d = false ->
  determine_python_exec cmake_args g
  = (inr tt, {| PYTHON_EXEC := d; RSYNC_EXEC := RSYNC_EXEC g |}).
Proof.
  intros -> Hpre Hd Hform. unfold determine_python_exec.
  rewrite filter_first_matching by done.
  unfold bind, get, put. by rewrite replace_absent.
Qed.

Lemma determine_python_exec_other_form_demo :
  determine_python_exec
    ["-DCMAKE_BUILD_TYPE=Release";
     "-DPYTHON_EXECUTABLE:FILEPATH=/usr/bin/python3";
     "-DPYTHON_EXECUTABLE=/usr/bin/python2"] demo_globals
  = (inr tt,
     {| PYTHON_EXEC := "-DPYTHON_EXECUTABLE:FILEPATH=/usr/bin/python3";
        RSYNC_EXEC := RSYNC_EXEC demo_globals |}).
Proof.
  apply (determine_python_exec_other_form _ demo_globals
           ["-DCMAKE_BUILD_TYPE=Release"]
           ["-DPYTHON_EXECUTABLE=/usr/bin/python2"]
           "-DPYTHON_EXECUTABLE:FILEPATH=/usr/bin/python3").
  - reflexivity.
  - repeat constructor.
  - reflexivity.
  - reflexivity.
Defined.

(** ** The version probe reads back what the interpreter prints *)

Lemma digit_val_pretty_char (d : N) :
  (d < 10)%N -> Py.digit_val (pretty_N_char d) = Some (Z.of_N d).
Proof.
  intros Hd.
  assert (d = 0 \/ d = 1 \/ d = 2 \/ d = 3 \/ d = 4 \/ d = 5 \/ d = 6
          \/ d = 7 \/ d = 8 \/ d = 9)%N as Hcases by lia.
  repeat (destruct Hcases as [->|Hcases]; [reflexivity |]).
  by subst d.
Qed.

(** [int] reads the digits that ['%s'] writes for a positive number. *)
Lemma digits_val_pretty_go (x : N) (s : string) (b : bool) :
  (0 < x)%N ->
  Py.digits_val 0 b (pretty_N_go x s) = Py.digits_val (Z.of_N x) true s.
Proof.
  revert s b. induction (N.lt_wf_0 x) as [x _ IH]; intros s b Hx.
  rewrite pretty_N_go_step by done.
  assert (Hd : (x `mod` 10 < 10)%N) by (apply N.mod_lt; lia).
  assert (Hdm : Z.of_N x
                = (10 * Z.of_N (x `div` 10) + Z.of_N (x `mod` 10))%Z).
  { rewrite (N.div_mod x 10) at 1 by lia.
    by rewrite N2Z.inj_add, N2Z.inj_mul. }
  destruct (decide (x `div` 10 = 0)%N) as [Hq|Hq].
  - rewrite Hq in *. rewrite pretty_N_go_0. cbn [Py.digits_val].
    rewrite digit_val_pretty_char by done. by rewrite Hdm.
  - rewrite IH; [| apply N.div_lt; lia | lia].
    cbn [Py.digits_val]. rewrite digit_val_pretty_char by done.
    by rewrite Hdm.
Qed.

(** Every character ['%s'] writes for a positive number is a digit. *)
Lemma all_chars_pretty_go (f : ascii -> bool) (x : N) (s : string) :
  (forall d, (d < 10)%N -> f (pretty_N_char d) = true) ->
  all_chars f s = true -> all_chars f (pretty_N_go x s) = true.
Proof.
  intros Hf. revert s. induction (N.lt_wf_0 x) as [x _ IH]; intros s Hs.
  destruct (decide (0 < x)%N) as [Hx|Hx].
  - rewrite pretty_N_go_step by done. apply IH; [apply N.div_lt; lia |].
    simpl. rewrite Hs, Hf; [done |]. apply N.mod_lt. lia.
  - assert (x = 0%N) as -> by lia. by rewrite pretty_N_go_0.
Qed.

Lemma pretty_go_head (x : N) (s : string) :
  (0 < x)%N ->
  exists d rest, (d < 10)%N /\ pretty_N_go x s = String (pretty_N_char d) rest.
Proof.
  revert s. induction (N.lt_wf_0 x) as [x _ IH]; intros s Hx.
  rewrite pretty_N_go_step by done.
  destruct (decide (x `div` 10 = 0)%N) as [Hq|Hq].
  - rewrite Hq, pretty_N_go_0. eexists _, _. split; [| done].
    apply N.mod_lt. lia.
  - apply IH; [apply N.div_lt; lia | by apply N.neq_0_lt_0].
Qed.

Lemma pretty_char_solid (d : N) :
  (d < 10)%N -> negb (Py.bytes_isspace (pretty_N_char d)) = true.
Proof.
  intros Hd.
  assert (d = 0 \/ d = 1 \/ d = 2 \/ d = 3 \/ d = 4 \/ d = 5 \/ d = 6
          \/ d = 7 \/ d = 8 \/ d = 9)%N as Hcases by lia.
  repeat (destruct Hcases as [->|Hcases]; [reflexivity |]).
  by subst d.
Qed.

Lemma int_pretty_positive (p : positive) :
  Py.int (pretty (N.pos p)) = Some (Z.pos p)
  /\ is_token Py.bytes_isspace (pretty (N.pos p)).
Proof.
  unfold pretty, pretty_N. rewrite decide_False by done.
  destruct (pretty_go_head (N.pos p) "") as (d & rest & Hd & Hhead); [lia |].
  split.
  - assert (Hint : Py.int (pretty_N_go (N.pos p) "")
                   = Py.digits_val 0 false (pretty_N_go (N.pos p) "")).
    { rewrite Hhead.
      assert (d = 0 \/ d = 1 \/ d = 2 \/ d = 3 \/ d = 4 \/ d = 5 \/ d = 6
              \/ d = 7 \/ d = 8 \/ d = 9)%N as Hcases by lia.
      repeat (destruct Hcases as [->|Hcases]; [reflexivity |]).
      by subst d. }
    rewrite Hint, digits_val_pretty_go by lia. reflexivity.
  - split; [by rewrite Hhead |].
    apply all_chars_pretty_go; [apply pretty_char_solid | done].
Qed.

(** [int('%s' % n)] is [n], and ['%s' % n] is one token. *)
Lemma int_str_of_int (n : Z) :
  Py.int (Py.str_of_int n) = Some n
  /\ is_token Py.bytes_isspace (Py.str_of_int n).
Proof.
  destruct n as [|p|p].
  - split; [reflexivity | by split].
  - apply int_pretty_positive.
  - destruct (int_pretty_positive p) as [Hint [Hne Hsolid]].
    destruct (pretty_go_head (N.pos p) "") as (d & rest & Hd & Hhead); [lia |].
    unfold Py.str_of_int, pretty, pretty_Z.
    change (pretty p) with (pretty (N.pos p)).
    cbn [String.append]. split.
    + cbn [Py.int].
      assert (Hdigits : Py.digits_val 0 false (pretty (N.pos p))
                        = Some (Z.pos p)).
      { unfold pretty, pretty_N. rewrite decide_False by done.
        rewrite digits_val_pretty_go by lia. reflexivity. }
      by rewrite Hdigits.
    + split; [done |]. cbn [all_chars]. by rewrite Hsolid.
Qed.

(** Two tokens separated by a blank and ended by a line feed. *)
Lemma bytes_split_two_tokens (a b : string) :
  is_token Py.bytes_isspace a -> is_token Py.bytes_isspace b ->
  Py.bytes_split (a +:+ " " +:+ b +:+ Py.LF) = [a; b].
Proof.
  intros [Ha Hsa] [Hb Hsb]. unfold Py.bytes_split.
  rewrite split_go_solid by done. cbn [String.append Py.split_go].
  change (Py.bytes_isspace " ") with true. cbn iota.
  destruct a as [|ca a]; [done |]. f_equal.
  rewrite split_go_solid by done. cbn [String.append].
  unfold Py.LF. cbn [Py.split_go].
  change (Py.bytes_isspace "010") with true. cbn iota.
  by destruct b.
Qed.

(** X10: when the interpreter prints its version as the probe command
    asks, [M N] and a line feed in decimal, [determine_python_version]
    returns exactly major [M] and minor [N] and leaves the globals as they
    are. *)
Theorem determine_python_version_reads_back
    (h : Host) (g : Globals) (M N : Z) :
  check_output h [PYTHON_EXEC g; "-c"; py_version_cmd]
  = Some (Py.str_of_int M +:+ " " +:+ Py.str_of_int N +:+ Py.LF) ->
  determine_python_version h g = (inr {| major := M; minor := N |}, g).
Proof.
  intros Hout.
  destruct (int_str_of_int M) as [HM HtM], (int_str_of_int N) as [HN HtN].
  unfold determine_python_version, bind, get, or_raise, ret.
  rewrite Hout. rewrite bytes_split_two_tokens by done.
  cbn [lookup list_lookup]. by rewrite HM, HN.
Qed.

Lemma determine_python_version_reads_back_demo :
  determine_python_version (with_probe_output (Some ("3 11" +:+ Py.LF)))
    demo_globals
  = (inr {| major := 3; minor := 11 |}, demo_globals).
Proof.
  apply (determine_python_version_reads_back
           (with_probe_output (Some ("3 11" +:+ Py.LF))) demo_globals 3 11).
  vm_compute. reflexivity.
Defined.

(** ** More on the planned stages *)

(** X11: the names of the stages of a returned Job are pairwise
    different, with or without the two optional stages. *)
Theorem build_job_stage_names_distinct
    (h : Host) (context : Context) (package : Package) (package_path : string)
    (dependencies : list string) (force_cmake pre_clean : bool) (g : Globals)
    (v : PythonVersion) (contents : string) :
  probe h (resolved context g) = inr v ->
  open_read h (setup_py_path context package_path) = Some contents ->
  RSYNC_EXEC g <> None ->
  exists job g',
    create_python_build_job h context package package_path dependencies
      force_cmake pre_clean g = (inr job, g')
    /\ NoDup (label <$> stages job)
    /\ forall l, length (stages_named l job) <= 1.
Proof.
  intros Hprobe Hread Hrsync. eexists _, _. split; [by apply build_job_run |].
  assert (Hnd : forall l : list Stage,
             NoDup (label <$> l) ->
             forall name, length (List.filter (has_label name) l) <= 1).
  { induction l as [|st l IH]; intros Hl name; [simpl; lia |].
    cbn [fmap list_fmap] in Hl. apply NoDup_cons in Hl as [Hst Hl].
    cbn [List.filter]. unfold has_label at 1.
    destruct (String.eqb_spec (label st) name) as [Heq|Hne]; [| by apply IH].
    assert (List.filter (has_label name) l = []) as ->; [| simpl; lia].
    apply filter_none_matching, Forall_forall. intros st' Hin.
    unfold has_label. apply String.eqb_neq. intros Heq'. apply Hst.
    rewrite Heq, <- Heq'. by apply list_elem_of_fmap_2. }
  unfold stages_named. cbn [stages].
  match goal with
  | |- NoDup ?labels /\ _ => assert (Hlabels : NoDup labels)
  end.
  { destruct (Py.contains _ _), (Z.eqb _ _); cbn;
      by apply (bool_decide_unpack _). }
  split; [exact Hlabels | intros l; by apply Hnd].
Qed.

Lemma build_job_stage_names_distinct_demo :
  exists job g',
    create_python_build_job demo_host demo_context demo_package "tool_pkg"
      ["dep_a"] false false demo_globals = (inr job, g')
    /\ NoDup (label <$> stages job)
    /\ forall l, length (stages_named l job) <= 1.
Proof.
  apply (build_job_stage_names_distinct demo_host demo_context demo_package
           "tool_pkg" ["dep_a"] false false demo_globals
           {| major := 3; minor := 8 |} demo_setup_py).
  - vm_compute. reflexivity.
  - vm_compute. reflexivity.
  - vm_compute. discriminate.
Defined.

Lemma endswith_app (suf s : string) : Py.endswith suf (s +:+ suf) = true.
Proof.
  induction s as [|c s IH]; cbn [String.append].
  - destruct suf; simpl; [done |]. by rewrite Ascii.eqb_refl, String.eqb_refl.
  - cbn [Py.endswith]. rewrite IH. apply orb_true_r.
Qed.

Lemma endswith_slash_install (s : string) :
  Py.endswith "/" (s +:+ "install") = false.
Proof.
  induction s as [|c s IH]; [reflexivity |].
  cbn [String.append Py.endswith]. rewrite IH, orb_false_r.
  apply String.eqb_neq. intros [= _ Hs]. by destruct s.
Qed.

(** [os.path.join(build_space, 'install', '')] is the build space, a
    separator where it has none, and [install/]. *)
Lemma join_install_dir (build_space : string) :
  exists sep,
    (sep = "" \/ sep = "/")
    /\ Py.os_path_join build_space ["install"; ""]
       = build_space +:+ sep +:+ "install/".
Proof.
  unfold Py.os_path_join. cbn [fold_left]. unfold Py.join2 at 2.
  change (Py.startswith "/" "install") with false. cbn iota.
  destruct (String.eqb build_space "" || Py.endswith "/" build_space).
  - exists "". split; [by left |]. unfold Py.join2.
    change (Py.startswith "/" "") with false. cbn iota.
    rewrite endswith_slash_install, orb_false_r.
    destruct (String.eqb_spec (build_space +:+ "install") "") as [He|_].
    { by destruct build_space. }
    by rewrite !app_assoc_str.
  - exists "/". split; [by right |]. unfold Py.join2.
    change (Py.startswith "/" "") with false. cbn iota.
    rewrite <- (app_assoc_str build_space "/" "install").
    rewrite endswith_slash_install, orb_false_r.
    destruct (String.eqb_spec ((build_space +:+ "/") +:+ "install") "")
      as [He|_].
    { by destruct build_space. }
    by rewrite !app_assoc_str.
Qed.

(** X12: where [which('rsync')] found an executable, the install stage
    runs it with [-a] from the [install] directory under the build space,
    written with a final slash whatever the build space is, to the
    package's destination path, in the package source directory and under
    the install-space lock; where it found nothing, planning raises
    [ValueError] when it constructs that stage and returns no Job. *)
Theorem build_job_rsync_stage
    (h : Host) (context : Context) (package : Package) (package_path : string)
    (dependencies : list string) (force_cmake pre_clean : bool) (g : Globals)
    (v : PythonVersion) (contents : string) :
  probe h (resolved context g) = inr v ->
  open_read h (setup_py_path context package_path) = Some contents ->
  match RSYNC_EXEC g with
  | Some path =>
      exists job g' src sep,
        create_python_build_job h context package package_path dependencies
          force_cmake pre_clean g = (inr job, g')
        /\ stages_named "install" job
           = [CommandStage "install"
                [VStr path; VStr "-a"; VStr src;
                 VStr (package_dest_path context package)]
                (Py.os_path_join (source_space_abs context) [package_path])
                (Some "installspace")]
        /\ (sep = "" \/ sep = "/")
        /\ src = package_build_space context package +:+ sep +:+ "install/"
        /\ Py.endswith "/" src = true
  | None =>
      create_python_build_job h context package package_path dependencies
        force_cmake pre_clean g = (inl ValueError, resolved context g)
  end.
Proof.
  intros Hprobe Hread.
  destruct (RSYNC_EXEC g) as [path|] eqn:Hrsync.
  2: { by apply (build_job_rsync_raises h context package package_path
                   dependencies force_cmake pre_clean g v contents). }
  destruct (join_install_dir (package_build_space context package))
    as (sep & Hsep & Hsrc).
  eexists _, _, _, sep. split.
  { apply (build_job_run h context package package_path dependencies
             force_cmake pre_clean g v contents Hprobe Hread).
    by rewrite Hrsync. }
  unfold stages_named. cbn [stages]. rewrite Hrsync. split.
  { destruct (Py.contains _ _), (Z.eqb _ _); reflexivity. }
  split; [done |]. split; [done |].
  rewrite Hsrc.
  change "install/" with ("install" +:+ "/").
  rewrite <- !app_assoc_str. apply endswith_app.
Qed.

Lemma build_job_rsync_stage_demo :
  exists job g' src sep,
    create_python_build_job demo_host demo_context demo_package "tool_pkg"
      ["dep_a"] false false demo_globals = (inr job, g')
    /\ stages_named "install" job
       = [CommandStage "install"
            [VStr "/usr/bin/rsync"; VStr "-a"; VStr src; VStr "/ws/install"]
            "/ws/src/tool_pkg" (Some "installspace")]
    /\ (sep = "" \/ sep = "/")
    /\ src = "/ws/build/tool_pkg" +:+ sep +:+ "install/"
    /\ Py.endswith "/" src = true.
Proof.
  apply (build_job_rsync_stage demo_host demo_context demo_package
           "tool_pkg" ["dep_a"] false false demo_globals
           {| major := 3; minor := 8 |} demo_setup_py).
  - vm_compute. reflexivity.
  - vm_compute. reflexivity.
Defined.

(** ** The rename of the Debian fix *)

Lemma length_app_str (s t : string) :
  String.length (s +:+ t) = String.length s + String.length t.
Proof. induction s as [|c s IH]; simpl; [done | by rewrite IH]. Qed.

Lemma startswith_length (p s : string) :
  Py.startswith p s = true -> String.length p <= String.length s.
Proof.
  intros H. rewrite (startswith_split p s H), length_app_str. lia.
Qed.

Lemma app_eq_same_length (a b x y : string) :
  String.length a = String.length b -> a +:+ x = b +:+ y -> a = b.
Proof.
  revert b. induction a as [|c a IH]; intros [|d b] Hlen Heq; try done.
  simpl in *. injection Heq as -> Heq. f_equal. apply IH; [lia | done].
Qed.

(** Replacing by a text that is not longer does not lengthen, and
    shortens when the new text is shorter and there is an occurrence. *)
Lemma replace_from_length (old new s : string) (skip : nat) :
  old <> "" -> String.length new <= String.length old ->
  skip <= String.length s ->
  String.length (Py.replace_from old new skip s) + skip <= String.length s
  /\ (String.length new < String.length old ->
      Py.contains old (Py.drop skip s) = true ->
      String.length (Py.replace_from old new skip s) + skip < String.length s).
Proof.
  intros Hold Hlen. revert skip.
  induction s as [|c s IH]; intros skip Hskip.
  - simpl in Hskip. assert (skip = 0) as -> by lia.
    destruct old as [|a old]; [done |]. simpl. split; [lia | done].
  - destruct skip as [|k].
    + destruct old as [|a old]; [done |]. cbn [Py.replace_from Py.drop].
      destruct (Py.startswith (String a old) (String c s)) eqn:Hsw.
      * pose proof (startswith_length _ _ Hsw) as Hle. simpl in Hle.
        destruct (IH (String.length (String a old) - 1)) as [IH1 _].
        { simpl. lia. }
        rewrite length_app_str. simpl in *. split; intros; lia.
      * destruct (IH 0) as [IH1 IH2]; [lia |].
        rewrite contains_cons, Hsw. simpl in *. split; [lia |].
        intros Hlt Hc. specialize (IH2 Hlt Hc). lia.
    + destruct (IH k) as [IH1 IH2]; [simpl in Hskip; lia |].
      cbn [Py.replace_from Py.drop]. simpl. split; [lia |].
      intros Hlt Hc. specialize (IH2 Hlt Hc). lia.
Qed.

Lemma replace_same_length (old new s : string) (skip : nat) :
  old <> "" -> String.length new = String.length old ->
  skip <= String.length s ->
  String.length (Py.replace_from old new skip s) + skip = String.length s.
Proof.
  intros Hold Hlen. revert skip.
  induction s as [|c s IH]; intros skip Hskip.
  - simpl in Hskip. assert (skip = 0) as -> by lia. by destruct old.
  - destruct skip as [|k].
    + destruct old as [|a old]; [done |]. cbn [Py.replace_from].
      destruct (Py.startswith (String a old) (String c s)) eqn:Hsw.
      * pose proof (startswith_length _ _ Hsw) as Hle. simpl in Hle.
        specialize (IH (String.length (String a old) - 1)).
        rewrite length_app_str. simpl in *. lia.
      * specialize (IH 0). simpl in *. lia.
    + specialize (IH k). cbn [Py.replace_from]. simpl in *. lia.
Qed.

(** Replacing by a different text of the same length changes a text in
    which there is an occurrence. *)
Lemma replace_changes (old new s : string) :
  old <> "" -> String.length old = String.length new -> old <> new ->
  Py.contains old s = true -> Py.replace old new s <> s.
Proof.
  intros Hold Hlen Hne. induction s as [|c s IH]; intros Hc.
  - by destruct old.
  - destruct (Py.startswith old (String c s)) eqn:Hsw.
    + rewrite (startswith_split _ _ Hsw).
      rewrite replace_at_occurrence by done. intros Heq.
      apply Hne. symmetry. by eapply app_eq_same_length.
    + rewrite contains_cons, Hsw in Hc.
      rewrite replace_no_occurrence_here by done.
      intros [= Heq]. by apply IH.
Qed.

(** Replacing between texts that do not start with a slash keeps a path
    absolute or relative. *)
Lemma replace_keeps_leading_slash (a b : ascii) (old new s : string) :
  Ascii.eqb "/" a = false -> Ascii.eqb "/" b = false ->
  Py.startswith "/" (Py.replace (String a old) (String b new) s)
  = Py.startswith "/" s.
Proof.
  intros Ha Hb. destruct s as [|c s]; [reflexivity |].
  destruct (Py.startswith (String a old) (String c s)) eqn:Hsw.
  - rewrite (startswith_split _ _ Hsw) at 1.
    rewrite replace_at_occurrence by done.
    cbn [Py.startswith] in Hsw. apply andb_true_iff in Hsw as [Hac _].
    apply Ascii.eqb_eq in Hac. subst c.
    cbn [String.append Py.startswith]. by rewrite Ha, Hb.
  - by rewrite replace_no_occurrence_here.
Qed.

(** Joining after [<build space>/install] is injective on paths that are
    both absolute or both relative. *)
Lemma join_install_inj (build_space x y : string) :
  Py.startswith "/" x = Py.startswith "/" y ->
  Py.os_path_join build_space ["install"; x]
  = Py.os_path_join build_space ["install"; y] ->
  x = y.
Proof.
  unfold Py.os_path_join. cbn [fold_left].
  generalize (Py.join2 build_space "install"). intros base Hxy.
  unfold Py.join2. rewrite <- Hxy.
  destruct (Py.startswith "/" x); [done |].
  destruct (_ || _); intros Heq.
  - by apply (inj (String.append base)) in Heq.
  - apply (inj (String.append base)) in Heq.
    by apply (inj (String.append "/")) in Heq.
Qed.

(** X13: the debian-fix stage of a returned Job is never planned to
    rename a path onto itself: its source path (the [site-packages] name) and its destination
    path (the [dist-packages] name, collapsed for Python 3) are different
    for every install-directory name, build space and probed version. *)
Theorem build_job_debian_fix_paths_differ
    (h : Host) (context : Context) (package : Package) (package_path : string)
    (dependencies : list string) (force_cmake pre_clean : bool) (g : Globals)
    (v : PythonVersion) (contents : string) :
  probe h (resolved context g) = inr v ->
  open_read h (setup_py_path context package_path) = Some contents ->
  RSYNC_EXEC g <> None ->
  Py.contains "dist-packages" (get_python_install_dir h) = true ->
  exists job g' st src dst,
    create_python_build_job h context package package_path dependencies
      force_cmake pre_clean g = (inr job, g')
    /\ stages_named "debian-fix" job = [st]
    /\ kwarg "source_path" st = Some (VStr src)
    /\ kwarg "dest_path" st = Some (VStr dst)
    /\ src <> dst.
Proof.
  intros Hprobe Hread Hrsync Hdist.
  pose proof (build_job_run h context package package_path dependencies
                force_cmake pre_clean g v contents Hprobe Hread Hrsync) as Hrun.
  cbv zeta in Hrun. rewrite Hdist in Hrun.
  set (dir := get_python_install_dir h) in *.
  assert (Hsite : Py.replace "dist-packages" "site-packages" dir <> dir).
  { by apply replace_changes. }
  assert (Hslash : Py.startswith "/"
                     (Py.replace "dist-packages" "site-packages" dir)
                   = Py.startswith "/" dir).
  { by apply (replace_keeps_leading_slash "d" "s"). }
  destruct (Z.eqb (major v) 3) eqn:Hmajor.
  - eexists _, _, _, _, _. split; [exact Hrun |].
    split; [reflexivity |]. split; [reflexivity |]. split; [reflexivity |].
    set (new := "python" +:+ Py.str_of_int (major v)).
    set (old := "python" +:+ Py.str_of_int (major v) +:+ "." +:+
                Py.str_of_int (minor v)).
    assert (Hlen : String.length new < String.length old).
    { subst new old. cbn [String.append String.length].
      rewrite !length_app_str. simpl. lia. }
    intros Heq. apply join_install_inj in Heq.
    + destruct (Py.contains old dir) eqn:Hold.
      * destruct (replace_from_length old new dir 0) as [_ Hshort];
          [done | lia | lia |].
        specialize (Hshort Hlen Hold).
        fold (Py.replace old new dir) in Hshort. rewrite <- Heq in Hshort.
        pose proof (replace_same_length "dist-packages" "site-packages" dir 0
                      ltac:(done) ltac:(done) ltac:(lia)) as Hsame.
        fold (Py.replace "dist-packages" "site-packages" dir) in Hsame. lia.
      * rewrite (replace_absent old new dir) in Heq by done. done.
    + rewrite Hslash. symmetry.
      by apply (replace_keeps_leading_slash "p" "p").
  - eexists _, _, _, _, _. split; [exact Hrun |].
    split; [reflexivity |]. split; [reflexivity |]. split; [reflexivity |].
    intros Heq. by apply join_install_inj in Heq.
Qed.

Lemma build_job_debian_fix_paths_differ_demo :
  exists job g' st src dst,
    create_python_build_job demo_host demo_context demo_package "tool_pkg"
      ["dep_a"] false false demo_globals = (inr job, g')
    /\ stages_named "debian-fix" job = [st]
    /\ kwarg "source_path" st = Some (VStr src)
    /\ kwarg "dest_path" st = Some (VStr dst)
    /\ src <> dst.
Proof.
  apply (build_job_debian_fix_paths_differ demo_host demo_context demo_package
           "tool_pkg" ["dep_a"] false false demo_globals
           {| major := 3; minor := 8 |} demo_setup_py).
  - vm_compute. reflexivity.
  - vm_compute. reflexivity.
  - vm_compute. discriminate.
  - vm_compute. reflexivity.
Defined.

Lemma all_chars_str_of_int (f : ascii -> bool) (n : Z) :
  (forall d, (d < 10)%N -> f (pretty_N_char d) = true) ->
  f "-"%char = true ->
  all_chars f (Py.str_of_int n) = true.
Proof.
  intros Hdigit Hdash.
  assert (Hpos : forall p, all_chars f (pretty (N.pos p)) = true).
  { intros p. unfold pretty, pretty_N. rewrite decide_False by done.
    by apply all_chars_pretty_go. }
  destruct n as [|p|p].
  - change (all_chars f (Py.str_of_int 0)) with (f (pretty_N_char 0) && true).
    by rewrite (Hdigit 0%N).
  - apply Hpos.
  - unfold Py.str_of_int, pretty, pretty_Z.
    change (pretty p) with (pretty (N.pos p)).
    cbn [String.append all_chars]. by rewrite Hdash, Hpos.
Qed.

Lemma pretty_char_not_d (d : N) :
  (d < 10)%N -> negb (Ascii.eqb "d" (pretty_N_char d)) = true.
Proof.
  intros Hd.
  assert (d = 0 \/ d = 1 \/ d = 2 \/ d = 3 \/ d = 4 \/ d = 5 \/ d = 6
          \/ d = 7 \/ d = 8 \/ d = 9)%N as Hcases by lia.
  repeat (destruct Hcases as [->|Hcases]; [reflexivity |]).
  by subst d.
Qed.

(** X14: on a host whose install directory is
    [lib/python3.N/dist-packages], with a Python 3.N interpreter, the
    debian-fix stage of the returned Job renames [lib/python3.N/site-packages] to
    [lib/python3/dist-packages] under the build space's install
    directory, for every minor version [N]. *)
Theorem build_job_debian_layout
    (h : Host) (context : Context) (package : Package) (package_path : string)
    (dependencies : list string) (force_cmake pre_clean : bool) (g : Globals)
    (v : PythonVersion) (contents : string) :
  probe h (resolved context g) = inr v ->
  open_read h (setup_py_path context package_path) = Some contents ->
  RSYNC_EXEC g <> None ->
  major v = 3%Z ->
  get_python_install_dir h
  = "lib/python3." +:+ Py.str_of_int (minor v) +:+ "/dist-packages" ->
  exists job g',
    create_python_build_job h context package package_path dependencies
      force_cmake pre_clean g = (inr job, g')
    /\ stages_named "debian-fix" job
       = [FunctionStage "debian-fix" Fn.renamepath None
            [("source_path",
              VStr (Py.os_path_join (package_build_space context package)
                      ["install";
                       "lib/python3." +:+ Py.str_of_int (minor v)
                       +:+ "/site-packages"]));
             ("dest_path",
              VStr (Py.os_path_join (package_build_space context package)
                      ["install"; "lib/python3/dist-packages"]))]].
Proof.
  intros Hprobe Hread Hrsync Hmajor Hdir. eexists _, _.
  split; [by apply build_job_run |].
  set (m := Py.str_of_int (minor v)) in *.
  assert (Hcontains : Py.contains "dist-packages" (get_python_install_dir h)
                      = true).
  { rewrite Hdir. apply contains_iff.
    exists ("lib/python3." +:+ m +:+ "/"), "".
    cbn [String.append]. by rewrite !app_assoc_str. }
  assert (Hsite : Py.replace "dist-packages" "site-packages"
                    (get_python_install_dir h)
                  = "lib/python3." +:+ m +:+ "/site-packages").
  { rewrite Hdir.
    assert ("lib/python3." +:+ m +:+ "/dist-packages"
            = ("lib/python3." +:+ m +:+ "/") +:+ "dist-packages" +:+ "") as ->.
    { cbn [String.append]. by rewrite !app_assoc_str. }
    change "dist-packages" with (String "d" "ist-packages") at 1.
    rewrite replace_skip_prefix.
    - change (String "d" "ist-packages") with "dist-packages".
      rewrite replace_at_occurrence by done.
      cbn [String.append]. rewrite !app_assoc_str.
      by change (Py.replace "dist-packages" "site-packages" "") with "".
    - cbn [String.append all_chars]. rewrite all_chars_app. subst m.
      rewrite all_chars_str_of_int; [done | apply pretty_char_not_d | done]. }
  unfold stages_named. cbn [stages].
  rewrite Hcontains, Hsite, Hmajor. cbn [Z.eqb Pos.eqb].
  rewrite Hdir.
  change ("python" +:+ Py.str_of_int 3 +:+ "." +:+ m)
    with ("python3." +:+ m).
  change ("python" +:+ Py.str_of_int 3) with "python3".
  by rewrite collapse_debian_layout.
Qed.

Lemma build_job_debian_layout_demo :
  exists job g',
    create_python_build_job (with_install_dir "lib/python3.8/dist-packages")
      demo_context demo_package "tool_pkg" ["dep_a"] false false demo_globals
    = (inr job, g')
    /\ stages_named "debian-fix" job
       = [FunctionStage "debian-fix" Fn.renamepath None
            [("source_path",
              VStr (Py.os_path_join "/ws/build/tool_pkg"
                      ["install";
                       "lib/python3." +:+ Py.str_of_int 8
                       +:+ "/site-packages"]));
             ("dest_path",
              VStr (Py.os_path_join "/ws/build/tool_pkg"
                      ["install"; "lib/python3/dist-packages"]))]].
Proof.
  apply (build_job_debian_layout (with_install_dir "lib/python3.8/dist-packages")
           demo_context demo_package "tool_pkg" ["dep_a"] false false
           demo_globals {| major := 3; minor := 8 |} demo_setup_py).
  - vm_compute. reflexivity.
  - vm_compute. reflexivity.
  - vm_compute. discriminate.
  - reflexivity.
  - vm_compute. reflexivity.
Defined.

(** ** More on [fix_shebangs] *)

Lemma fix_shebang_contents_modified (python_exec contents : string) :
  snd (fix_shebang_contents python_exec contents) = has_global_shebang contents.
Proof.
  unfold fix_shebang_contents, has_global_shebang.
  destruct (Re.re_match shebang_direct contents); [done |].
  by destruct (Re.re_match shebang_env contents).
Qed.

Lemma fix_shebang_contents_unmatched (python_exec contents : string) :
  has_global_shebang contents = false ->
  fix_shebang_contents python_exec contents = (contents, false).
Proof.
  unfold fix_shebang_contents, has_global_shebang.
  intros [Hd He]%orb_false_iff. by rewrite Hd, He.
Qed.

(** The write log of a pass: the visited files that begin with a
    directive, in order. *)
Lemma fix_paths_writes (python_exec : string) (paths : list string) (fs : FS) :
  Forall (fun p => is_Some (files fs !! p)) paths -> NoDup paths ->
  exists fs',
    for_each paths (fix_shebang_path python_exec) fs = (inr tt, fs')
    /\ writes fs' = writes fs ++ List.filter (needs_shebang_fix fs) paths.
Proof.
  revert fs. induction paths as [|p0 paths IH]; intros fs Hall Hnd.
  - exists fs. split; [done | by rewrite app_nil_r].
  - apply Forall_cons in Hall as [[c0 Hc0] Hall].
    apply NoDup_cons in Hnd as [Hp0 Hnd].
    destruct (fix_shebang_path_run python_exec p0 fs c0 Hc0)
      as (fs1 & Hrun1 & Hwalk1 & Hfiles1 & Hwrites1).
    assert (Hsame : forall p, p ∈ paths -> files fs1 !! p = files fs !! p).
    { intros p Hp. rewrite Hfiles1, lookup_insert_ne; [done |].
      by intros ->. }
    destruct (IH fs1) as (fs' & Hrun & Hwrites); [| done |].
    { apply Forall_forall. intros p Hp. rewrite Hsame by done.
      by apply (proj1 (Forall_forall _ _) Hall). }
    exists fs'. split.
    { cbn [for_each]. unfold bind. by rewrite Hrun1. }
    rewrite Hwrites, Hwrites1, fix_shebang_contents_modified.
    cbn [List.filter]. unfold needs_shebang_fix at 2. rewrite Hc0.
    rewrite <- app_assoc. f_equal.
    assert (List.filter (needs_shebang_fix fs1) paths
            = List.filter (needs_shebang_fix fs) paths) as ->.
    { apply List.filter_ext_in. intros p Hp%list_elem_of_In.
      unfold needs_shebang_fix. by rewrite Hsame. }
    by destruct (has_global_shebang c0).
Qed.

(** X15: on a tree whose walked [.py] files are distinct and readable,
    [fix_shebangs] writes exactly the walked [.py] files that begin with
    [#!/usr/bin/python] or [#!/usr/bin/env python] followed by whitespace
    or the end of the file, each once and in walk order, and writes no
    other file. *)
Theorem fix_shebangs_writes (fs : FS) (pkg_dir python_exec : string) :
  NoDup (walked_py_files fs pkg_dir) ->
  Forall (fun p => is_Some (files fs !! p)) (walked_py_files fs pkg_dir) ->
  exists fs',
    fix_shebangs pkg_dir python_exec fs = (inr 0%Z, fs')
    /\ writes fs'
       = writes fs
         ++ List.filter (needs_shebang_fix fs) (walked_py_files fs pkg_dir).
Proof.
  intros Hnd Hall.
  destruct (fix_paths_writes python_exec _ fs Hall Hnd)
    as (fs' & Hrun & Hwrites).
  exists fs'. split; [| done].
  rewrite fix_shebangs_as_paths. unfold bind. by rewrite Hrun.
Qed.

Lemma fix_shebangs_writes_demo :
  exists fs',
    fix_shebangs "/ws/install" "/opt/py3/bin/python3" demo_fs = (inr 0%Z, fs')
    /\ writes fs'
       = writes demo_fs
         ++ List.filter (needs_shebang_fix demo_fs)
              (walked_py_files demo_fs "/ws/install").
Proof.
  apply (fix_shebangs_writes demo_fs "/ws/install" "/opt/py3/bin/python3").
  - apply (bool_decide_unpack _). vm_compute. exact I.
  - apply (bool_decide_unpack _). vm_compute. exact I.
Defined.

(** X16: [fix_shebangs] stops with [IOError] at the first walked [.py]
    file that cannot be opened: the files before it in walk order have
    been processed, and no file outside those has been changed, whatever
    its content. *)
Theorem fix_shebangs_stops_at_unreadable
    (fs : FS) (pkg_dir python_exec : string) (before after : list string)
    (path : string) :
  walked_py_files fs pkg_dir = before ++ path :: after ->
  Forall (fun p => is_Some (files fs !! p)) before ->
  files fs !! path = None ->
  exists fs1,
    fix_shebangs pkg_dir python_exec fs = (inl IOError, fs1)
    /\ for_each before (fix_shebang_path python_exec) fs = (inr tt, fs1)
    /\ forall p, ~ In p before -> files fs1 !! p = files fs !! p.
Proof.
  intros Hwalk Hbefore Hpath.
  destruct (fix_paths_run python_exec before fs Hbefore)
    as (fs1 & Hrun & _ & Hdom & Hframe & _).
  exists fs1. split; [| split; [done |]].
  - rewrite fix_shebangs_as_paths, Hwalk. unfold bind at 1.
    rewrite for_each_app. unfold bind at 1. rewrite Hrun.
    cbn [for_each]. unfold bind at 1.
    unfold fix_shebang_path, read_bytes, bind, get, or_raise.
    assert (files fs1 !! path = None) as ->; [| done].
    apply eq_None_not_Some. rewrite Hdom. by rewrite Hpath; intros [? ?].
  - intros p Hp. apply Hframe. by rewrite list_elem_of_In.
Qed.

Lemma fix_shebangs_stops_at_unreadable_demo :
  exists fs1,
    fix_shebangs "/ws/install" "/opt/py3/bin/python3" demo_fs_dangling
    = (inl IOError, fs1)
    /\ for_each ["/ws/install/bin/tool.py"]
         (fix_shebang_path "/opt/py3/bin/python3") demo_fs_dangling
       = (inr tt, fs1)
    /\ forall p, ~ In p ["/ws/install/bin/tool.py"] ->
         files fs1 !! p = files demo_fs_dangling !! p.
Proof.
  apply (fix_shebangs_stops_at_unreadable demo_fs_dangling "/ws/install"
           "/opt/py3/bin/python3" ["/ws/install/bin/tool.py"]
           ["/ws/install/bin/env_tool.py"] "/ws/install/bin/gone.py").
  - vm_compute. reflexivity.
  - apply (bool_decide_unpack _). vm_compute. exact I.
  - vm_compute. reflexivity.
Defined.

(** X17: a walked [.py] file that does not begin with
    [#!/usr/bin/python] nor with [#!/usr/bin/env python] keeps its content
    and is not written: a directive elsewhere in the file, or another
    interpreter path, is never rewritten. *)
Theorem fix_shebangs_leaves_other_files (fs : FS) (pkg_dir python_exec : string) :
  NoDup (walked_py_files fs pkg_dir) ->
  Forall (fun p => is_Some (files fs !! p)) (walked_py_files fs pkg_dir) ->
  exists fs',
    fix_shebangs pkg_dir python_exec fs = (inr 0%Z, fs')
    /\ forall path contents,
         In path (walked_py_files fs pkg_dir) ->
         files fs !! path = Some contents ->
         Py.startswith "#!/usr/bin/python" contents = false ->
         Py.startswith "#!/usr/bin/env python" contents = false ->
         files fs' !! path = Some contents
         /\ ~ In path (List.skipn (length (writes fs)) (writes fs')).
Proof.
  intros Hnd Hall.
  destruct (fix_paths_run python_exec _ fs Hall)
    as (fs' & Hrun & _ & _ & _ & Hfix).
  destruct (fix_paths_writes python_exec _ fs Hall Hnd)
    as (fs'' & Hrun' & Hwrites).
  rewrite Hrun in Hrun'. injection Hrun' as <-.
  exists fs'. split.
  { rewrite fix_shebangs_as_paths. unfold bind. by rewrite Hrun. }
  intros path contents Hin Hc Hd He.
  assert (Hno : has_global_shebang contents = false).
  { unfold has_global_shebang, shebang_direct, shebang_env.
    by rewrite !re_match_directive, Hd, He. }
  split.
  - apply list_elem_of_In in Hin. rewrite (Hfix Hnd _ _ Hin Hc).
    by rewrite fix_shebang_contents_unmatched.
  - rewrite Hwrites, List.skipn_app, List.skipn_all, Nat.sub_diag.
    cbn [List.skipn app]. intros [_ Hneeds]%List.filter_In.
    unfold needs_shebang_fix in Hneeds. by rewrite Hc, Hno in Hneeds.
Qed.

Lemma fix_shebangs_leaves_other_files_demo :
  (In "/ws/install/bin/late.py" (walked_py_files demo_fs_mixed "/ws/install")
   /\ files demo_fs_mixed !! "/ws/install/bin/late.py"
      = Some ("# tool" +:+ Py.LF +:+ "#!/usr/bin/python" +:+ Py.LF)
   /\ Py.startswith "#!/usr/bin/python"
        ("# tool" +:+ Py.LF +:+ "#!/usr/bin/python" +:+ Py.LF) = false
   /\ Py.startswith "#!/usr/bin/env python"
        ("# tool" +:+ Py.LF +:+ "#!/usr/bin/python" +:+ Py.LF) = false)
  /\ exists fs',
       fix_shebangs "/ws/install" "/opt/py3/bin/python3" demo_fs_mixed
       = (inr 0%Z, fs')
       /\ forall path contents,
            In path (walked_py_files demo_fs_mixed "/ws/install") ->
            files demo_fs_mixed !! path = Some contents ->
            Py.startswith "#!/usr/bin/python" contents = false ->
            Py.startswith "#!/usr/bin/env python" contents = false ->
            files fs' !! path = Some contents
            /\ ~ In path (List.skipn (length (writes demo_fs_mixed))
                            (writes fs')).
Proof.
  split.
  { vm_compute. repeat split; try reflexivity. right. right. by left. }
  apply (fix_shebangs_leaves_other_files demo_fs_mixed "/ws/install"
           "/opt/py3/bin/python3").
  - apply (bool_decide_unpack _). vm_compute. exact I.
  - apply (bool_decide_unpack _). vm_compute. exact I.
Defined.

(** On the mixed tree the pass writes the one script that names the
    global interpreter and leaves the three other [.py] files as they
    are. *)
Example fix_shebangs_mixed_tree_demo :
  let fs' :=
    snd (fix_shebangs "/ws/install" "/opt/py3/bin/python3" demo_fs_mixed) in
  writes fs' = ["/ws/install/bin/tool.py"]
  /\ files fs' !! "/ws/install/bin/tool.py"
     = Some ("#!/opt/py3/bin/python3" +:+ Py.LF +:+ "import sys" +:+ Py.LF)
  /\ files fs' !! "/ws/install/bin/plain.py" = Some ("import os" +:+ Py.LF)
  /\ files fs' !! "/ws/install/bin/late.py"
     = Some ("# tool" +:+ Py.LF +:+ "#!/usr/bin/python" +:+ Py.LF)
  /\ files fs' !! "/ws/install/bin/other.py"
     = Some ("#!/opt/py2/bin/python" +:+ Py.LF).
Proof. vm_compute. repeat split; reflexivity. Qed.

(** One file, whatever the outcome: no file appears or disappears. *)
Lemma fix_shebang_path_keeps (python_exec filepath : string) (fs : FS) :
  let fs1 := snd (fix_shebang_path python_exec filepath fs) in
  dom (files fs1) = dom (files fs)
  /\ os_walk fs1 = os_walk fs
  /\ exists w, writes fs1 = writes fs ++ w.
Proof.
  destruct (files fs !! filepath) as [c|] eqn:Hc.
  - destruct (fix_shebang_path_run python_exec filepath fs c Hc)
      as (fs1 & -> & Hwalk & Hfiles & Hwrites).
    cbn [snd]. rewrite Hfiles. split; [| split; [done | by eexists]].
    apply dom_insert_lookup_L. by eexists.
  - unfold fix_shebang_path, read_bytes, bind, get, or_raise. rewrite Hc.
    cbn. split; [done |]. split; [done |]. exists []. by rewrite app_nil_r.
Qed.

Lemma fix_paths_keep (python_exec : string) (paths : list string) (fs : FS) :
  let fs' := snd (for_each paths (fix_shebang_path python_exec) fs) in
  dom (files fs') = dom (files fs)
  /\ os_walk fs' = os_walk fs
  /\ exists w, writes fs' = writes fs ++ w.
Proof.
  revert fs. induction paths as [|p paths IH]; intros fs.
  - cbn. split; [done |]. split; [done |]. exists []. by rewrite app_nil_r.
  - destruct (fix_shebang_path_keeps python_exec p fs)
      as (Hdom1 & Hwalk1 & w1 & Hw1).
    cbn [for_each]. unfold bind.
    destruct (fix_shebang_path python_exec p fs) as [[e|[]] fs1].
    + cbn [snd] in *. split; [done |]. split; [done |]. by exists w1.
    + cbn [snd] in *. destruct (IH fs1) as (Hdom & Hwalk & w & Hw).
      split; [congruence |]. split; [congruence |].
      exists (w1 ++ w). by rewrite Hw, Hw1, app_assoc.
Qed.

(** X18: whether [fix_shebangs] returns or raises, the state it leaves
    has the same set of files and the same directory listing as the state
    it started from, and its write log extends the one it found:
    [fix_shebangs] creates no file, deletes none, and rewrites contents
    only. *)
Theorem fix_shebangs_keeps_tree (fs : FS) (pkg_dir python_exec : string) :
  let fs' := snd (fix_shebangs pkg_dir python_exec fs) in
  dom (files fs') = dom (files fs)
  /\ os_walk fs' = os_walk fs
  /\ exists w, writes fs' = writes fs ++ w.
Proof.
  intros fs'. subst fs'. rewrite fix_shebangs_as_paths.
  pose proof (fix_paths_keep python_exec (walked_py_files fs pkg_dir) fs)
    as Hkeep.
  unfold bind.
  by destruct (for_each _ _ fs) as [[e|[]] fs1].
Qed.

(** ** More on [fix_python3_install_space] *)

(** X19: whatever its outcome, [fix_python3_install_space] changes no
    file other than [setup.sh] in the install directory and keeps the set
    of files and the directory listing.  Where that path does not exist it
    returns 0 and leaves the state exactly as it was, with nothing
    written; where it is a file it returns 0; where it exists but cannot
    be opened (a directory, a file without permission) it raises
    [IOError] and leaves the state exactly as it was. *)
Theorem fix_python3_install_space_frame (fs : FS)
    (install_space old_python : string) (new_python : Z) :
  let filepath := Py.os_path_join install_space ["setup.sh"] in
  exists outcome fs',
    fix_python3_install_space install_space old_python new_python fs
    = (outcome, fs')
    /\ dom (files fs') = dom (files fs)
    /\ unreadable fs' = unreadable fs
    /\ os_walk fs' = os_walk fs
    /\ (forall p, p <> filepath -> files fs' !! p = files fs !! p)
    /\ (files fs !! filepath = None -> fs' = fs)
    /\ (is_Some (files fs !! filepath) \/ filepath ∉ unreadable fs ->
        outcome = inr 0%Z)
    /\ (files fs !! filepath = None -> filepath ∈ unreadable fs ->
        outcome = inl IOError).
Proof.
  intros filepath.
  destruct (files fs !! filepath) as [contents|] eqn:Hfile.
  - unfold fix_python3_install_space, path_exists, read_bytes, write_bytes,
      bind, get, put, ret, or_raise.
    fold filepath. rewrite Hfile.
    rewrite bool_decide_eq_true_2 by (left; eauto).
    rewrite Hfile. cbv beta iota delta [ret].
    destruct (negb _).
    + eexists _, _. split; [reflexivity |]. cbn [files unreadable os_walk].
      split; [apply dom_insert_lookup_L; by eexists |].
      split; [done |]. split; [done |].
      split; [intros p Hp; by rewrite lookup_insert_ne |].
      split; [done |]. split; [done | done].
    + exists (inr 0%Z), fs. by repeat split.
  - destruct (decide (filepath ∈ unreadable fs)) as [Hin|Hnot].
    + exists (inl IOError), fs. split.
      { unfold fix_python3_install_space, path_exists, read_bytes,
          bind, get, ret, or_raise.
        fold filepath. rewrite Hfile.
        rewrite bool_decide_eq_true_2 by (by right).
        by rewrite Hfile. }
      repeat split; try done.
      intros [[? ?]|?]; done.
    + exists (inr 0%Z), fs.
      split; [by apply fix_python3_install_space_absent |].
      by repeat split.
Qed.

(** On a tree where [setup.sh] is a directory the helper raises and
    changes nothing; on a tree without the path it returns 0. *)
Example fix_python3_install_space_directory_demo :
  fix_python3_install_space "/ws/install" "3.8" 3 demo_fs_setup_dir
  = (inl IOError, demo_fs_setup_dir)
  /\ fix_python3_install_space "/ws/other" "3.8" 3 demo_fs_setup_dir
     = (inr 0%Z, demo_fs_setup_dir).
Proof. split; reflexivity. Qed.

(** ** The planned helper stages, run *)

(** The decimal text of a number is its own encoding. *)
Lemma encode_ascii (s : string) :
  all_chars (fun c => (N_of_ascii c <? 128)%N) s = true -> Py.encode s = s.
Proof.
  induction s as [|c s IH]; [done |].
  cbn [all_chars Py.encode]. intros [Hc Hs]%andb_true_iff.
  rewrite IH by done. unfold Py.encode_char. by rewrite Hc.
Qed.

Lemma pretty_char_ascii (d : N) :
  (d < 10)%N -> (N_of_ascii (pretty_N_char d) <? 128)%N = true.
Proof.
  intros Hd.
  assert (d = 0 \/ d = 1 \/ d = 2 \/ d = 3 \/ d = 4 \/ d = 5 \/ d = 6
          \/ d = 7 \/ d = 8 \/ d = 9)%N as Hcases by lia.
  repeat (destruct Hcases as [->|Hcases]; [reflexivity |]).
  by subst d.
Qed.

Lemma encode_str_of_int (n : Z) : Py.encode (Py.str_of_int n) = Py.str_of_int n.
Proof.
  apply encode_ascii.
  apply (all_chars_str_of_int (fun c => (N_of_ascii c <? 128)%N));
    [apply pretty_char_ascii | reflexivity].
Qed.

(** [fix_python3_install_space] on an existing [setup.sh]. *)
Lemma fix_python3_install_space_run (fs : FS)
    (install_space old_python : string) (new_python : Z) (contents : string) :
  files fs !! Py.os_path_join install_space ["setup.sh"] = Some contents ->
  exists fs',
    fix_python3_install_space install_space old_python new_python fs
    = (inr 0%Z, fs')
    /\ files fs' !! Py.os_path_join install_space ["setup.sh"]
       = Some (Py.replace (Py.encode ("/lib/python" +:+ old_python))
                 (Py.encode ("/lib/python" +:+ Py.str_of_int new_python))
                 contents).
Proof.
  intros Hfile.
  pose proof (encode_lib_python_not_empty old_python) as Hold.
  pose proof (encode_lib_python_not_empty (Py.str_of_int new_python)) as Hnew.
  unfold fix_python3_install_space, path_exists, read_bytes, write_bytes,
    bind, get, put, ret, or_raise.
  rewrite Hfile. rewrite bool_decide_eq_true_2 by (left; eauto).
  rewrite Hfile. cbv beta iota delta [ret].
  destruct (String.eqb_spec
              (Py.replace (Py.encode ("/lib/python" +:+ old_python))
                 (Py.encode ("/lib/python" +:+ Py.str_of_int new_python))
                 contents) "")
    as [Hempty|Hne]; cbn [negb].
  - exists fs. split; [done |]. rewrite Hempty.
    apply replace_empty_result in Hempty; [| done | done].
    by rewrite Hfile, Hempty.
  - eexists. split; [reflexivity |]. cbn [files].
    by rewrite lookup_insert_eq.
Qed.

(** X20: the parameters the planner binds to the
    fix_python3_install_space stage of a returned Job for a Python 3.N
    interpreter are the
    package's destination path, the text [3.N] and the number 3; run with
    them on a tree whose [setup.sh] exists, the helper replaces every
    [/lib/python3.N] of that file by [/lib/python3]. *)
Theorem planned_python3_patch
    (h : Host) (context : Context) (package : Package) (package_path : string)
    (dependencies : list string) (force_cmake pre_clean : bool) (g : Globals)
    (v : PythonVersion) (contents : string) :
  probe h (resolved context g) = inr v ->
  open_read h (setup_py_path context package_path) = Some contents ->
  RSYNC_EXEC g <> None ->
  major v = 3%Z ->
  exists job g' st old new,
    create_python_build_job h context package package_path dependencies
      force_cmake pre_clean g = (inr job, g')
    /\ stages_named "fix_python3_install_space" job = [st]
    /\ kwarg "install_space" st = Some (VStr (package_dest_path context package))
    /\ kwarg "old_python" st = Some (VStr old)
    /\ kwarg "new_python" st = Some (VInt new)
    /\ forall (fs : FS) (setup_sh : string),
         files fs !! Py.os_path_join (package_dest_path context package)
                       ["setup.sh"] = Some setup_sh ->
         exists fs',
           fix_python3_install_space (package_dest_path context package)
             old new fs = (inr 0%Z, fs')
           /\ files fs' !! Py.os_path_join (package_dest_path context package)
                             ["setup.sh"]
              = Some (Py.replace
                        ("/lib/python3." +:+ Py.str_of_int (minor v))
                        "/lib/python3" setup_sh).
Proof.
  intros Hprobe Hread Hrsync Hmajor.
  pose proof (build_job_run h context package package_path dependencies
                force_cmake pre_clean g v contents Hprobe Hread Hrsync) as Hrun.
  cbv zeta in Hrun. rewrite Hmajor in Hrun. cbn [Z.eqb Pos.eqb] in Hrun.
  eexists _, _, _, _, _. split; [exact Hrun |].
  unfold stages_named. cbn [stages].
  split; [by destruct (Py.contains _ _) |].
  split; [reflexivity |]. split; [reflexivity |]. split; [reflexivity |].
  intros fs setup_sh Hfile.
  destruct (fix_python3_install_space_run fs _
              (Py.str_of_int 3 +:+ "." +:+ Py.str_of_int (minor v)) 3 setup_sh
              Hfile) as (fs' & Hhelper & Hpatched).
  exists fs'. split; [exact Hhelper |]. rewrite Hpatched.
  rewrite !encode_lib_python.
  change (Py.str_of_int 3) with "3". rewrite !encode_app, encode_str_of_int.
  reflexivity.
Qed.

Lemma planned_python3_patch_demo :
  exists job g' st old new,
    create_python_build_job demo_host demo_context demo_package "tool_pkg"
      ["dep_a"] false false demo_globals = (inr job, g')
    /\ stages_named "fix_python3_install_space" job = [st]
    /\ kwarg "install_space" st = Some (VStr "/ws/install")
    /\ kwarg "old_python" st = Some (VStr old)
    /\ kwarg "new_python" st = Some (VInt new)
    /\ forall (fs : FS) (setup_sh : string),
         files fs !! Py.os_path_join "/ws/install" ["setup.sh"]
         = Some setup_sh ->
         exists fs',
           fix_python3_install_space "/ws/install" old new fs = (inr 0%Z, fs')
           /\ files fs' !! Py.os_path_join "/ws/install" ["setup.sh"]
              = Some (Py.replace ("/lib/python3." +:+ Py.str_of_int 8)
                        "/lib/python3" setup_sh).
Proof.
  apply (planned_python3_patch demo_host demo_context demo_package
           "tool_pkg" ["dep_a"] false false demo_globals
           {| major := 3; minor := 8 |} demo_setup_py).
  - vm_compute. reflexivity.
  - vm_compute. reflexivity.
  - vm_compute. discriminate.
  - reflexivity.
Defined.

(** X21: the parameters the planner binds to the fix-shebang stage of a
    returned Job are the package's destination path and the interpreter of the python
    stage; run with them on a tree whose walked [.py] files are distinct
    and readable, the helper makes every such file that begins with
    [#!/usr/bin/python] or [#!/usr/bin/env python], followed by whitespace
    or the end of the file, begin with the UTF-8 encoding of [#!] and the
    path of the interpreter that built the package. *)
Theorem planned_shebang_fix
    (h : Host) (context : Context) (package : Package) (package_path : string)
    (dependencies : list string) (force_cmake pre_clean : bool) (g : Globals)
    (v : PythonVersion) (contents : string) :
  probe h (resolved context g) = inr v ->
  open_read h (setup_py_path context package_path) = Some contents ->
  RSYNC_EXEC g <> None ->
  exists job g' st python args cwd lock exec,
    create_python_build_job h context package package_path dependencies
      force_cmake pre_clean g = (inr job, g')
    /\ stages_named "python" job = [python]
    /\ python = CommandStage "python" (VStr exec :: args) cwd lock
    /\ stages_named "fix-shebang" job = [st]
    /\ kwarg "pkg_dir" st = Some (VStr (package_dest_path context package))
    /\ kwarg "python_exec" st = Some (VStr exec)
    /\ forall fs : FS,
         NoDup (walked_py_files fs (package_dest_path context package)) ->
         Forall (fun p => is_Some (files fs !! p))
           (walked_py_files fs (package_dest_path context package)) ->
         exists fs',
           fix_shebangs (package_dest_path context package) exec fs
           = (inr 0%Z, fs')
           /\ forall path rest,
                In path (walked_py_files fs
                           (package_dest_path context package)) ->
                directive_end rest = true ->
                files fs !! path = Some ("#!/usr/bin/python" +:+ rest)
                \/ files fs !! path = Some ("#!/usr/bin/env python" +:+ rest) ->
                files fs' !! path
                = Some (Py.encode ("#!" +:+ exec) +:+ rest).
Proof.
  intros Hprobe Hread Hrsync.
  eexists _, _, _, _, _, _, _, (PYTHON_EXEC (resolved context g)).
  split; [by apply build_job_run |].
  unfold stages_named. cbn [stages].
  split; [by destruct (Py.contains _ _), (Z.eqb _ _) |].
  split; [reflexivity |].
  split; [by destruct (Py.contains _ _), (Z.eqb _ _) |].
  split; [reflexivity |]. split; [reflexivity |].
  intros fs Hnd Hall.
  destruct (fix_paths_run (PYTHON_EXEC (resolved context g)) _ fs Hall)
    as (fs' & Hrun & _ & _ & _ & Hfix).
  exists fs'. split.
  { rewrite fix_shebangs_as_paths. unfold bind. by rewrite Hrun. }
  intros path rest Hin Hrest [Hc|Hc]; apply list_elem_of_In in Hin;
    rewrite (Hfix Hnd _ _ Hin Hc).
  - by rewrite fix_shebang_contents_direct.
  - by rewrite fix_shebang_contents_env.
Qed.

Lemma planned_shebang_fix_demo :
  exists job g' st python args cwd lock exec,
    create_python_build_job demo_host demo_context demo_package "tool_pkg"
      ["dep_a"] false false demo_globals = (inr job, g')
    /\ stages_named "python" job = [python]
    /\ python = CommandStage "python" (VStr exec :: args) cwd lock
    /\ stages_named "fix-shebang" job = [st]
    /\ kwarg "pkg_dir" st = Some (VStr "/ws/install")
    /\ kwarg "python_exec" st = Some (VStr exec)
    /\ forall fs : FS,
         NoDup (walked_py_files fs "/ws/install") ->
         Forall (fun p => is_Some (files fs !! p))
           (walked_py_files fs "/ws/install") ->
         exists fs',
           fix_shebangs "/ws/install" exec fs = (inr 0%Z, fs')
           /\ forall path rest,
                In path (walked_py_files fs "/ws/install") ->
                directive_end rest = true ->
                files fs !! path = Some ("#!/usr/bin/python" +:+ rest)
                \/ files fs !! path = Some ("#!/usr/bin/env python" +:+ rest) ->
                files fs' !! path
                = Some (Py.encode ("#!" +:+ exec) +:+ rest).
Proof.
  apply (planned_shebang_fix demo_host demo_context demo_package
           "tool_pkg" ["dep_a"] false false demo_globals
           {| major := 3; minor := 8 |} demo_setup_py).
  - vm_compute. reflexivity.
  - vm_compute. reflexivity.
  - vm_compute. discriminate.
Defined.
